(** * Static-asset bundling pipeline: a shallow embedding

    The development follows the TypeScript sources:
    - [bun-static.ts]        ([bunStatic])                      -> [Module BunStatic]
    - [compress-files-in-dir.ts] ([compressFilesInDir])         -> [Module Compress]
    - [fix-js-duplicate-exports.ts]                             -> [Module ExportFix]
    - [bundling.tsx] ([ssrBundle], [generateSsrBundleHandlers],
      [resolveJsDependencies])                                  -> [Module Bundling]
    - [try-compress-response.ts] ([tryCompress])                -> [Module TryCompress]
    - [environment.ts] ([Environment])                          -> [Module Environment]

    JavaScript strings are [string]; byte buffers are [list byte]; a JS [Map]
    is an association list that keeps insertion order ([Module JsMap]); the
    file system is such a map from paths to contents; a thrown error is the
    [Throw] constructor of [result]. *)

From Stdlib Require Import String Ascii List Bool Arith ZArith Lia.
From Stdlib Require Import Strings.Byte Numbers.DecimalString.
Import ListNotations.
Open Scope string_scope.

Set Implicit Arguments.

(** ** Thrown errors *)

Inductive result (A : Type) : Type :=
| Ok (a : A)
| Throw (msg : string).
Arguments Ok {A} a.
Arguments Throw {A} msg.

Definition bytes := list byte.

(** ** JavaScript string primitives *)

Module Str.

(** [s.startsWith(p)] *)
Definition startsWith (s p : string) : bool := String.prefix p s.

(** [s.endsWith(suf)] *)
Fixpoint endsWith (s suf : string) : bool :=
  (s =? suf) ||
  match s with
  | EmptyString => false
  | String _ t => endsWith t suf
  end.

(** [s.includes(pat)] *)
Fixpoint includes (s pat : string) : bool :=
  String.prefix pat s ||
  match s with
  | EmptyString => false
  | String _ t => includes t pat
  end.

(** [s.indexOf(pat)], [None] for -1 *)
Fixpoint indexOf (s pat : string) : option nat :=
  if String.prefix pat s then Some 0
  else match s with
       | EmptyString => None
       | String _ t => option_map S (indexOf t pat)
       end.

(** [s.slice(i, j)] for [0 <= i], [0 <= j] *)
Definition slice (s : string) (i j : nat) : string :=
  String.substring i (j - i) s.

(** [s.slice(i)] for [0 <= i] *)
Definition sliceFrom (s : string) (i : nat) : string :=
  String.substring i (String.length s - i) s.

(** [s.slice(0, -k)] *)
Definition dropRight (s : string) (k : nat) : string :=
  String.substring 0 (String.length s - k) s.

(** [s.replace(pat, rep)] with a string pattern: the first occurrence only *)
Definition replaceFirst (s pat rep : string) : string :=
  match indexOf s pat with
  | None => s
  | Some i => slice s 0 i ++ rep ++ sliceFrom s (i + String.length pat)
  end.

(** [s.split(sep)] for a one-character separator *)
Fixpoint splitOn (sep : ascii) (s : string) : list string :=
  match s with
  | EmptyString => [EmptyString]
  | String c t =>
      if Ascii.eqb c sep then EmptyString :: splitOn sep t
      else match splitOn sep t with
           | [] => [String c EmptyString]
           | h :: r => String c h :: r
           end
  end.

(** [parts.join(sep)] *)
Definition join (sep : string) (parts : list string) : string :=
  String.concat sep parts.

Definition isWhitespace (c : ascii) : bool :=
  let n := nat_of_ascii c in
  ((n =? 32) || (n =? 9) || (n =? 10) || (n =? 13) || (n =? 11) || (n =? 12))%nat.

(** [s.trim()] *)
Fixpoint trimStart (s : string) : string :=
  match s with
  | EmptyString => EmptyString
  | String c t => if isWhitespace c then trimStart t else s
  end.

Fixpoint rev_acc (s acc : string) : string :=
  match s with
  | EmptyString => acc
  | String c t => rev_acc t (String c acc)
  end.

Definition rev (s : string) : string := rev_acc s EmptyString.

Definition trim (s : string) : string := rev (trimStart (rev (trimStart s))).

(** [s.lastIndexOf(c)] for a character *)
Fixpoint lastIndexOfChar (c : ascii) (s : string) : option nat :=
  match s with
  | EmptyString => None
  | String d t =>
      match lastIndexOfChar c t with
      | Some i => Some (S i)
      | None => if Ascii.eqb d c then Some 0 else None
      end
  end.

(** [n.toString()] for a non-negative integer *)
Definition ofNat (n : nat) : string := NilEmpty.string_of_uint (Nat.to_uint n).

Definition lowerChar (c : ascii) : ascii :=
  let n := nat_of_ascii c in
  if ((65 <=? n) && (n <=? 90))%nat then ascii_of_nat (n + 32) else c.

(** [s.toLowerCase()] on ASCII *)
Fixpoint toLowerCase (s : string) : string :=
  match s with
  | EmptyString => EmptyString
  | String c t => String (lowerChar c) (toLowerCase t)
  end.

End Str.

(** ** Node's POSIX [path] module *)

Module Path.

(** the segment walk of [normalizeString] *)
Fixpoint normalizeSegments (allowAboveRoot : bool) (segs : list string)
         (stack : list string) : list string :=
  match segs with
  | [] => List.rev stack
  | seg :: rest =>
      if (seg =? "") || (seg =? ".") then
        normalizeSegments allowAboveRoot rest stack
      else if seg =? ".." then
        match stack with
        | top :: below =>
            if top =? ".." then
              normalizeSegments allowAboveRoot rest
                (if allowAboveRoot then ".." :: stack else stack)
            else normalizeSegments allowAboveRoot rest below
        | [] =>
            normalizeSegments allowAboveRoot rest
              (if allowAboveRoot then [".."] else [])
        end
      else normalizeSegments allowAboveRoot rest (seg :: stack)
  end.

(** [path.normalize(p)] *)
Definition normalize (p : string) : string :=
  if p =? "" then "."
  else
    let isAbsolute := Str.startsWith p "/" in
    let trailingSeparator := Str.endsWith p "/" in
    let body :=
      Str.join "/" (normalizeSegments (negb isAbsolute) (Str.splitOn "/" p) []) in
    if body =? "" then
      if isAbsolute then "/" else if trailingSeparator then "./" else "."
    else
      let body := if trailingSeparator then body ++ "/" else body in
      if isAbsolute then "/" ++ body else body.

(** [path.join(a, b)] *)
Definition join (a b : string) : string :=
  match (a =? ""), (b =? "") with
  | true, true => "."
  | true, false => normalize b
  | false, true => normalize a
  | false, false => normalize (a ++ "/" ++ b)
  end.

(** [path.basename(p)]: the last non-empty segment *)
Definition basename (p : string) : string :=
  match List.rev (List.filter (fun s => negb (s =? "")) (Str.splitOn "/" p)) with
  | [] => ""
  | b :: _ => b
  end.

(** [path.parse(base).name] for a base name: the part before the last dot,
    unless there is no dot, the dot is the first character, or the base is
    [".."] *)
Definition parseName (base : string) : string :=
  if base =? ".." then base
  else match Str.lastIndexOfChar "." base with
       | None | Some 0 => base
       | Some i => Str.slice base 0 i
       end.

End Path.

(** ** JavaScript [Map]: insertion-ordered association list *)

Module JsMap.

Section Defs.
Variable V : Type.

Definition t := list (string * V).

Fixpoint get (m : t) (k : string) : option V :=
  match m with
  | [] => None
  | (k', v) :: r => if k' =? k then Some v else get r k
  end.

Definition has (m : t) (k : string) : bool :=
  match get m k with Some _ => true | None => false end.

(** [m.set(k, v)]: an existing key keeps its position *)
Fixpoint set (m : t) (k : string) (v : V) : t :=
  match m with
  | [] => [(k, v)]
  | (k', v') :: r => if k' =? k then (k, v) :: r else (k', v') :: set r k v
  end.

Definition keys (m : t) : list string := List.map fst m.
End Defs.

End JsMap.

(** ** The file system: paths to contents *)

Module Fs.

Definition t (A : Type) := JsMap.t A.

(** [Bun.file(p).size]: 0 for a missing file *)
Definition size (fs : t bytes) (p : string) : nat :=
  match JsMap.get fs p with
  | Some b => List.length b
  | None => 0
  end.

(** [await Bun.file(p).bytes()] / [.text()]: rejects for a missing file *)
Definition read (A : Type) (fs : t A) (p : string) : result A :=
  match JsMap.get fs p with
  | Some b => Ok b
  | None => Throw ("ENOENT: no such file or directory, open '" ++ p ++ "'")
  end.

End Fs.

Definition bind (A B : Type) (r : result A) (k : A -> result B) : result B :=
  match r with
  | Ok a => k a
  | Throw e => Throw e
  end.

Notation "x <- r ;; k" := (bind r (fun x => k))
  (at level 61, r at next level, right associativity).

(** [await Promise.all(xs.map(f))], the first rejection wins *)
Fixpoint mapM (A B : Type) (f : A -> result B) (xs : list A) : result (list B) :=
  match xs with
  | [] => Ok []
  | x :: r => y <- f x ;; ys <- mapM f r ;; Ok (y :: ys)
  end.

(** ** bun-static.ts *)

Module BunStatic.

Inductive Compression := gz | br | zst.

Definition Compression_eqb (a b : Compression) : bool :=
  match a, b with
  | gz, gz | br, br | zst, zst => true
  | _, _ => false
  end.

Definition extName (c : Compression) : string :=
  match c with gz => "gz" | br => "br" | zst => "zst" end.

Definition compressionExtensions : list Compression := [gz; br; zst].

Record GroupFile := { path : string; compression : option Compression }.

Record Group := { name : string; gpath : string; files : list GroupFile }.

Definition findCompressionExtension (fileName : string) : option Compression :=
  List.find (fun ext => Str.endsWith fileName ("." ++ extName ext))
            compressionExtensions.

Definition nameWithoutCompression (fileName : string) : string :=
  match findCompressionExtension fileName with
  | Some ext => Str.dropRight fileName (String.length (extName ext) + 1)
  | None => fileName
  end.

(** one turn of the grouping loop *)
Definition addFile (dir : string) (groups : JsMap.t (list GroupFile))
           (fileName : string) : JsMap.t (list GroupFile) :=
  let key := nameWithoutCompression fileName in
  let existing := match JsMap.get groups key with Some l => l | None => [] end in
  JsMap.set groups key
    (existing ++ [{| path := Path.join dir fileName;
                     compression := findCompressionExtension fileName |}])%list.

Definition groupedFiles (dir : string) (listing : list string) : list Group :=
  List.map (fun '(n, fs) => {| name := n; gpath := Path.join dir n; files := fs |})
           (List.fold_left (addFile dir) listing []).

(** [s.replace(/\/\//g, '/')] *)
Fixpoint collapseSlashes (s : string) : string :=
  match s with
  | EmptyString => EmptyString
  | String c t =>
      match t with
      | String d u =>
          if (Ascii.eqb c "/" && Ascii.eqb d "/")%bool
          then String "/" (collapseSlashes u)
          else String c (collapseSlashes t)
      | EmptyString => String c EmptyString
      end
  end.

Definition computeRoute (routePath : string) (spaMode : bool) (logicalName : string)
  : string :=
  let route := collapseSlashes (routePath ++ "/" ++ logicalName) in
  if route =? "/index.html" then
    if spaMode then "/*" else "/"
  else route.

(** *** Headers, requests, responses *)

Definition Headers := list (string * string).

Definition headersGet (h : Headers) (n : string) : option string :=
  JsMap.get h (Str.toLowerCase n).

Definition headersSet (h : Headers) (n v : string) : Headers :=
  JsMap.set h (Str.toLowerCase n) v.

Definition headersAppend (h : Headers) (nv : string * string) : Headers :=
  let n := Str.toLowerCase (fst nv) in
  match JsMap.get h n with
  | Some old => JsMap.set h n (old ++ ", " ++ snd nv)
  | None => (h ++ [(n, snd nv)])%list
  end.

(** [new Headers(init)], [init] possibly [undefined] *)
Definition newHeaders (init : option (list (string * string))) : Headers :=
  match init with
  | None => []
  | Some l => List.fold_left headersAppend l []
  end.

Inductive Body :=
| BytesBody (b : bytes)        (* a [Uint8Array] *)
| FileBody (p : string).       (* a lazy [BunFile] *)

Record Response := { headers : Headers; body : Body }.

Record Request := { url : string; reqHeaders : Headers }.

Inductive Handler :=
| StaticResponse (r : Response)
| RequestHandler (f : Request -> Response).

Inductive Strategy := ram | disk.

Inductive HeadersOption :=
| HeadersUndefined
| HeadersInit (h : list (string * string))
| HeadersFn (f : string -> list (string * string)).

(** the bytes a body delivers, [None] when a lazy file is gone *)
Definition bodyBytes (fs : Fs.t bytes) (b : Body) : option bytes :=
  match b with
  | BytesBody x => Some x
  | FileBody p => JsMap.get fs p
  end.

Definition acceptsEncoding (acceptEncoding : option string) (token : string) : bool :=
  match acceptEncoding with
  | Some v => Str.includes v token
  | None => false
  end.

Definition findVariant (g : Group) (c : Compression) : option GroupFile :=
  List.find (fun f => match compression f with
                      | Some c' => Compression_eqb c' c
                      | None => false
                      end) (files g).

Definition isSome (A : Type) (o : option A) : bool :=
  match o with Some _ => true | None => false end.

Section Handlers.
(** [Bun.file(p).type], the MIME type the runtime derives from the name *)
Variable mimeType : string -> string.
(** the files, by full path *)
Variable fs : Fs.t bytes.

(** [await Bun.file(f.path).bytes()] for an optional variant *)
Definition variantBytes (f : option GroupFile) : result (option bytes) :=
  match f with
  | Some v => b <- Fs.read fs (path v) ;; Ok (Some b)
  | None => Ok None
  end.

Definition variantSize (f : option GroupFile) : option string :=
  option_map (fun v => Str.ofNat (Fs.size fs (path v))) f.

Definition orEmpty (A : Type) (o : option (list A)) : list A :=
  match o with Some l => l | None => [] end.

(** [Bun.file(f.path)] for an optional variant; the handlers use it only
    behind the matching [has...] test *)
Definition variantFile (f : option GroupFile) : Body :=
  match f with
  | Some v => FileBody (path v)
  | None => BytesBody []
  end.

Definition orBlank (o : option string) : string :=
  match o with Some s => s | None => "" end.

Definition buildHandler (strategy : Strategy) (headersFn : HeadersOption)
           (file : Group) : result Handler :=
  let brotliFile := findVariant file br in
  let hasBrotli := isSome brotliFile in
  let gzipFile := findVariant file gz in
  let hasGzip := isSome gzipFile in
  let zstdFile := findVariant file zst in
  let hasZstd := isSome zstdFile in
  let hasCompressedVariants :=
    List.existsb (fun f => isSome (compression f)) (files file) in
  let bunFileContentLength := Str.ofNat (Fs.size fs (gpath file)) in
  let userHeaders :=
    match headersFn with
    | HeadersUndefined => None
    | HeadersFn f => Some (f (gpath file))
    | HeadersInit h => Some h
    end in
  let contentType := mimeType (gpath file) in
  if hasCompressedVariants then
    match strategy with
    | ram =>
        brotliFileBytes <- variantBytes brotliFile ;;
        let brotliFileContentLength := variantSize brotliFile in
        zstdFileBytes <- variantBytes zstdFile ;;
        let zstdFileContentLength := variantSize zstdFile in
        gzipFileBytes <- variantBytes gzipFile ;;
        let gzipFileContentLength := variantSize gzipFile in
        bunFileBytes <- Fs.read fs (gpath file) ;;
        Ok (RequestHandler (fun req =>
          let acceptEncoding := headersGet (reqHeaders req) "accept-encoding" in
          if hasBrotli && acceptsEncoding acceptEncoding "br" then
            let h := newHeaders userHeaders in
            let h := headersSet h "Content-Encoding" "br" in
            let h := headersSet h "Content-Type" contentType in
            let h := headersSet h "Content-Length" (orBlank brotliFileContentLength) in
            {| headers := h; body := BytesBody (orEmpty brotliFileBytes) |}
          else if hasZstd && acceptsEncoding acceptEncoding "zstd" then
            let h := newHeaders userHeaders in
            let h := headersSet h "Content-Encoding" "zstd" in
            let h := headersSet h "Content-Type" contentType in
            let h := headersSet h "Content-Length" (orBlank zstdFileContentLength) in
            {| headers := h; body := BytesBody (orEmpty zstdFileBytes) |}
          else if hasGzip && acceptsEncoding acceptEncoding "gzip" then
            let h := newHeaders userHeaders in
            let h := headersSet h "Content-Encoding" "gzip" in
            let h := headersSet h "Content-Type" contentType in
            let h := headersSet h "Content-Length" (orBlank gzipFileContentLength) in
            {| headers := h; body := BytesBody (orEmpty gzipFileBytes) |}
          else
            {| headers := newHeaders userHeaders; body := BytesBody bunFileBytes |}))
    | disk =>
        let brotliSize := variantSize brotliFile in
        let zstdSize := variantSize zstdFile in
        let gzipSize := variantSize gzipFile in
        Ok (RequestHandler (fun req =>
          let acceptEncoding := headersGet (reqHeaders req) "accept-encoding" in
          if hasBrotli && acceptsEncoding acceptEncoding "br" then
            let h := newHeaders userHeaders in
            let h := headersSet h "Content-Type" contentType in
            let h := headersSet h "Content-Encoding" "br" in
            let h := headersSet h "Content-Length" (orBlank brotliSize) in
            {| headers := h; body := variantFile brotliFile |}
          else if hasZstd && acceptsEncoding acceptEncoding "zstd" then
            let h := newHeaders userHeaders in
            let h := headersSet h "Content-Type" contentType in
            let h := headersSet h "Content-Encoding" "zstd" in
            let h := headersSet h "Content-Length" (orBlank zstdSize) in
            {| headers := h; body := variantFile zstdFile |}
          else if hasGzip && acceptsEncoding acceptEncoding "gzip" then
            let h := newHeaders userHeaders in
            let h := headersSet h "Content-Type" contentType in
            let h := headersSet h "Content-Encoding" "gzip" in
            let h := headersSet h "Content-Length" (orBlank gzipSize) in
            {| headers := h; body := variantFile gzipFile |}
          else
            let h := newHeaders userHeaders in
            let h := headersSet h "Content-Type" contentType in
            let h := headersSet h "Content-Length" bunFileContentLength in
            {| headers := h; body := FileBody (gpath file) |}))
    end
  else
    let h := newHeaders userHeaders in
    let h := headersSet h "Content-Type" contentType in
    let h := headersSet h "Content-Length" bunFileContentLength in
    match strategy with
    | ram =>
        bytes <- Fs.read fs (gpath file) ;;
        Ok (StaticResponse {| headers := h; body := BytesBody bytes |})
    | disk =>
        Ok (StaticResponse {| headers := h; body := FileBody (gpath file) |})
    end.




(** [bunStatic(routePath, dir, { headers, strategy, spaMode })]; [listing] is
    what [recursiveFilesInDir(dir)] returned *)
Definition bunStatic (routePath dir : string) (headersFn : HeadersOption)
           (strategy : Strategy) (spaMode : bool) (listing : list string)
  : result (JsMap.t Handler) :=
  entries <- mapM (fun file =>
                     let route := computeRoute routePath spaMode (name file) in
                     handler <- buildHandler strategy headersFn file ;;
                     Ok (route, handler))
                  (groupedFiles dir listing) ;;
  Ok (List.fold_left (fun o e => JsMap.set o (fst e) (snd e)) entries []).

(** what a route answers to a request *)
Definition respond (routes : JsMap.t Handler) (route : string) (req : Request)
  : option Response :=
  match JsMap.get routes route with
  | Some (StaticResponse r) => Some r
  | Some (RequestHandler f) => Some (f req)
  | None => None
  end.

End Handlers.

(** the [Content-Length] header agrees with the body a response delivers *)
Definition contentLengthExact (fs : Fs.t bytes) (r : Response) : Prop :=
  exists b, bodyBytes fs (body r) = Some b /\
            headersGet (headers r) "Content-Length" = Some (Str.ofNat (List.length b)).

(** a compressed variant exists that the request's [Accept-Encoding] names *)
Definition negotiates (g : Group) (req : Request) : bool :=
  let acceptEncoding := headersGet (reqHeaders req) "accept-encoding" in
  (isSome (findVariant g br) && acceptsEncoding acceptEncoding "br") ||
  (isSome (findVariant g zst) && acceptsEncoding acceptEncoding "zstd") ||
  (isSome (findVariant g gz) && acceptsEncoding acceptEncoding "gzip").

(** the claim's choice of encoding: the first of brotli, zstd and gzip that
    has a file in the group and whose token the [Accept-Encoding] header
    contains; [None] is the uncompressed file *)
Definition negotiatedEncoding (g : Group) (req : Request) : option (string * Compression) :=
  let acceptEncoding := headersGet (reqHeaders req) "accept-encoding" in
  List.find (fun tc => isSome (findVariant g (snd tc)) &&
                       acceptsEncoding acceptEncoding (fst tc))
            [("br", br); ("zstd", zst); ("gzip", gz)].

Definition notSlash (c : ascii) : bool := negb (Ascii.eqb c "/").

(** a directory with one script and its gzip sibling *)
Definition sampleFs : Fs.t bytes :=
  [("/srv/app.js", list_byte_of_string "hello");
   ("/srv/app.js.gz", list_byte_of_string "hel")].

Definition sampleListing : list string := ["app.js"; "app.js.gz"].

Definition sampleMime (p : string) : string := "text/javascript;charset=utf-8".

Definition identityRequest : Request :=
  {| url := "http://localhost/static/app.js";
     reqHeaders := [("accept-encoding", "identity")] |}.

Definition gzipRequest : Request :=
  {| url := "http://localhost/static/app.js";
     reqHeaders := [("accept-encoding", "gzip, deflate")] |}.

(** the entry the grouping loop pushes for a listed name *)
Definition groupFileOf (dir fileName : string) : GroupFile :=
  {| path := Path.join dir fileName;
     compression := findCompressionExtension fileName |}.

(** the listed names that fall into the group [k] *)
Definition membersOf (k : string) (listing : list string) : list string :=
  List.filter (fun n => nameWithoutCompression n =? k) listing.

(** [userHeaders] of a group *)
Definition userHeadersOf (headersFn : HeadersOption) (file : Group)
  : option (list (string * string)) :=
  match headersFn with
  | HeadersUndefined => None
  | HeadersFn f => Some (f (gpath file))
  | HeadersInit h => Some h
  end.

Definition hasCompressedVariants (file : Group) : bool :=
  List.existsb (fun f => isSome (compression f)) (files file).

(** a header name other than the three the handlers set themselves *)
Definition callerHeader (n : string) : Prop :=
  Str.toLowerCase n <> "content-type" /\ Str.toLowerCase n <> "content-length" /\
  Str.toLowerCase n <> "content-encoding".

(** a directory with an archive that is nobody's sibling *)
Definition orphanFs : Fs.t bytes :=
  [("/srv/app.js", list_byte_of_string "hello");
   ("/srv/data.gz", list_byte_of_string "archive")].

Definition orphanListing : list string := ["app.js"; "data.gz"].

(** headers a caller passes, one of them a content header *)
Definition callerHeaders : list (string * string) :=
  [("Cache-Control", "max-age=60"); ("content-type", "text/plain")].


Definition variantGroup : Group :=
  {| name := "app.js"; gpath := "/srv/app.js";
     files := [{| path := "/srv/app.js"; compression := None |};
               {| path := "/srv/app.js.gz"; compression := Some gz |}] |}.

(** the groups after the grouping loop over [done] *)
Definition groupedSoFar (dir : string) (done : list string)
           (groups : JsMap.t (list GroupFile)) : Prop :=
  NoDup (JsMap.keys groups) /\
  forall k, JsMap.get groups k =
            match membersOf k done with
            | [] => None
            | ns => Some (List.map (groupFileOf dir) ns)
            end.

(** *** recursiveFilesInDir *)

(** an entry of [readdir(dir, { withFileTypes: true })], a directory with
    the entries inside it; [OtherEntry] is a symbolic link, socket, ... *)
#[warnings="-register-all"]
Inductive Dirent :=
| FileEntry (entryName : string)
| DirEntry (entryName : string) (inside : list Dirent)
| OtherEntry (entryName : string).





(** a client directory: two files, a link, and a directory with one file *)
Definition sampleTree : list Dirent :=
  [FileEntry "app.js";
   DirEntry "assets" [FileEntry "logo.svg"; OtherEntry "latest"];
   OtherEntry "current";
   FileEntry "app.js.gz"].

(** the files the [ram] strategy reads at setup are on disk: the group's
    own file and the variant found for each compression *)
Definition readable (fs : Fs.t bytes) (g : Group) : Prop :=
  JsMap.get fs (gpath g) <> None /\
  forall c v, findVariant g c = Some v -> JsMap.get fs (path v) <> None.

End BunStatic.

(** [Bun.Glob('**/*.js').scan({ cwd })] over relative names: the name ends in
    [.js] and, with the default [dot: false], no segment starts with a dot *)
Definition globJs (names : list string) : list string :=
  List.filter
    (fun f => Str.endsWith f ".js" &&
              negb (List.existsb (fun seg => Str.startsWith seg ".") (Str.splitOn "/" f)))
    names.

(** ** compress-files-in-dir.ts *)

Module Compress.

Inductive Algorithm := gzip | zstd | brotli.

Definition siblingExt (a : Algorithm) : string :=
  match a with gzip => ".gz" | zstd => ".zst" | brotli => ".br" end.

Definition allowList : list string := ["js"; "css"; "html"; "json"; "svg"; "ico"].

(** [/\.(js|css|html|json|svg|ico)$/.test(file)] *)
Definition compressible (file : string) : bool :=
  List.existsb (fun ext => Str.endsWith file ("." ++ ext)) allowList.

(** The directory [distDir]: the names [readdirSync(distDir, { recursive })]
    reports, each with the file's bytes.  [resolve(distDir, file)] is the handle
    of the entry [file], and [filePath + '.gz'] that of the entry
    [file ++ ".gz"]. *)
Definition Dir := Fs.t bytes.

Definition readdirSync (d : Dir) : list string := JsMap.keys d.

Section Run.
(** the codec a worker runs ([gzipSync], [zstdCompressSync], [brotliCompressSync]);
    [Throw] is a worker error or the 30 s timeout of [compressWithWorker] *)
Variable codec : Algorithm -> bytes -> result bytes.

(** [compressWithWorker(workerPath, filePath)]: the worker reads the file *)
Definition compressWithWorker (a : Algorithm) (d : Dir) (file : string) : result bytes :=
  content <- Fs.read d file ;;
  codec a content.

(** one of the three [async] blocks of a file *)
Definition attempt (a : Algorithm) (file : string) (originalSize : nat) (d : Dir)
  : result Dir :=
  compressed <- compressWithWorker a d file ;;
  if (List.length compressed <? originalSize)%nat then
    Ok (JsMap.set d (file ++ siblingExt a) compressed)
  else Ok d.

(** the task of one directory entry *)
Definition compressEntry (d : Dir) (file : string) : result Dir :=
  if compressible file then
    let originalSize := Fs.size d file in
    d1 <- attempt gzip file originalSize d ;;
    d2 <- attempt zstd file originalSize d1 ;;
    attempt brotli file originalSize d2
  else Ok d.

Fixpoint runEntries (files : list string) (d : Dir) : result Dir :=
  match files with
  | [] => Ok d
  | f :: r => d' <- compressEntry d f ;; runEntries r d'
  end.

(** [compressFilesInDir(distDir)] for a [distDir] that is a directory (for
    anything else the function ends the process).  The tasks of a run that
    does not reject write pairwise different entries and read only entries
    no task writes, so the pool's interleaving is immaterial and the entries
    are taken in listing order. *)
Definition compressFilesInDir (d : Dir) : result Dir :=
  runEntries (readdirSync d) d.

End Run.

(** a toy codec: "gzip" halves the input, "zstd" returns it unchanged and
    "brotli" doubles it *)
Definition sampleCodec (a : Algorithm) (content : bytes) : result bytes :=
  match a with
  | gzip => Ok (List.firstn (Nat.div2 (List.length content)) content)
  | zstd => Ok content
  | brotli => Ok (content ++ content)%list
  end.

Definition sampleDir : Dir :=
  [("app.js", list_byte_of_string "console.log(1)");
   ("logo.png", list_byte_of_string "PNG")].

Definition sampleDirCompressed : Dir :=
  [("app.js", list_byte_of_string "console.log(1)");
   ("logo.png", list_byte_of_string "PNG");
   ("app.js.gz", list_byte_of_string "console")].


(** the entries in which [d0] differs from [base] are siblings holding the
    strictly shorter output of a codec for their source *)
Definition onlySmallerSiblings (codec : Algorithm -> bytes -> result bytes)
           (base d0 : Dir) : Prop :=
  forall k, JsMap.get d0 k <> JsMap.get base k ->
            exists file content a c,
              k = file ++ siblingExt a /\ compressible file = true /\
              JsMap.get base file = Some content /\ codec a content = Ok c /\
              List.length c < List.length content /\ JsMap.get d0 k = Some c.

End Compress.

(** ** fix-js-duplicate-exports.ts *)

Module ExportFix.

(** an entry of the export list [parse] of es-module-lexer returns: the
    exported name [n] and where it starts and ends in the source *)
Record ExportSpecifier := { n : option string; s : nat; e : nat }.

Record ExportStatement := { start : nat; stop : nat; names : list string }.

Definition charAt (code : string) (i : nat) : option ascii := String.get i code.

Definition isChar (o : option ascii) (c : ascii) : bool :=
  match o with Some d => Ascii.eqb d c | None => false end.

(** [for (let i = from; i < upTo; i++) if (code[i] === '{') ...] *)
Fixpoint firstOpenBrace (code : string) (from : nat) (steps : nat) : option nat :=
  match steps with
  | 0 => None
  | S k => if isChar (charAt code from) "{" then Some from
           else firstOpenBrace code (S from) k
  end.

(** the backwards [while (searchStart > 0)] loop: the position of the [export]
    keyword last seen and of the opening brace *)
Fixpoint findExportKeyword (code : string) (exportNameStart : nat) (searchStart : nat)
         (exportKeywordPos : option nat) : option nat * option nat :=
  match searchStart with
  | 0 => (exportKeywordPos, None)
  | S k =>
      if (Str.slice code k (k + 6) =? "export") &&
         ((k =? 0)%nat ||
          match charAt code (k - 1) with
          | Some c => Str.isWhitespace c
          | None => false
          end)
      then match firstOpenBrace code (k + 6) (exportNameStart - (k + 6)) with
           | Some i => (Some k, Some i)
           | None => findExportKeyword code exportNameStart k (Some k)
           end
      else findExportKeyword code exportNameStart k exportKeywordPos
  end.

(** the forward brace-matching loop over [code.slice(i)] *)
Fixpoint findCloseBrace (rest : string) (i : nat) (braceDepth : nat) : option nat :=
  match rest with
  | EmptyString => None
  | String c t =>
      if Ascii.eqb c "{" then findCloseBrace t (S i) (S braceDepth)
      else if Ascii.eqb c "}" then
        if (braceDepth - 1 =? 0)%nat then Some i
        else findCloseBrace t (S i) (braceDepth - 1)
      else findCloseBrace t (S i) braceDepth
  end.

Definition truthy (o : option string) : option string :=
  match o with
  | Some x => if x =? "" then None else Some x
  | None => None
  end.

(** the boundaries of the statement around one export name *)
Definition statementAround (code : string) (exp : ExportSpecifier) : option (nat * nat) :=
  match findExportKeyword code (s exp) (s exp) None with
  | (Some exportKeywordPos, Some openBracePos) =>
      match findCloseBrace (Str.sliceFrom code openBracePos) openBracePos 0 with
      | Some closeBracePos => Some (exportKeywordPos, closeBracePos + 1)
      | None => None
      end
  | _ => None
  end.

Definition sameStatement (a b : nat) (stmt : ExportStatement) : bool :=
  ((start stmt =? a) && (stop stmt =? b))%nat.

Definition includesName (l : list string) (x : string) : bool :=
  List.existsb (String.eqb x) l.

(** [existing.names.push(exp.n)] on the first statement with these boundaries *)
Fixpoint addName (stmts : list ExportStatement) (a b : nat) (x : string)
  : list ExportStatement :=
  match stmts with
  | [] => []
  | st :: r =>
      if sameStatement a b st then
        (if includesName (names st) x then st
         else {| start := start st; stop := stop st; names := (names st ++ [x])%list |}) :: r
      else st :: addName r a b x
  end.

(** one turn of [for (const exp of exports)] *)
Definition collectExport (code : string) (stmts : list ExportStatement)
           (exp : ExportSpecifier) : list ExportStatement :=
  match truthy (n exp) with
  | None => stmts
  | Some x =>
      match statementAround code exp with
      | None => stmts
      | Some (a, b) =>
          if List.existsb (sameStatement a b) stmts then addName stmts a b x
          else (stmts ++ [{| start := a; stop := b; names := [x] |}])%list
      end
  end.

(** [exportStatements.sort((a, b) => a.start - b.start)], a stable sort *)
Fixpoint insertByStart (st : ExportStatement) (sorted : list ExportStatement)
  : list ExportStatement :=
  match sorted with
  | [] => [st]
  | h :: r => if (start st <? start h)%nat then st :: h :: r else h :: insertByStart st r
  end.

Definition sortByStart (stmts : list ExportStatement) : list ExportStatement :=
  List.fold_left (fun sorted st => insertByStart st sorted) stmts [].

Definition exportStatements (code : string) (exports : list ExportSpecifier)
  : list ExportStatement :=
  sortByStart (List.fold_left (collectExport code) exports []).

(** the [while (removalEnd < originalCode.length)] loop over [code.slice(stmt.end)] *)
Fixpoint trailingRemoval (rest : string) (removalEnd : nat) : nat :=
  match rest with
  | EmptyString => removalEnd
  | String c t =>
      if Ascii.eqb c ";" then trailingRemoval t (S removalEnd)
      else if Ascii.eqb c "010" then S removalEnd
      else if Ascii.eqb c "013" then
        match t with
        | String d _ => if Ascii.eqb d "010" then S (S removalEnd) else S removalEnd
        | EmptyString => S removalEnd
        end
      else if Ascii.eqb c " " || Ascii.eqb c "009" then trailingRemoval t (S removalEnd)
      else removalEnd
  end.

(** [xs.forEach((x) => set.add(x))] on a [Set] kept in insertion order *)
Definition setAdd (set : list string) (x : string) : list string :=
  if includesName set x then set else (set ++ [x])%list.

Definition setAddAll (set : list string) (xs : list string) : list string :=
  List.fold_left setAdd xs set.

Record Plan := {
  seen : list string;
  statementsToRemove : list (nat * nat);
  namesToRemoveFromStatements : list (ExportStatement * list string)
}.

(** one turn of [for (const stmt of exportStatements)] *)
Definition planStatement (code : string) (p : Plan) (stmt : ExportStatement) : Plan :=
  let duplicateNames := List.filter (includesName (seen p)) (names stmt) in
  let newNames := List.filter (fun x => negb (includesName (seen p) x)) (names stmt) in
  match duplicateNames with
  | _ :: _ =>
      match newNames with
      | [] =>
          let removalEnd := trailingRemoval (Str.sliceFrom code (stop stmt)) (stop stmt) in
          {| seen := seen p;
             statementsToRemove := (statementsToRemove p ++ [(start stmt, removalEnd)])%list;
             namesToRemoveFromStatements := namesToRemoveFromStatements p |}
      | _ :: _ =>
          {| seen := setAddAll (seen p) newNames;
             statementsToRemove := statementsToRemove p;
             namesToRemoveFromStatements :=
               (namesToRemoveFromStatements p ++ [(stmt, duplicateNames)])%list |}
      end
  | [] =>
      {| seen := setAddAll (seen p) (names stmt);
         statementsToRemove := statementsToRemove p;
         namesToRemoveFromStatements := namesToRemoveFromStatements p |}
  end.

Definition emptyPlan : Plan :=
  {| seen := []; statementsToRemove := []; namesToRemoveFromStatements := [] |}.

Definition planFixes (code : string) (stmts : list ExportStatement) : Plan :=
  List.fold_left (planStatement code) stmts emptyPlan.

Record Edit := { editStart : nat; editEnd : nat; replacement : string }.

(** the names between the braces of a statement: the trimmed, non-empty
    pieces of [content.split(',')] (the positions the source also records for
    each piece are never read) *)
Definition partNames (content : string) : list string :=
  List.filter (fun x => negb (x =? "")) (List.map Str.trim (Str.splitOn "," content)).

(** one turn of [for (const [stmt, namesToRemove] of namesToRemoveFromStatements)] *)
Definition rewriteStatement (code : string) (entry : ExportStatement * list string)
  : list Edit :=
  let stmt := fst entry in
  let namesToRemove := snd entry in
  let stmtText := Str.slice code (start stmt) (stop stmt) in
  match Str.indexOf stmtText "{", Str.lastIndexOfChar "}" stmtText with
  | Some openBracePos, Some closeBracePos =>
      let contentStart := start stmt + openBracePos + 1 in
      let contentEnd := start stmt + closeBracePos in
      let content := Str.slice code contentStart contentEnd in
      let namesToKeep :=
        List.filter (fun x => negb (includesName namesToRemove x)) (partNames content) in
      match namesToKeep with
      | [] => []
      | _ :: _ =>
          [{| editStart := start stmt; editEnd := stop stmt;
              replacement := "export { " ++ Str.join ", " namesToKeep ++ " }" |}]
      end
  | _, _ => []
  end.

Definition applyEdit (result : string) (e : Edit) : string :=
  Str.slice result 0 (editStart e) ++ replacement e ++ Str.sliceFrom result (editEnd e).

Definition applyRemoval (result : string) (r : nat * nat) : string :=
  Str.slice result 0 (fst r) ++ Str.sliceFrom result (snd r).

(** the text [fixDuplicateExportsInFile] writes back for a file whose export
    list is [exports]; [None] when there is nothing to fix *)
Definition fixCode (originalCode : string) (exports : list ExportSpecifier)
  : option string :=
  let plan := planFixes originalCode (exportStatements originalCode exports) in
  match statementsToRemove plan, namesToRemoveFromStatements plan with
  | [], [] => None
  | _, _ =>
      let edits := List.flat_map (rewriteStatement originalCode)
                                 (namesToRemoveFromStatements plan) in
      let result := List.fold_left applyEdit (List.rev edits) originalCode in
      Some (List.fold_left applyRemoval (List.rev (statementsToRemove plan)) result)
  end.

(** The directory: relative names to bytes; a text file is read and written
    byte for byte. *)
Definition Dir := Fs.t bytes.

Definition readText (d : Dir) (file : string) : result string :=
  b <- Fs.read d file ;; Ok (string_of_list_byte b).

Definition writeText (d : Dir) (file : string) (text : string) : Dir :=
  JsMap.set d file (list_byte_of_string text).

Record FileResult := { filePath : string; wasFixed : bool; error : option string }.

(** the three counters the function logs, and the entries behind them *)
Record Report := {
  results : list FileResult;
  totalFiles : nat;
  filesFixed : nat;
  errorCount : nat
}.

Section Fixer.
(** [parse] of es-module-lexer: the export list of a module's text; it throws
    on text it cannot lex *)
Variable parse : string -> result (list ExportSpecifier).

(** [fixDuplicateExportsInFile(filePath)] *)
Definition fixDuplicateExportsInFile (d : Dir) (file : string) : result (Dir * bool) :=
  originalCode <- readText d file ;;
  exports <- parse originalCode ;;
  match fixCode originalCode exports with
  | None => Ok (d, false)
  | Some result => Ok (writeText d file result, true)
  end.

(** the [try]/[catch] around one file *)
Definition fixOne (dirPath : string) (d : Dir) (file : string) : Dir * FileResult :=
  let filePath := Path.join dirPath file in
  match fixDuplicateExportsInFile d file with
  | Ok (d', fixed) => (d', {| filePath := filePath; wasFixed := fixed; error := None |})
  | Throw err => (d, {| filePath := filePath; wasFixed := false; error := Some err |})
  end.

Fixpoint fixAll (dirPath : string) (d : Dir) (files : list string)
  : Dir * list FileResult :=
  match files with
  | [] => (d, [])
  | f :: r =>
      let '(d1, entry) := fixOne dirPath d f in
      let '(d2, entries) := fixAll dirPath d1 r in
      (d2, entry :: entries)
  end.

Definition getAllJsFiles (d : Dir) : list string := globJs (JsMap.keys d).

(** [fixDuplicateExportsInDirectory(dir)]: the directory afterwards and what
    was reported, [None] when the function returned at "No .js files found".
    Every file's task reads and writes its own entry only, so the tasks are
    taken in listing order. *)
Definition fixDuplicateExportsInDirectory (dirPath : string) (d : Dir)
  : Dir * option Report :=
  let jsFiles := getAllJsFiles d in
  match jsFiles with
  | [] => (d, None)
  | _ :: _ =>
      let '(d', results) := fixAll dirPath d jsFiles in
      let fixed := List.filter wasFixed results in
      let errors := List.filter (fun r => BunStatic.isSome (error r)) results in
      (d', Some {| results := results;
                   totalFiles := List.length jsFiles;
                   filesFixed := List.length fixed;
                   errorCount := List.length errors |})
  end.

End Fixer.

(** the text [file] holds after a run contains [statement] *)
Definition retains (d : Dir) (file statement : string) : bool :=
  match readText d file with
  | Ok code => Str.includes code statement
  | Throw _ => false
  end.

Definition newline : string := String "010" EmptyString.

Definition twoStatements : string :=
  "export { foo };" ++ newline ++ "export { foo, bar };".

(** what es-module-lexer reports for the sample modules used below *)
Definition sampleParse (code : string) : result (list ExportSpecifier) :=
  if code =? "export { foo };" then
    Ok [{| n := Some "foo"; s := 9; e := 12 |}]
  else if code =? twoStatements then
    Ok [{| n := Some "foo"; s := 9; e := 12 |};
        {| n := Some "foo"; s := 25; e := 28 |};
        {| n := Some "bar"; s := 30; e := 33 |}]
  else if code =? "export {" then Throw "Parse error @:1:9"
  else Ok [].

(** two chunks that both re-export [foo] *)
Definition twoFiles : Dir :=
  [("a.js", list_byte_of_string "export { foo };");
   ("b.js", list_byte_of_string "export { foo };")].

(** a chunk next to a file the lexer rejects *)
Definition brokenDir : Dir :=
  [("a.js", list_byte_of_string twoStatements);
   ("bad.js", list_byte_of_string "export {")].

(** a chunk that exports [foo] twice, next to a file that is no script *)
Definition mixedDir : Dir :=
  [("chunk.js", list_byte_of_string twoStatements);
   ("notes.txt", list_byte_of_string "export { foo };")].

(** every name of the statements [l] *)
Definition namesOf (l : list ExportStatement) : list string :=
  List.concat (List.map names l).

(** what the plan takes away is exported by an earlier statement of [all]:
    a statement it removes lists only such names, and a statement it
    shortens loses only such names and keeps a name that is new *)
Definition takesOnlyRepeats (all : list ExportStatement) (p : Plan) : Prop :=
  (forall r, In r (statementsToRemove p) ->
             exists pre st post,
               all = (pre ++ st :: post)%list /\ fst r = start st /\ stop st <= snd r /\
               names st <> [] /\ incl (names st) (namesOf pre)) /\
  (forall st dups, In (st, dups) (namesToRemoveFromStatements p) ->
                   exists pre post,
                     all = (pre ++ st :: post)%list /\ dups <> [] /\
                     incl dups (names st) /\ incl dups (namesOf pre) /\
                     exists x, In x (names st) /\ ~ In x dups /\ ~ In x (namesOf pre)).

(** the export statements of [twoStatements] *)
Definition twoStatementList : list ExportStatement :=
  [{| start := 0; stop := 14; names := ["foo"] |};
   {| start := 16; stop := 35; names := ["foo"; "bar"] |}].

(** a statement of [code]: it starts at an [export] keyword, ends right
    after a closing brace that lies behind the keyword, and has a name *)
Definition wellDelimited (code : string) (st : ExportStatement) : Prop :=
  Str.slice code (start st) (start st + 6) = "export" /\
  start st + 6 < stop st /\
  charAt code (stop st - 1) = Some "}"%char /\
  names st <> [].





End ExportFix.

(** ** bundling.tsx *)

Module Bundling.

Inductive AssetKind := entrypoint | chunk.

Record JsAsset := { urlPath : string; filePath : string; kind : AssetKind }.

Record CssAsset := { cssUrlPath : string; cssFilePath : string }.

Definition BundleJsByPagePathMap := JsMap.t (list JsAsset).

Definition isEntrypoint (f : JsAsset) : bool :=
  match kind f with entrypoint => true | chunk => false end.

(** *** resolveJsDependencies *)

(** Step 1: basename to full path *)
Definition jsFilesByBasenameOf (clientDistDir : string) (clientJsDistFiles : list string)
  : JsMap.t string :=
  List.fold_left
    (fun m file => JsMap.set m (Path.basename file) (Path.join clientDistDir file))
    clientJsDistFiles [].

(** the double-quote character *)
Definition dquote : string := String "034" EmptyString.

(** the test of the inner loop of step 2 *)
Definition referencesStatically (publicAssetPath content otherBasename : string) : bool :=
  let searchPattern := Path.join publicAssetPath otherBasename in
  let referencesFile := Str.includes content searchPattern in
  let dynamicallyImportsFile :=
    Str.includes content ("import('" ++ searchPattern ++ "')") ||
    Str.includes content ("import(" ++ dquote ++ searchPattern ++ dquote ++ ")") in
  referencesFile && negb dynamicallyImportsFile.

(** Step 2: which basenames each file references *)
Definition referencesOf (publicAssetPath : string) (jsFilesByBasename : JsMap.t string)
           (basename content : string) : list string :=
  List.filter
    (fun otherBasename =>
       negb (otherBasename =? basename) &&
       referencesStatically publicAssetPath content otherBasename)
    (JsMap.keys jsFilesByBasename).

Definition referenceMapOf (publicAssetPath : string) (jsFilesByBasename : JsMap.t string)
           (fileContentByBasename : JsMap.t string) : JsMap.t (list string) :=
  List.fold_left
    (fun m entry =>
       JsMap.set m (fst entry)
                 (referencesOf publicAssetPath jsFilesByBasename (fst entry) (snd entry)))
    fileContentByBasename [].

Definition hasName (l : list string) (x : string) : bool :=
  List.existsb (String.eqb x) l.

(** Step 3, [collectDeps]: the recursion adds a basename to [allDeps] before it
    descends, so it is never deeper than there are basenames; [fuel] bounds the
    depth and [None] means the bound was too small. *)
Fixpoint collectDeps (fuel : nat) (referenceMap : JsMap.t (list string))
         (basename : string) (allDeps : list string) : option (list string) :=
  match fuel with
  | 0 => None
  | S fuel' =>
      match JsMap.get referenceMap basename with
      | None => Some allDeps
      | Some refs =>
          (fix each (refs : list string) (allDeps : list string) : option (list string) :=
             match refs with
             | [] => Some allDeps
             | ref :: rest =>
                 if hasName allDeps ref then each rest allDeps
                 else match collectDeps fuel' referenceMap ref (allDeps ++ [ref])%list with
                      | Some allDeps' => each rest allDeps'
                      | None => None
                      end
             end) refs allDeps
      end
  end.

(** every basename a file references is a file of the map *)
Definition closed (referenceMap : JsMap.t (list string)) : Prop :=
  forall k refs, JsMap.get referenceMap k = Some refs ->
                 incl refs (JsMap.keys referenceMap).

(** [allDeps] holds different files of the map, and [fuel] is more than the
    number of files not yet in it *)
Definition visiting (referenceMap : JsMap.t (list string)) (fuel : nat)
           (allDeps : list string) : Prop :=
  NoDup allDeps /\ incl allDeps (JsMap.keys referenceMap) /\
  List.length (JsMap.keys referenceMap) < fuel + List.length allDeps.

(** one turn of [for (const depBasename of allDeps)] *)
Definition addDependency (publicAssetPath : string) (jsFilesByBasename : JsMap.t string)
           (jsFiles : list JsAsset) (depBasename : string) : list JsAsset :=
  let depUrlPath := publicAssetPath ++ depBasename in
  match JsMap.get jsFilesByBasename depBasename with
  | Some depFilePath =>
      if List.existsb (fun f => urlPath f =? depUrlPath) jsFiles then jsFiles
      else (jsFiles ++ [{| urlPath := depUrlPath; filePath := depFilePath; kind := chunk |}])%list
  | None => jsFiles
  end.

(** [jsFiles'] is [jsFiles] followed by chunks whose URLs are new and
    pairwise different *)
Definition appendsNew (jsFiles jsFiles' : list JsAsset) : Prop :=
  exists added,
    jsFiles' = (jsFiles ++ added)%list /\
    NoDup (List.map urlPath added) /\
    forall a, In a added ->
              kind a = chunk /\ ~ In (urlPath a) (List.map urlPath jsFiles).

(** one turn of [for (const [pagePath, jsFiles] of jsByPagePath)] *)
Definition resolvePage (publicAssetPath : string) (jsFilesByBasename : JsMap.t string)
           (referenceMap : JsMap.t (list string)) (jsFiles : list JsAsset)
  : option (list JsAsset) :=
  match List.find isEntrypoint jsFiles with
  | None => Some jsFiles
  | Some entry =>
      match collectDeps (S (List.length referenceMap)) referenceMap
                        (Path.basename (urlPath entry)) [] with
      | Some allDeps =>
          Some (List.fold_left (addDependency publicAssetPath jsFilesByBasename)
                               allDeps jsFiles)
      | None => None
      end
  end.

Fixpoint resolvePages (publicAssetPath : string) (jsFilesByBasename : JsMap.t string)
         (referenceMap : JsMap.t (list string)) (pages : BundleJsByPagePathMap)
  : option BundleJsByPagePathMap :=
  match pages with
  | [] => Some []
  | (pagePath, jsFiles) :: rest =>
      match resolvePage publicAssetPath jsFilesByBasename referenceMap jsFiles,
            resolvePages publicAssetPath jsFilesByBasename referenceMap rest with
      | Some jsFiles', Some rest' => Some ((pagePath, jsFiles') :: rest')
      | _, _ => None
      end
  end.

Section Resolve.
(** what [glob.scan({ cwd: clientDistDir })] yields *)
Variable clientJsDistFiles : list string.
(** [Bun.file(filePath).text()] *)
Variable readText : string -> result string.

Definition fileContents (jsFilesByBasename : JsMap.t string) : result (JsMap.t string) :=
  mapM (fun entry => content <- readText (snd entry) ;; Ok (fst entry, content))
       jsFilesByBasename.

(** [resolveJsDependencies({ clientDistDir, publicAssetPath, jsByPagePath })].
    [Ok None] would be a [collectDeps] that ran out of fuel;
    [resolveJsDependencies_fuel] shows it does not occur. *)
Definition resolveJsDependencies (clientDistDir publicAssetPath : string)
           (jsByPagePath : BundleJsByPagePathMap) : result (option BundleJsByPagePathMap) :=
  let jsFilesByBasename := jsFilesByBasenameOf clientDistDir clientJsDistFiles in
  fileContentByBasename <- fileContents jsFilesByBasename ;;
  let referenceMap :=
    referenceMapOf publicAssetPath jsFilesByBasename fileContentByBasename in
  Ok (resolvePages publicAssetPath jsFilesByBasename referenceMap jsByPagePath).

End Resolve.

(** a bundle of four files: the entry imports [b] statically and [d]
    dynamically, [b] imports [c] and the entry *)
Definition sampleScan : list string := ["a-1.js"; "b-2.js"; "c-3.js"; "d-4.js"].

Definition sampleRead (p : string) : result string :=
  if p =? "/out/a-1.js" then
    Ok "import x from '/dist/client/b-2.js'; import('/dist/client/d-4.js')"
  else if p =? "/out/b-2.js" then
    Ok "import y from '/dist/client/c-3.js'; import z from '/dist/client/a-1.js'"
  else if p =? "/out/c-3.js" then Ok "export const c = 3"
  else if p =? "/out/d-4.js" then Ok "export const d = 4"
  else Throw "ENOENT".

Definition samplePages : BundleJsByPagePathMap :=
  [("/ssr", [{| urlPath := "/dist/client/a-1.js"; filePath := "/out/a-1.js";
                kind := entrypoint |}])].

Definition sampleResolved : BundleJsByPagePathMap :=
  [("/ssr", [{| urlPath := "/dist/client/a-1.js"; filePath := "/out/a-1.js";
                kind := entrypoint |};
             {| urlPath := "/dist/client/b-2.js"; filePath := "/out/b-2.js";
                kind := chunk |};
             {| urlPath := "/dist/client/c-3.js"; filePath := "/out/c-3.js";
                kind := chunk |}])].

(** the same entry built with [--public-path=https://cdn.example.com/] *)
Definition cdnPath : string := "https://cdn.example.com/".

Definition cdnEntry : string := "import{x}from'https://cdn.example.com/b-2.js';x()".

Definition cdnScan : list string := ["a-1.js"; "b-2.js"].

Definition cdnRead (p : string) : result string :=
  if p =? "/out/a-1.js" then Ok cdnEntry
  else if p =? "/out/b-2.js" then Ok "export const x = () => 2"
  else Throw "ENOENT".

Definition cdnPages : BundleJsByPagePathMap :=
  [("a-1.js", [{| urlPath := "https:/cdn.example.com/a-1.js";
                  filePath := "/out/a-1.js"; kind := entrypoint |}])].

(** a file name: not empty, not [.] or [..], without a slash *)
Definition plainName (b : string) : Prop :=
  b <> "" /\ b <> "." /\ b <> ".." /\
  List.forallb BunStatic.notSlash (list_ascii_of_string b) = true.

(** *** ssrBundle *)

Definition SSR_MANIFEST_VERSION : nat := 1.

Definition SSR_PROD_BUNDLE_DIR_PATH : string := "dist-ssr".

Definition PUBLIC_ASSET_PATH : string := "/dist/client/".

(** a [React.ElementType]: a component function or a tag name *)
Inductive Component :=
| FunctionComponent (render : list string -> list string -> result string)
| ElementName (tag : string).

Record BunSsrRouteConfig := {
  path : string;
  SsrComponent : Component;
  hydrateModulePath : string
}.

Inductive ArtifactKind := entryPointKind | chunkKind | assetKind | sourcemapKind.

(** a [BuildArtifact] of [Bun.build]; [hash] may be [null] *)
Record BuildArtifact := {
  outPath : string;
  outKind : ArtifactKind;
  hash : option string;
  content : bytes
}.

Record BuildOutput := { success : bool; outputs : list BuildArtifact }.

Record BundleOutputs := {
  jsByPagePath : BundleJsByPagePathMap;
  cssByPagePath : JsMap.t (list CssAsset)
}.

(** [`${output.hash}`] *)
Definition hashText (o : BuildArtifact) : string :=
  match hash o with Some h => h | None => "null" end.

Definition isEntryPoint (o : BuildArtifact) : bool :=
  match outKind o with entryPointKind => true | _ => false end.

(** the [routes.find] of the output loop *)
Definition pageForOutput (routes : list BunSsrRouteConfig) (output : BuildArtifact)
  : string * option BunSsrRouteConfig :=
  let expectedName := Path.parseName (Path.basename (outPath output)) in
  let basenameWithoutHash := Str.replaceFirst expectedName ("-" ++ hashText output) "" in
  (basenameWithoutHash,
   List.find (fun page =>
                Path.parseName (Path.basename (hydrateModulePath page))
                =? basenameWithoutHash) routes).

(** one turn of [for (const output of result.outputs)]; [d] is the client
    directory, keyed by names relative to it *)
Definition processOutput (routes : list BunSsrRouteConfig)
           (st : BundleOutputs * Fs.t bytes) (output : BuildArtifact)
  : result (BundleOutputs * Fs.t bytes) :=
  let '(outs, d) := st in
  let basename := Path.basename (outPath output) in
  let relativePath := PUBLIC_ASSET_PATH ++ basename in
  js <- (if isEntryPoint output then
           match pageForOutput routes output with
           | (_, Some pageForBasename) =>
               Ok (JsMap.set (jsByPagePath outs) (path pageForBasename)
                             [{| urlPath := relativePath; filePath := outPath output;
                                 kind := entrypoint |}])
           | (basenameWithoutHash, None) =>
               Throw ("Page for basename " ++ basenameWithoutHash ++ " not found")
           end
         else Ok (jsByPagePath outs)) ;;
  if Str.endsWith (outPath output) ".css" then
    let newFilename := hashText output ++ ".css" in
    let relativePath := PUBLIC_ASSET_PATH ++ newFilename in
    let d' := JsMap.set d newFilename (content output) in
    match pageForOutput routes output with
    | (_, Some pageForBasename) =>
        let arr := match JsMap.get (cssByPagePath outs) (path pageForBasename) with
                   | Some a => a
                   | None => []
                   end in
        Ok ({| jsByPagePath := js;
               cssByPagePath :=
                 JsMap.set (cssByPagePath outs) (path pageForBasename)
                           (arr ++ [{| cssUrlPath := relativePath;
                                       cssFilePath := outPath output |}])%list |}, d')
    | (_, None) => Ok ({| jsByPagePath := js; cssByPagePath := cssByPagePath outs |}, d')
    end
  else Ok ({| jsByPagePath := js; cssByPagePath := cssByPagePath outs |}, d).

Fixpoint processOutputs (routes : list BunSsrRouteConfig)
         (st : BundleOutputs * Fs.t bytes) (outs : list BuildArtifact)
  : result (BundleOutputs * Fs.t bytes) :=
  match outs with
  | [] => Ok st
  | o :: r => st' <- processOutput routes st o ;; processOutputs routes st' r
  end.

(** the [routes.forEach] of the single-stylesheet fallback *)
Definition addCommonCss (cssFile : BuildArtifact) (css : JsMap.t (list CssAsset))
           (page : BunSsrRouteConfig) : JsMap.t (list CssAsset) :=
  match JsMap.get css (path page) with
  | Some (_ :: _) => css
  | _ =>
      JsMap.set css (path page)
                [{| cssUrlPath := PUBLIC_ASSET_PATH ++ hashText cssFile ++ ".css";
                    cssFilePath := outPath cssFile |}]
  end.

(** [Bun.file(filePath).text()] for a full path under the client directory *)
Definition readClientText (clientDistDir : string) (d : Fs.t bytes) (filePath : string)
  : result string :=
  match List.find (fun file => Path.join clientDistDir file =? filePath) (JsMap.keys d) with
  | Some file => ExportFix.readText d file
  | None => Throw ("ENOENT: no such file or directory, open '" ++ filePath ++ "'")
  end.

Inductive ContainerDir := node_modules | project_root.

Record BundleOptions := {
  bundleDistContainerDir : ContainerDir;
  compress : bool
}.

Record ManifestRoute := {
  mpath : string;
  js : list string;
  css : list string
}.

Record Manifest := {
  version : nat;
  publicAssetPath : string;
  routes : list ManifestRoute
}.

(** the [routes.map] that builds the manifest *)
Definition manifestRoute (outs : BundleOutputs) (page : BunSsrRouteConfig)
  : result ManifestRoute :=
  match JsMap.get (jsByPagePath outs) (path page) with
  | None => Throw ("Entrypoint path for path " ++ path page ++ " not found")
  | Some pageJsPaths =>
      match JsMap.get (cssByPagePath outs) (path page) with
      | None => Throw ("CSS paths for path " ++ path page ++ " not found")
      | Some pageCssPaths =>
          Ok {| mpath := path page;
                js := List.map urlPath pageJsPaths;
                css := List.map cssUrlPath pageCssPaths |}
      end
  end.

Definition buildManifest (pages : list BunSsrRouteConfig) (outs : BundleOutputs)
  : result Manifest :=
  rs <- mapM (manifestRoute outs) pages ;;
  Ok {| version := SSR_MANIFEST_VERSION;
        publicAssetPath := PUBLIC_ASSET_PATH;
        routes := rs |}.

Inductive Bundled :=
| NothingToBundle                                   (* [return ''] *)
| BundleWritten (bundleDistDir : string) (manifest : Manifest) (client : Fs.t bytes).

Section Bundle.
Variable parse : string -> result (list ExportFix.ExportSpecifier).
Variable codec : Compress.Algorithm -> bytes -> result bytes.
(** [process.cwd()] *)
Variable cwd : string.

Definition bundleDistDirOf (o : BundleOptions) : string :=
  Path.join cwd match bundleDistContainerDir o with
                | node_modules => "./node_modules/.dist-ssr"
                | project_root => SSR_PROD_BUNDLE_DIR_PATH
                end.

Definition clientDistDirOf (o : BundleOptions) : string :=
  Path.join (bundleDistDirOf o) "client".

(** [bundleClient()]: [build] is what [Bun.build] returned and [d] the client
    directory it left *)
Definition bundleClient (pages : list BunSsrRouteConfig) (clientDistDir : string)
           (build : BuildOutput) (d : Fs.t bytes) : result (BundleOutputs * Fs.t bytes) :=
  if negb (success build) then Throw "Client bundle failed"
  else
    let d1 := fst (ExportFix.fixDuplicateExportsInDirectory parse clientDistDir d) in
    st <- processOutputs pages ({| jsByPagePath := []; cssByPagePath := [] |}, d1)
                         (outputs build) ;;
    let '(outs, d2) := st in
    resolved <- resolveJsDependencies (globJs (JsMap.keys d2))
                                      (readClientText clientDistDir d2)
                                      clientDistDir PUBLIC_ASSET_PATH (jsByPagePath outs) ;;
    match resolved with
    | None => Throw "collectDeps: out of fuel"
    | Some js' =>
        let availableCssFiles :=
          List.filter (fun it => Str.endsWith (outPath it) ".css") (outputs build) in
        let css' :=
          match availableCssFiles with
          | [cssFile] => List.fold_left (addCommonCss cssFile) pages (cssByPagePath outs)
          | _ => cssByPagePath outs
          end in
        Ok ({| jsByPagePath := js'; cssByPagePath := css' |}, d2)
    end.

(** [ssrBundle({ routes, bundleDistContainerDir, compress })] *)
Definition ssrBundle (pages : list BunSsrRouteConfig) (o : BundleOptions)
           (build : BuildOutput) (d : Fs.t bytes) : result Bundled :=
  match pages with
  | [] => Ok NothingToBundle
  | _ :: _ =>
      let bundleDistDir := bundleDistDirOf o in
      let clientDistDir := clientDistDirOf o in
      st <- bundleClient pages clientDistDir build d ;;
      let '(outs, d1) := st in
      d2 <- (if compress o then Compress.compressFilesInDir codec d1 else Ok d1) ;;
      manifest <- buildManifest pages outs ;;
      Ok (BundleWritten bundleDistDir manifest d2)
  end.

End Bundle.

(** every list of the map has an element *)
Definition nonEmptyLists (A : Type) (m : JsMap.t (list A)) : Prop :=
  forall k l, JsMap.get m k = Some l -> l <> [].

(** the route of [bun-ssr-route-config.tsx] and a build of it: the entry, a
    chunk it imports, and the stylesheet *)
Definition sampleRoute : BunSsrRouteConfig :=
  {| path := "/ssr";
     SsrComponent := FunctionComponent (fun _ _ => Ok "<!DOCTYPE html><html></html>");
     hydrateModulePath := "src/ssr.hydrate.tsx" |}.

Definition sampleBuild : BuildOutput :=
  {| success := true;
     outputs :=
       [{| outPath := "/proj/dist-ssr/client/ssr.hydrate-abc123.js";
           outKind := entryPointKind; hash := Some "abc123";
           content := list_byte_of_string "import'/dist/client/chunk-77.js';" |};
        {| outPath := "/proj/dist-ssr/client/chunk-77.js";
           outKind := chunkKind; hash := Some "77";
           content := list_byte_of_string "export{}" |};
        {| outPath := "/proj/dist-ssr/client/ssr.hydrate-def456.css";
           outKind := assetKind; hash := Some "def456";
           content := list_byte_of_string "body{margin:0}" |}] |}.

Definition sampleClientDir : Fs.t bytes :=
  [("ssr.hydrate-abc123.js", list_byte_of_string "import'/dist/client/chunk-77.js';");
   ("chunk-77.js", list_byte_of_string "export{}");
   ("ssr.hydrate-def456.css", list_byte_of_string "body{margin:0}")].

Definition sampleOptions : BundleOptions :=
  {| bundleDistContainerDir := project_root; compress := true |}.

Definition sampleManifest : Manifest :=
  {| version := 1;
     publicAssetPath := "/dist/client/";
     routes := [{| mpath := "/ssr";
                   js := ["/dist/client/ssr.hydrate-abc123.js";
                          "/dist/client/chunk-77.js"];
                   css := ["/dist/client/def456.css"] |}] |}.

(** the same build without its stylesheet *)
Definition sampleBuildNoCss : BuildOutput :=
  {| success := true; outputs := List.firstn 2 (outputs sampleBuild) |}.

(** the two messages of the consistency check *)
Definition missingEntry (page : BunSsrRouteConfig) (msg : string) : Prop :=
  msg = "Entrypoint path for path " ++ path page ++ " not found" \/
  msg = "CSS paths for path " ++ path page ++ " not found".

(** *** generateSsrBundleHandlers *)

Definition SSR_MANIFEST_FILENAME : string := "manifest.bun-ssr.json".

(** a parsed JSON value; numbers are the integers, the objects have distinct keys *)
#[warnings="-register-all"]
Inductive Json :=
| JNull
| JBool (b : bool)
| JNumber (z : Z)
| JString (s : string)
| JArray (items : list Json)
| JObject (fields : list (string * Json)).

(** [obj[key]], [undefined] when [obj] has no such key *)
Definition field (fields : list (string * Json)) (key : string) : option Json :=
  JsMap.get fields key.

(** [z.string()] *)
Definition zString (j : option Json) : option string :=
  match j with Some (JString x) => Some x | _ => None end.

Fixpoint allSome (A : Type) (l : list (option A)) : option (list A) :=
  match l with
  | [] => Some []
  | Some x :: r => option_map (cons x) (allSome r)
  | None :: _ => None
  end.

(** [z.array(item)] *)
Definition zArray (A : Type) (item : option Json -> option A) (j : option Json)
  : option (list A) :=
  match j with
  | Some (JArray items) => allSome (List.map (fun x => item (Some x)) items)
  | _ => None
  end.

(** [z.literal(SSR_MANIFEST_VERSION)] *)
Definition zLiteralVersion (j : option Json) : option nat :=
  match j with
  | Some (JNumber z) =>
      if (z =? Z.of_nat SSR_MANIFEST_VERSION)%Z then Some SSR_MANIFEST_VERSION else None
  | _ => None
  end.

(** [ssrBundleManifestRouteSchema] *)
Definition routeSchema (j : option Json) : option ManifestRoute :=
  match j with
  | Some (JObject fields) =>
      match zString (field fields "path"), field fields "assets" with
      | Some p, Some (JObject assets) =>
          match zArray zString (field assets "js"), zArray zString (field assets "css") with
          | Some j, Some c => Some {| mpath := p; js := j; css := c |}
          | _, _ => None
          end
      | _, _ => None
      end
  | _ => None
  end.

(** [ssrBundleManifestSchema.parse(manifestJson)] *)
Definition ssrBundleManifestSchema (manifestJson : Json) : result Manifest :=
  match manifestJson with
  | JObject fields =>
      match zLiteralVersion (field fields "version"),
            zString (field fields "publicAssetPath"),
            zArray routeSchema (field fields "routes") with
      | Some v, Some p, Some rs =>
          Ok {| version := v; publicAssetPath := p; routes := rs |}
      | _, _, _ => Throw "ZodError"
      end
  | _ => Throw "ZodError"
  end.

(** the manifest file: absent, or present with text [JSON.parse] accepts or not *)
Inductive ManifestFile :=
| Missing
| Malformed (syntaxError : string)
| Parsed (manifestJson : Json).

Record SsrResponse := { status : nat; contentType : string; html : string }.

Inductive RouteHandler :=
| SsrHandler (handle : BunStatic.Request -> SsrResponse)
| StaticHandler (h : BunStatic.Handler).

(** what a call did besides returning: the route paths for which
    [getRouteHandler] built a handler, in order *)
Record Traced (A : Type) := { built : list string; outcome : result A }.

Section Handlers.
Variable isProduction : bool.
(** [tryCompress(req, res)] *)
Variable tryCompress : BunStatic.Request -> SsrResponse -> SsrResponse.
Variable mimeType : string -> string.

Definition htmlType : string := "text/html; charset=utf-8".

(** the request handler [getRouteHandler] returns (outside production the
    error page also carries the stack trace of the error, when it has one) *)
Definition ssrHandler (compressSsrResponse : bool)
           (render : list string -> list string -> result string) (route : ManifestRoute)
           (req : BunStatic.Request) : SsrResponse :=
  match render (css route) (js route) with
  | Ok html =>
      let response := {| status := 200; contentType := htmlType; html := html |} in
      if compressSsrResponse then tryCompress req response else response
  | Throw message =>
      if negb isProduction then
        {| status := 500; contentType := htmlType;
           html := "<!DOCTYPE html><html><body><h1>Server-side rendering error</h1>"
                   ++ "<p>" ++ message ++ "</p>" ++ "</body></html>" |}
      else
        {| status := 500; contentType := htmlType;
           html := "<!DOCTYPE html><html><body><h1>It looks like something went wrong :(</h1></body></html>" |}
  end.

(** [getRouteHandler(route)] *)
Definition getRouteHandler (compressSsrResponse : bool) (pages : list BunSsrRouteConfig)
           (route : ManifestRoute) : result RouteHandler :=
  match List.find (fun it => path it =? mpath route) pages with
  | None => Throw ("SSR export in module for path " ++ mpath route ++ " was not found")
  | Some page =>
      match SsrComponent page with
      | ElementName "" =>
          Throw ("SSR export in module for path " ++ mpath route ++ " was not found")
      | ElementName _ =>
          Throw ("SSR export in module for path " ++ mpath route ++ " was not a function")
      | FunctionComponent render =>
          Ok (SsrHandler (ssrHandler compressSsrResponse render route))
      end
  end.

(** [Promise.all(manifest.routes.map(...))]: every route's [getRouteHandler]
    runs; the first rejection is the outcome *)
Fixpoint routeHandlersOf (compressSsrResponse : bool) (pages : list BunSsrRouteConfig)
         (rs : list ManifestRoute) : Traced (list (string * RouteHandler)) :=
  match rs with
  | [] => {| built := []; outcome := Ok [] |}
  | route :: rest =>
      let tail := routeHandlersOf compressSsrResponse pages rest in
      match getRouteHandler compressSsrResponse pages route with
      | Ok h =>
          {| built := mpath route :: built tail;
             outcome := hs <- outcome tail ;; Ok ((mpath route, h) :: hs) |}
      | Throw err => {| built := built tail; outcome := Throw err |}
      end
  end.

(** [{ ...ssrRouteHandlers, ...staticAssetHandlers }] *)
Definition spread (entries : list (string * RouteHandler))
           (o : JsMap.t RouteHandler) : JsMap.t RouteHandler :=
  List.fold_left (fun o e => JsMap.set o (fst e) (snd e)) entries o.

(** [generateSsrBundleHandlers({ bundleDirPath, compressSsrResponse, routes })];
    [manifestFile] is the file at [join(bundleDirPath, SSR_MANIFEST_FILENAME)],
    [client] the directory [join(bundleDirPath, 'client')] keyed by full path
    and [listing] its recursive listing *)
Definition generateSsrBundleHandlers (compressSsrResponse : bool)
           (pages : list BunSsrRouteConfig) (manifestFile : ManifestFile)
           (bundleDirPath : string) (client : Fs.t bytes) (listing : list string)
  : Traced (JsMap.t RouteHandler) :=
  match pages with
  | [] => {| built := []; outcome := Ok [] |}
  | _ :: _ =>
      let manifestPath := Path.join bundleDirPath SSR_MANIFEST_FILENAME in
      match manifestFile with
      | Missing =>
          {| built := [];
             outcome := Throw ("SSR manifest file not found at " ++ manifestPath
                               ++ ". Did you run the bundle step?") |}
      | Malformed syntaxError => {| built := []; outcome := Throw syntaxError |}
      | Parsed manifestJson =>
          match ssrBundleManifestSchema manifestJson with
          | Throw err => {| built := []; outcome := Throw err |}
          | Ok manifest =>
              let clientDistDir := Path.join bundleDirPath "client" in
              let ssr := routeHandlersOf compressSsrResponse pages (routes manifest) in
              {| built := built ssr;
                 outcome :=
                   ssrRouteHandlers <- outcome ssr ;;
                   staticAssetHandlers <-
                     BunStatic.bunStatic mimeType client (publicAssetPath manifest)
                                         clientDistDir BunStatic.HeadersUndefined
                                         BunStatic.ram false listing ;;
                   Ok (spread (List.map (fun e => (fst e, StaticHandler (snd e)))
                                        staticAssetHandlers)
                              (spread ssrRouteHandlers [])) |}
          end
      end
  end.

End Handlers.

(** no response compression *)
Definition noCompress (req : BunStatic.Request) (res : SsrResponse) : SsrResponse := res.

(** a manifest of another version *)
Definition staleManifest : Json :=
  JObject [("version", JNumber 2);
           ("publicAssetPath", JString "/dist/client/");
           ("routes", JArray [])].

(** the manifest [ssrBundle] writes for the sample build *)
Definition validManifest : Json :=
  JObject [("version", JNumber 1);
           ("publicAssetPath", JString "/dist/client/");
           ("routes",
            JArray [JObject [("path", JString "/ssr");
                             ("assets",
                              JObject [("js", JArray [JString "/dist/client/ssr.hydrate-abc123.js"]);
                                       ("css", JArray [JString "/dist/client/def456.css"])])]])].

(** *** what [collectDeps] collects *)

(** [b] is reached from [a] by one or more recorded references *)
Inductive reaches (referenceMap : JsMap.t (list string)) : string -> string -> Prop :=
| reaches_ref (a : string) (refs : list string) (b : string) :
    JsMap.get referenceMap a = Some refs -> In b refs -> reaches referenceMap a b
| reaches_step (a : string) (refs : list string) (m b : string) :
    JsMap.get referenceMap a = Some refs -> In m refs ->
    reaches referenceMap m b -> reaches referenceMap a b.

(** [JSON.parse(JSON.stringify(manifest, null, 2))] *)
Definition routeToJson (r : ManifestRoute) : Json :=
  JObject [("path", JString (mpath r));
           ("assets", JObject [("js", JArray (List.map JString (js r)));
                               ("css", JArray (List.map JString (css r)))])].

Definition manifestToJson (m : Manifest) : Json :=
  JObject [("version", JNumber (Z.of_nat (version m)));
           ("publicAssetPath", JString (publicAssetPath m));
           ("routes", JArray (List.map routeToJson (routes m)))].

(** every route's page list is its entrypoint followed by chunks *)
Definition entryFirst (m : BundleJsByPagePathMap) : Prop :=
  forall k l, JsMap.get m k = Some l ->
              exists e rest, l = e :: rest /\ kind e = entrypoint /\
                             Forall (fun a => kind a = chunk) rest.

(** the sample reference graph: [a] refers to [b], [b] to [c] and back to [a] *)
Definition sampleReferences : JsMap.t (list string) :=
  [("a-1.js", ["b-2.js"]); ("b-2.js", ["a-1.js"; "c-3.js"]); ("c-3.js", []);
   ("d-4.js", [])].

(** the references of [x] that the map records all lie in [A] *)
Definition refsWithin (referenceMap : JsMap.t (list string)) (x : string)
           (A : list string) : Prop :=
  forall refs, JsMap.get referenceMap x = Some refs -> incl refs A.

(** [getRouteHandler] finds a page for the route and its component is a function *)
Definition routable (pages : list BunSsrRouteConfig) (route : ManifestRoute) : bool :=
  match List.find (fun it => path it =? mpath route) pages with
  | Some page =>
      match SsrComponent page with
      | FunctionComponent _ => true
      | ElementName _ => false
      end
  | None => false
  end.

(** a page list with a route whose component is a tag name *)
Definition tagRoute : BunSsrRouteConfig :=
  {| path := "/tos"; SsrComponent := ElementName "div";
     hydrateModulePath := "src/tos.hydrate.tsx" |}.

Definition twoRouteManifest : Json :=
  JObject [("version", JNumber 1);
           ("publicAssetPath", JString "/dist/client/");
           ("routes",
            JArray [JObject [("path", JString "/tos");
                             ("assets", JObject [("js", JArray []); ("css", JArray [])])];
                    JObject [("path", JString "/ssr");
                             ("assets", JObject [("js", JArray []); ("css", JArray [])])]])].

(** a page whose path is the route of a static file *)
Definition shadowRoute : BunSsrRouteConfig :=
  {| path := "/dist/client/app.js";
     SsrComponent := FunctionComponent (fun _ _ => Ok "<html></html>");
     hydrateModulePath := "src/app.hydrate.tsx" |}.

Definition shadowManifest : Manifest :=
  {| version := 1;
     publicAssetPath := "/dist/client/";
     routes := [{| mpath := "/dist/client/app.js"; js := []; css := [] |};
                {| mpath := "/ssr"; js := []; css := [] |}] |}.

Definition shadowFs : Fs.t bytes :=
  [("/proj/dist-ssr/client/app.js", list_byte_of_string "hello")].

(** the table [generateSsrBundleHandlers] returns for them *)
Definition shadowTable : JsMap.t RouteHandler :=
  match outcome (generateSsrBundleHandlers false noCompress BunStatic.sampleMime true
                   [shadowRoute; sampleRoute] (Parsed (manifestToJson shadowManifest))
                   "/proj/dist-ssr" shadowFs ["app.js"]) with
  | Ok hs => hs
  | Throw _ => []
  end.

(** the asset the output loop records for an entry-point output *)
Definition entryAssetOf (o : BuildArtifact) : JsAsset :=
  {| urlPath := PUBLIC_ASSET_PATH ++ Path.basename (outPath o);
     filePath := outPath o; kind := entrypoint |}.

(** the asset recorded for a stylesheet, served under its hash *)
Definition cssAssetOf (o : BuildArtifact) : CssAsset :=
  {| cssUrlPath := PUBLIC_ASSET_PATH ++ hashText o ++ ".css";
     cssFilePath := outPath o |}.

Definition isCss (o : BuildArtifact) : bool := Str.endsWith (outPath o) ".css".

(** an entry-point output whose name leads to no page *)
Definition unmatchedEntry (pages : list BunSsrRouteConfig) (o : BuildArtifact) : bool :=
  isEntryPoint o && negb (BunStatic.isSome (snd (pageForOutput pages o))).

(** the stylesheets among [outs] whose name leads to the page at [k] *)
Definition cssOfPage (pages : list BunSsrRouteConfig) (k : string)
           (outs : list BuildArtifact) : list CssAsset :=
  List.map cssAssetOf
    (List.filter (fun o => isCss o &&
                           match snd (pageForOutput pages o) with
                           | Some page => path page =? k
                           | None => false
                           end) outs).


(** the scripts of a page after the output loop: the asset of an entry-point
    output of [all] whose name leads to that page *)
Definition entriesOf (pages : list BunSsrRouteConfig) (all : list BuildArtifact)
           (js : BundleJsByPagePathMap) : Prop :=
  forall k l, JsMap.get js k = Some l ->
              exists o page, In o all /\ isEntryPoint o = true /\
                             snd (pageForOutput pages o) = Some page /\
                             path page = k /\ l = [entryAssetOf o].

(** the stylesheets of every page after the output loop over [done] *)
Definition cssSoFar (pages : list BunSsrRouteConfig) (done : list BuildArtifact)
           (css : JsMap.t (list CssAsset)) : Prop :=
  forall k, match JsMap.get css k with
            | Some l => l <> [] /\ l = cssOfPage pages k done
            | None => cssOfPage pages k done = []
            end.

(** what [bundleClient] leaves for the sample build *)
Definition sampleOutputs : BundleOutputs :=
  {| jsByPagePath :=
       [("/ssr", [{| urlPath := "/dist/client/ssr.hydrate-abc123.js";
                     filePath := "/proj/dist-ssr/client/ssr.hydrate-abc123.js";
                     kind := entrypoint |};
                  {| urlPath := "/dist/client/chunk-77.js";
                     filePath := "/proj/dist-ssr/client/chunk-77.js";
                     kind := chunk |}])];
     cssByPagePath :=
       [("/ssr", [{| cssUrlPath := "/dist/client/def456.css";
                     cssFilePath := "/proj/dist-ssr/client/ssr.hydrate-def456.css" |}])] |}.

Definition sampleStylesheet : BuildArtifact :=
  {| outPath := "/proj/dist-ssr/client/ssr.hydrate-def456.css";
     outKind := assetKind; hash := Some "def456";
     content := list_byte_of_string "body{margin:0}" |}.

(** the tag [bunStatic] gives the sibling a codec of [compressFilesInDir] writes *)
Definition encodingOf (a : Compress.Algorithm) : BunStatic.Compression :=
  match a with
  | Compress.gzip => BunStatic.gz
  | Compress.zstd => BunStatic.zst
  | Compress.brotli => BunStatic.br
  end.

(** a name none of whose characters is [c] *)
Definition without (c : ascii) (s : string) : Prop :=
  List.forallb (fun d => negb (Ascii.eqb d c)) (list_ascii_of_string s) = true.

(** the name [Bun.build] gives an output under [naming: '[name]-[hash].[ext]'] *)
Definition outputFileName (name hash ext : string) : string :=
  name ++ "-" ++ hash ++ "." ++ ext.

(** the entry-point output of the sample build *)
Definition sampleEntry : BuildArtifact :=
  {| outPath := "/proj/dist-ssr/client/ssr.hydrate-abc123.js";
     outKind := entryPointKind; hash := Some "abc123";
     content := list_byte_of_string "import'/dist/client/chunk-77.js';" |}.

End Bundling.

(** ** try-compress-response.ts *)

Module TryCompress.

(** the keys of [transformMap] *)
Inductive Format := deflate | deflate_raw | gzip | zstd.

Definition formatName (f : Format) : string :=
  match f with
  | deflate => "deflate"
  | deflate_raw => "deflate-raw"
  | gzip => "gzip"
  | zstd => "zstd"
  end.

(** a response body: the bytes it was made from, or a stream piped through
    a [CompressionStream] *)
Inductive Stream :=
| Source (b : bytes)
| PipeThrough (format : Format) (s : Stream).

(** a [Response]; [body] is [None] for [res.body === null] *)
Record Response := {
  status : nat;
  headers : BunStatic.Headers;
  body : option Stream
}.

(** [new Response(body, { headers })]: the status is the default one *)
Definition newResponse (body : Stream) (h : BunStatic.Headers) : Response :=
  {| status := 200; headers := h; body := Some body |}.

(** [req.headers.get('accept-encoding')?.includes(token)] *)
Definition canUse (req : BunStatic.Request) (token : string) : bool :=
  BunStatic.acceptsEncoding
    (BunStatic.headersGet (BunStatic.reqHeaders req) "accept-encoding") token.

(** one of the four [if (can...)] blocks; [new Headers(res.headers)] is a
    copy of the response's headers *)
Definition compressed (f : Format) (res : Response) (s : Stream) : Response :=
  let h := headers res in
  let h := BunStatic.headersSet h "Content-Encoding" (formatName f) in
  newResponse (PipeThrough f s) h.

(** [tryCompress(req, res)] *)
Definition tryCompress (req : BunStatic.Request) (res : Response) : Response :=
  match body res with
  | Some s =>
      if canUse req "zstd" then compressed zstd res s
      else if canUse req "gzip" then compressed gzip res s
      else if canUse req "deflate" then compressed deflate res s
      else if canUse req "deflate-raw" then compressed deflate_raw res s
      else res
  | None => res
  end.

(** the first of zstd, gzip and deflate that the request's
    [Accept-Encoding] names *)
Definition preferred (req : BunStatic.Request) : option Format :=
  List.find (fun f => canUse req (formatName f)) [zstd; gzip; deflate].

(** a failed render, with a length the caller computed *)
Definition errorPage : Response :=
  {| status := 500;
     headers := [("content-type", "text/html; charset=utf-8"); ("content-length", "5")];
     body := Some (Source (list_byte_of_string "oops!")) |}.

Definition rawDeflateRequest : BunStatic.Request :=
  {| BunStatic.url := "http://localhost/ssr";
     BunStatic.reqHeaders := [("accept-encoding", "deflate-raw")] |}.

End TryCompress.

(** ** environment.ts *)

Module Environment.

(** a pending [Promise] *)
Inductive Promise (A : Type) := Pending (resolves : A).

(** [!!p] for an object: every object is truthy *)
Definition truthyObject (A : Type) (p : Promise A) : bool := true.

(** a [string | undefined] that is truthy: defined and not empty *)
Definition truthy (v : option string) : option string :=
  match v with
  | Some x => if x =? "" then None else Some x
  | None => None
  end.

Definition filePathSuffix : string := "_FILE".

Section Env.
(** [process.env] *)
Variable env : JsMap.t string.
(** [Bun.file(filePath).exists()] *)
Variable fileExists : string -> Promise bool.
(** [readFileSync(filePath, 'utf-8')] *)
Variable readFileSync : string -> result string.

(** the second half of the two messages of [getFromFileOrThrow] *)
Definition fallbackNote (asFallbackFromEnvVarName : option string) : string :=
  match truthy asFallbackFromEnvVarName with
  | Some name =>
      ". Tried to read from file because env var " ++ name ++ " is not set"
  | None => ""
  end.

(** [Environment.getFromFileOrThrow(filePath, asFallbackFromEnvVarName)] *)
Definition getFromFileOrThrow (filePath : string)
           (asFallbackFromEnvVarName : option string) : result string :=
  let file := fileExists filePath in
  if negb (truthyObject file) then
    Throw ("File " ++ Bundling.dquote ++ filePath ++ Bundling.dquote ++ " does not exist"
           ++ fallbackNote asFallbackFromEnvVarName)
  else
    fileContent <- readFileSync filePath ;;
    match truthy (Some fileContent) with
    | None =>
        Throw ("File " ++ Bundling.dquote ++ filePath ++ Bundling.dquote ++ " is empty"
               ++ fallbackNote asFallbackFromEnvVarName)
    | Some fileContent => Ok fileContent
    end.

(** [Environment.getOrThrow(name)] *)
Definition getOrThrow (name : string) : result string :=
  match truthy (JsMap.get env name) with
  | None =>
      let nameWithFileSuffix := name ++ filePathSuffix in
      match truthy (JsMap.get env nameWithFileSuffix) with
      | Some filePathValue => getFromFileOrThrow filePathValue (Some name)
      | None =>
          Throw ("Missing required environment variable: "
                 ++ Bundling.dquote ++ name ++ Bundling.dquote)
      end
  | Some value =>
      if Str.endsWith name filePathSuffix then getFromFileOrThrow value (Some name)
      else Ok value
  end.

(** [Environment.getEnumOrThrow(name, values)] *)
Definition getEnumOrThrow (name : string) (values : list string) : result string :=
  value <- getOrThrow name ;;
  if negb (List.existsb (String.eqb value) values) then
    Throw ("Environment variable " ++ Bundling.dquote ++ name ++ Bundling.dquote
           ++ " must be one of: " ++ Str.join ", " values
           ++ ". Got: " ++ Bundling.dquote ++ value ++ Bundling.dquote)
  else Ok value.

(** [Environment.getOrDefault(name, defaultValue)] *)
Definition getOrDefault (name defaultValue : string) : string :=
  match JsMap.get env name with
  | Some v => v
  | None => defaultValue
  end.

(** [Environment.maybeGet(name)] *)
Definition maybeGet (name : string) : option string := JsMap.get env name.

Definition nodeEnvIs (v : string) : bool :=
  match JsMap.get env "NODE_ENV" with
  | Some x => x =? v
  | None => false
  end.

Definition isTest : bool := nodeEnvIs "test".
Definition isProduction : bool := nodeEnvIs "production".
Definition isDev : bool := nodeEnvIs "development".

(** the check the module runs when it is loaded *)
Definition checkNodeEnv : result unit :=
  let isValidNodeEnv := isTest || isDev || isProduction in
  if negb isValidNodeEnv then
    Throw ("Invalid NODE_ENV " ++ match JsMap.get env "NODE_ENV" with
                                  | Some v => v
                                  | None => "undefined"
                                  end)
  else Ok tt.

End Env.

(** a secret given through its [_FILE] companion *)
Definition sampleEnv : JsMap.t string :=
  [("NODE_ENV", "production"); ("DB_PASSWORD", ""); ("DB_PASSWORD_FILE", "/run/secrets/db")].

Definition sampleSecrets (p : string) : result string :=
  if p =? "/run/secrets/db" then Ok "hunter2"
  else Throw ("ENOENT: no such file or directory, open '" ++ p ++ "'").

Definition nothingExists (p : string) : Promise bool := Pending false.

End Environment.

(** * Properties *)

Unset Implicit Arguments.

(** ** Strings and maps *)

Module StrFacts.

Lemma list_of_append (a b : string) :
  list_ascii_of_string (a ++ b) = (list_ascii_of_string a ++ list_ascii_of_string b)%list.
Proof.
  induction a as [|c a IH]; simpl; [reflexivity|]. now rewrite IH.
Qed.

Lemma list_of_inj (a b : string) :
  list_ascii_of_string a = list_ascii_of_string b -> a = b.
Proof.
  intros H. rewrite <- (string_of_list_ascii_of_string a).
  rewrite <- (string_of_list_ascii_of_string b). now rewrite H.
Qed.

Lemma append_inv_tail (a b t : string) : a ++ t = b ++ t -> a = b.
Proof.
  intros H. apply list_of_inj. apply (f_equal list_ascii_of_string) in H.
  rewrite !list_of_append in H. now apply app_inv_tail in H.
Qed.

Lemma append_inv_head (h a b : string) : h ++ a = h ++ b -> a = b.
Proof.
  induction h as [|c h IH]; simpl; intros H; [assumption|].
  injection H as H. now apply IH.
Qed.

Lemma append_nil_r (a : string) : a ++ "" = a.
Proof.
  induction a as [|c a IH]; simpl; [reflexivity|]. now rewrite IH.
Qed.

Lemma append_assoc (a b c : string) : (a ++ b) ++ c = a ++ (b ++ c).
Proof.
  induction a as [|x a IH]; simpl; [reflexivity|]. now rewrite IH.
Qed.

(** [endsWith] is "has this suffix" *)
Lemma endsWith_iff (x suf : string) :
  Str.endsWith x suf = true <-> exists p, x = p ++ suf.
Proof.
  induction x as [|c x IH].
  - cbn [Str.endsWith]. rewrite orb_false_r, String.eqb_eq. split.
    + intros <-. now exists "".
    + intros [p Hp]. destruct p; simpl in Hp; [auto | discriminate].
  - cbn [Str.endsWith]. rewrite orb_true_iff, String.eqb_eq, IH. split.
    + intros [<- | [p ->]]; [now exists "" | now exists (String c p)].
    + intros [[|d p] Hp]; simpl in Hp; [now left | right].
      injection Hp as _ ->. now exists p.
Qed.

Lemma endsWith_append (p suf : string) : Str.endsWith (p ++ suf) suf = true.
Proof. apply endsWith_iff. now exists p. Qed.

(** two suffixes of one string whose last characters differ *)
Lemma last_char_clash (p q a b : string) (x y : ascii) :
  x <> y -> p ++ a ++ String x "" <> q ++ b ++ String y "".
Proof.
  intros Hxy H. apply (f_equal list_ascii_of_string) in H.
  rewrite !list_of_append in H. simpl in H.
  rewrite !app_assoc in H. apply app_inj_tail in H. now destruct H.
Qed.

End StrFacts.

Module MapFacts.

Section Facts.
Variable V : Type.
Implicit Types (m : JsMap.t V) (k : string) (v : V).

Lemma get_set_here m k v : JsMap.get (JsMap.set m k v) k = Some v.
Proof.
  induction m as [|[k' v'] m IH]; simpl.
  - now rewrite String.eqb_refl.
  - destruct (k' =? k) eqn:E; simpl.
    + now rewrite String.eqb_refl.
    + now rewrite E.
Qed.

Lemma get_set_other m k k' v : k <> k' -> JsMap.get (JsMap.set m k v) k' = JsMap.get m k'.
Proof.
  intros Hne. apply String.eqb_neq in Hne.
  induction m as [|[k0 v0] m IH]; simpl.
  - now rewrite Hne.
  - destruct (k0 =? k) eqn:E; simpl.
    + apply String.eqb_eq in E. subst k0. now rewrite Hne.
    + now rewrite IH.
Qed.

(** writing back what is there changes nothing *)
Lemma set_same m k v : JsMap.get m k = Some v -> JsMap.set m k v = m.
Proof.
  induction m as [|[k0 v0] m IH]; simpl; [discriminate|].
  destruct (k0 =? k) eqn:E.
  - apply String.eqb_eq in E. now intros [= ->]; subst.
  - intros H. now rewrite IH.
Qed.

Lemma get_in_keys m k : JsMap.get m k <> None <-> In k (JsMap.keys m).
Proof.
  induction m as [|[k0 v0] m IH]; simpl; [tauto|].
  destruct (k0 =? k) eqn:E.
  - apply String.eqb_eq in E. split; [now left | discriminate].
  - apply String.eqb_neq in E. rewrite IH. tauto.
Qed.

Lemma keys_set m k v :
  JsMap.keys (JsMap.set m k v) =
  if JsMap.has m k then JsMap.keys m else (JsMap.keys m ++ [k])%list.
Proof.
  unfold JsMap.has, JsMap.keys.
  induction m as [|[k0 v0] m IH]; simpl; [reflexivity|].
  destruct (k0 =? k) eqn:E; simpl.
  - apply String.eqb_eq in E. now subst.
  - rewrite IH. now destruct (JsMap.get m k).
Qed.

End Facts.

End MapFacts.

(** ** bunStatic *)

Module BunStaticFacts.
Import BunStatic StrFacts.

Lemma collapse_cons2 (c d : ascii) (x : string) :
  collapseSlashes (String c (String d x)) =
  if (Ascii.eqb c "/" && Ascii.eqb d "/")%bool
  then String "/" (collapseSlashes x)
  else String c (collapseSlashes (String d x)).
Proof. reflexivity. Qed.

Lemma collapse_keeps_others (x : string) :
  List.filter notSlash (list_ascii_of_string (collapseSlashes x)) =
  List.filter notSlash (list_ascii_of_string x) /\
  forall c, List.filter notSlash (list_ascii_of_string (collapseSlashes (String c x))) =
            List.filter notSlash (list_ascii_of_string (String c x)).
Proof.
  induction x as [|d x [IH1 IH2]].
  - split; [reflexivity | intros c; reflexivity].
  - split; [apply IH2|]. intros c. rewrite collapse_cons2.
    destruct (Ascii.eqb c "/") eqn:Ec; destruct (Ascii.eqb d "/") eqn:Ed;
      cbn [andb list_ascii_of_string List.filter].
    + rewrite IH1. unfold notSlash. rewrite Ec, Ed. simpl.
      apply Ascii.eqb_eq in Ec. reflexivity.
    + rewrite IH2. reflexivity.
    + rewrite IH2. reflexivity.
    + rewrite IH2. reflexivity.
Qed.

Lemma collapse_head (c : ascii) (x : string) :
  exists y, collapseSlashes (String c x) = String c y.
Proof.
  destruct x as [|d x]; [now exists ""|].
  rewrite collapse_cons2.
  destruct (Ascii.eqb c "/") eqn:Ec; simpl; eauto.
  apply Ascii.eqb_eq in Ec. subst c. destruct (Ascii.eqb d "/"); eauto.
Qed.

Lemma only_slashes (p : string) :
  List.filter notSlash (list_ascii_of_string p) = [] ->
  p = "" \/ p = "/" \/ exists q, p = String "/" (String "/" q) /\
                          List.filter notSlash (list_ascii_of_string q) = [].
Proof.
  intros H. destruct p as [|c p]; [now left|]. right.
  simpl in H. unfold notSlash at 1 in H.
  destruct (Ascii.eqb c "/") eqn:Ec; simpl in H; [|discriminate].
  apply Ascii.eqb_eq in Ec. subst c.
  destruct p as [|d p]; [now left|]. right.
  simpl in H. unfold notSlash at 1 in H.
  destruct (Ascii.eqb d "/") eqn:Ed; simpl in H; [|discriminate].
  apply Ascii.eqb_eq in Ed. subst d. now exists p.
Qed.

Lemma collapse_to_index (p : string) :
  collapseSlashes (p ++ "/index.html") = "/index.html" <-> p = "" \/ p = "/".
Proof.
  split.
  - intros H.
    assert (Hf : List.filter notSlash (list_ascii_of_string p) = []).
    { pose proof (proj1 (collapse_keeps_others (p ++ "/index.html"))) as K.
      rewrite H, list_of_append, filter_app in K.
      change (filter notSlash (list_ascii_of_string "/index.html"))
        with ([] ++ filter notSlash (list_ascii_of_string "/index.html"))%list in K at 1.
      apply app_inv_tail in K. now symmetry. }
    destruct (only_slashes _ Hf) as [-> | [-> | [q [-> Hq]]]]; [now left | now right |].
    exfalso. cbn [append] in H. rewrite collapse_cons2 in H. simpl in H.
    injection H as H.
    destruct q as [|c q].
    + discriminate.
    + cbn [append] in H. destruct (collapse_head c (q ++ "/index.html")) as [y Hy].
      rewrite Hy in H. injection H as -> _. discriminate.
  - intros [-> | ->]; reflexivity.
Qed.

Lemma headersGet_headersSet (h : Headers) (n v : string) :
  headersGet (headersSet h n v) n = Some v.
Proof. apply MapFacts.get_set_here. Qed.

Lemma size_of_get (fs : Fs.t bytes) (p : string) (b : bytes) :
  JsMap.get fs p = Some b -> Fs.size fs p = List.length b.
Proof. unfold Fs.size. now intros ->. Qed.

Lemma read_ok (fs : Fs.t bytes) (p : string) (b : bytes) :
  Fs.read fs p = Ok b -> JsMap.get fs p = Some b.
Proof. unfold Fs.read. destruct (JsMap.get fs p); [now intros [= ->] | discriminate]. Qed.

Lemma variant_served_from_disk (fs : Fs.t bytes) (h : Headers) (o : option GroupFile) :
  isSome o = true ->
  bodyBytes fs (variantFile o) <> None ->
  contentLengthExact fs
    {| headers := headersSet h "Content-Length" (orBlank (variantSize fs o));
       body := variantFile o |}.
Proof.
  destruct o as [v|]; [intros _ | discriminate]. simpl.
  destruct (JsMap.get fs (path v)) as [b|] eqn:E; [intros _ | congruence].
  exists b. simpl. split; [assumption|].
  rewrite headersGet_headersSet. now rewrite (size_of_get _ _ _ E).
Qed.

Lemma variant_served_from_ram (fs : Fs.t bytes) (h : Headers) (o : option GroupFile)
      (loaded : option bytes) :
  isSome o = true ->
  variantBytes fs o = Ok loaded ->
  contentLengthExact fs
    {| headers := headersSet h "Content-Length" (orBlank (variantSize fs o));
       body := BytesBody (orEmpty loaded) |}.
Proof.
  destruct o as [v|]; [intros _ | discriminate]. simpl.
  destruct (Fs.read fs (path v)) as [b|] eqn:E; simpl; [intros [= <-] | discriminate].
  exists b. simpl. split; [reflexivity|].
  rewrite headersGet_headersSet. now rewrite (size_of_get _ _ _ (read_ok _ _ _ E)).
Qed.

Lemma disk_content_length (mimeType : string -> string) (fs : Fs.t bytes)
      (headersFn : HeadersOption) (g : Group) (f : Request -> Response) (req : Request) :
  buildHandler mimeType fs disk headersFn g = Ok (RequestHandler f) ->
  bodyBytes fs (body (f req)) <> None ->
  contentLengthExact fs (f req).
Proof.
  unfold buildHandler.
  destruct (existsb _ (files g)); [|discriminate].
  intros [= <-]. cbv zeta.
  repeat match goal with
         | |- context [if ?c then _ else _] => destruct c eqn:?
         end.
  1-3: match goal with
       | H : (isSome ?o && _)%bool = true |- _ =>
           apply andb_prop in H; destruct H as [H _];
           intros Hb; cbn [body] in Hb; now apply variant_served_from_disk
       end.
  simpl. intros Hb. destruct (JsMap.get fs (gpath g)) as [b|] eqn:E; [|congruence].
  exists b. split; [exact E|]. cbn [headers]. rewrite headersGet_headersSet.
  now rewrite (size_of_get _ _ _ E).
Qed.

Lemma ram_variant_content_length (mimeType : string -> string) (fs : Fs.t bytes)
      (headersFn : HeadersOption) (g : Group) (f : Request -> Response) (req : Request) :
  buildHandler mimeType fs ram headersFn g = Ok (RequestHandler f) ->
  negotiates g req = true ->
  contentLengthExact fs (f req).
Proof.
  unfold buildHandler, negotiates.
  destruct (existsb _ (files g)).
  2:{ destruct (Fs.read fs (gpath g)); discriminate. }
  destruct (variantBytes fs (findVariant g br)) as [bb|] eqn:Eb; [|discriminate].
  destruct (variantBytes fs (findVariant g zst)) as [zb|] eqn:Ez; [|discriminate].
  destruct (variantBytes fs (findVariant g gz)) as [gb|] eqn:Eg; [|discriminate].
  destruct (Fs.read fs (gpath g)) as [ub|]; [|discriminate].
  cbn [bind]. intros [= <-]. cbv zeta.
  repeat match goal with
         | |- context [if ?c then _ else _] => destruct c eqn:?
         end.
  1-3: match goal with
       | H : (isSome ?o && _)%bool = true |- _ =>
           apply andb_prop in H; destruct H as [H _];
           intros _; now apply variant_served_from_ram
       end.
  simpl. discriminate.
Qed.

(** the collapsed route of an [index.html] keeps the ten characters of the name *)
Lemma index_route_is_long (p : string) :
  10 <= List.length (List.filter notSlash
                       (list_ascii_of_string (collapseSlashes (p ++ "/index.html")))).
Proof.
  rewrite (proj1 (collapse_keeps_others _)), list_of_append, filter_app, length_app.
  simpl. lia.
Qed.

(** C5, amended: for a file whose logical name is [index.html] the route is
    ["/*"] (SPA mode) or ["/"] exactly when the route prefix is empty or ["/"];
    under any other prefix the route is the prefixed path with its double
    slashes collapsed, and is neither ["/*"] nor ["/"]. *)
Theorem index_html_route (routePath fileName : string) (spaMode : bool) :
  nameWithoutCompression fileName = "index.html" ->
  let route := computeRoute routePath spaMode (nameWithoutCompression fileName) in
  (routePath = "" \/ routePath = "/" -> route = if spaMode then "/*" else "/") /\
  (routePath <> "" -> routePath <> "/" ->
   route = collapseSlashes (routePath ++ "/index.html") /\
   route <> "/*" /\ route <> "/").
Proof.
  intros ->. cbv zeta. unfold computeRoute.
  change (routePath ++ "/" ++ "index.html") with (routePath ++ "/index.html").
  split.
  - intros H. apply collapse_to_index in H. now rewrite H.
  - intros H1 H2.
    destruct (collapseSlashes (routePath ++ "/index.html") =? "/index.html") eqn:E.
    + apply String.eqb_eq, collapse_to_index in E. tauto.
    + split; [reflexivity|].
      pose proof (index_route_is_long routePath) as L.
      split; intros K; rewrite K in L; simpl in L; lia.
Qed.

Lemma index_html_route_witness :
  nameWithoutCompression "index.html.gz" = "index.html" /\
  computeRoute "/" true (nameWithoutCompression "index.html.gz") = "/*" /\
  computeRoute "" false (nameWithoutCompression "index.html.gz") = "/".
Proof.
  split; [reflexivity|].
  split.
  - apply (proj1 (index_html_route "/" "index.html.gz" true eq_refl)). now right.
  - apply (proj1 (index_html_route "" "index.html.gz" false eq_refl)). now left.
Defined.

(** C5 as stated fails under the prefix the bundle handlers serve assets
    from: there the route of [index.html] is the plain asset path. *)
Lemma index_html_route_counterexample :
  nameWithoutCompression "index.html" = "index.html" /\
  computeRoute "/dist/client/" true (nameWithoutCompression "index.html") <> "/*" /\
  computeRoute "/dist/client/" false (nameWithoutCompression "index.html") <> "/".
Proof. repeat split; discriminate. Qed.

Lemma loaded_variant (fs : Fs.t bytes) (o : option GroupFile) (loaded : option bytes) :
  variantBytes fs o = Ok loaded ->
  forall v, o = Some v -> Some (orEmpty loaded) = JsMap.get fs (path v).
Proof.
  intros H v ->. cbn [variantBytes] in H.
  destruct (Fs.read fs (path v)) as [b|] eqn:E; [|discriminate].
  injection H as <-. symmetry. now apply read_ok.
Qed.

Ltac pick_variant :=
  match goal with
  | H : (isSome ?o && _)%bool = true |- _ =>
      apply andb_prop in H; destruct H as [H _];
      destruct o as [v|] eqn:?; [clear H | discriminate H];
      split; [reflexivity | exists v; split; [reflexivity|]]
  end.

(** the handlers pick the variant in the order brotli, zstd, gzip *)
Lemma negotiation_priority (mimeType : string -> string) (fs : Fs.t bytes)
      (strategy : Strategy) (g : Group) (f : Request -> Response) (req : Request) :
  buildHandler mimeType fs strategy HeadersUndefined g = Ok (RequestHandler f) ->
  headersGet (headers (f req)) "Content-Encoding"
  = option_map fst (negotiatedEncoding g req) /\
  match negotiatedEncoding g req with
  | Some (_, c) =>
      exists v, findVariant g c = Some v /\
                bodyBytes fs (body (f req)) = JsMap.get fs (path v)
  | None => bodyBytes fs (body (f req)) = JsMap.get fs (gpath g)
  end.
Proof.
  unfold buildHandler, negotiatedEncoding. cbn [List.find fst snd].
  destruct (existsb _ (files g)).
  2:{ destruct strategy; [destruct (Fs.read fs (gpath g))|]; discriminate. }
  destruct strategy.
  - destruct (variantBytes fs (findVariant g br)) as [bb|] eqn:Eb; [|discriminate].
    destruct (variantBytes fs (findVariant g zst)) as [zb|] eqn:Ez; [|discriminate].
    destruct (variantBytes fs (findVariant g gz)) as [gb|] eqn:Eg; [|discriminate].
    destruct (Fs.read fs (gpath g)) as [ub|] eqn:Eu; [|discriminate].
    cbn [bind]. intros [= <-]. cbv zeta.
    repeat match goal with
           | |- context [if ?c then _ else _] => destruct c eqn:?
           end; try pick_variant.
    + cbn [body bodyBytes]. now apply (loaded_variant fs _ _ Eb).
    + cbn [body bodyBytes]. now apply (loaded_variant fs _ _ Ez).
    + cbn [body bodyBytes]. now apply (loaded_variant fs _ _ Eg).
    + split; [reflexivity|]. cbn [body bodyBytes]. symmetry. now apply read_ok.
  - intros [= <-]. cbv zeta.
    repeat match goal with
           | |- context [if ?c then _ else _] => destruct c eqn:?
           end; try pick_variant; try reflexivity.
    split; reflexivity.
Qed.

(** C1, the compressed branches and the [disk] strategy: whenever the handler
    of a group with compressed siblings answers from the disk, or answers
    with a negotiated variant from RAM, [Content-Length] is the length of the
    body. *)
Lemma variant_content_length (mimeType : string -> string) (fs : Fs.t bytes)
      (headersFn : HeadersOption) (g : Group) (f : Request -> Response) (req : Request) :
  (buildHandler mimeType fs disk headersFn g = Ok (RequestHandler f) ->
   bodyBytes fs (body (f req)) <> None -> contentLengthExact fs (f req)) /\
  (buildHandler mimeType fs ram headersFn g = Ok (RequestHandler f) ->
   negotiates g req = true -> contentLengthExact fs (f req)).
Proof.
  split; [apply disk_content_length | apply ram_variant_content_length].
Qed.

(** C1 at the failing input: a script with a gzip sibling, served from RAM to
    a client that accepts no offered encoding.  The body is the five bytes of
    the script and the response has no [Content-Length]; the [disk] strategy
    answers the same request with [Content-Length: 5]. *)
Theorem ram_fallback_omits_content_length :
  exists routes r r',
    bunStatic sampleMime sampleFs "/static" "/srv" HeadersUndefined ram false
              sampleListing = Ok routes /\
    respond routes "/static/app.js" identityRequest = Some r /\
    body r = BytesBody (list_byte_of_string "hello") /\
    headers r = [] /\
    headersGet (headers r) "Content-Length" = None /\
    ~ contentLengthExact sampleFs r /\
    respond routes "/static/app.js" gzipRequest = Some r' /\
    headersGet (headers r') "Content-Length" = Some "3" /\
    exists routes' r'',
      bunStatic sampleMime sampleFs "/static" "/srv" HeadersUndefined disk false
                sampleListing = Ok routes' /\
      respond routes' "/static/app.js" identityRequest = Some r'' /\
      headersGet (headers r'') "Content-Length" = Some "5".
Proof.
  eexists. eexists. eexists.
  split; [vm_compute; reflexivity|].
  split; [vm_compute; reflexivity|].
  split; [reflexivity|].
  split; [reflexivity|].
  split; [reflexivity|].
  split.
  { intros [b [_ Hb]]. vm_compute in Hb. discriminate. }
  split; [vm_compute; reflexivity|].
  split; [reflexivity|].
  eexists. eexists.
  split; [vm_compute; reflexivity|].
  split; [vm_compute; reflexivity|].
  reflexivity.
Qed.

End BunStaticFacts.

(** ** compressFilesInDir *)

Module CompressFacts.
Import Compress StrFacts MapFacts.

Lemma endsWith_clash (p a b : string) (x y : ascii) :
  x <> y -> Str.endsWith (p ++ a ++ String x "") (b ++ String y "") = false.
Proof.
  intros Hxy. destruct (Str.endsWith _ _) eqn:E; [|reflexivity].
  apply endsWith_iff in E. destruct E as [q Hq].
  exfalso. exact (@last_char_clash p q a b x y Hxy Hq).
Qed.

Ltac clash a b x y :=
  match goal with
  | |- Str.endsWith (?f ++ _) _ = false =>
      exact (@endsWith_clash f a b x y ltac:(discriminate))
  end.

Lemma sibling_not_compressible (file : string) (a : Algorithm) :
  compressible (file ++ siblingExt a) = false.
Proof.
  unfold compressible, allowList. cbn [existsb]. rewrite orb_false_r.
  destruct a; cbn [siblingExt]; repeat (apply orb_false_intro).
  - clash ".g" ".j" "z"%char "s"%char.
  - clash ".g" ".cs" "z"%char "s"%char.
  - clash ".g" ".htm" "z"%char "l"%char.
  - clash ".g" ".jso" "z"%char "n"%char.
  - clash ".g" ".sv" "z"%char "g"%char.
  - clash ".g" ".ic" "z"%char "o"%char.
  - clash ".zs" ".j" "t"%char "s"%char.
  - clash ".zs" ".cs" "t"%char "s"%char.
  - clash ".zs" ".htm" "t"%char "l"%char.
  - clash ".zs" ".jso" "t"%char "n"%char.
  - clash ".zs" ".sv" "t"%char "g"%char.
  - clash ".zs" ".ic" "t"%char "o"%char.
  - clash ".b" ".j" "r"%char "s"%char.
  - clash ".b" ".cs" "r"%char "s"%char.
  - clash ".b" ".htm" "r"%char "l"%char.
  - clash ".b" ".jso" "r"%char "n"%char.
  - clash ".b" ".sv" "r"%char "g"%char.
  - clash ".b" ".ic" "r"%char "o"%char.
Qed.

Lemma sibling_inj (f g : string) (a b : Algorithm) :
  f ++ siblingExt a = g ++ siblingExt b -> f = g /\ a = b.
Proof.
  destruct a, b; cbn [siblingExt]; intros H;
    try (split; [now apply append_inv_tail in H | reflexivity]); exfalso.
  - exact (@last_char_clash f g ".g" ".zs" "z" "t" ltac:(discriminate) H).
  - exact (@last_char_clash f g ".g" ".b" "z" "r" ltac:(discriminate) H).
  - exact (@last_char_clash f g ".zs" ".g" "t" "z" ltac:(discriminate) H).
  - exact (@last_char_clash f g ".zs" ".b" "t" "r" ltac:(discriminate) H).
  - exact (@last_char_clash f g ".b" ".g" "r" "z" ltac:(discriminate) H).
  - exact (@last_char_clash f g ".b" ".zs" "r" "t" ltac:(discriminate) H).
Qed.

Section Run.
Variable codec : Algorithm -> bytes -> result bytes.

(** what one attempt leaves behind *)
Lemma attempt_spec (a : Algorithm) (file : string) (size : nat) (d d' : Dir) :
  attempt codec a file size d = Ok d' ->
  exists content c,
    JsMap.get d file = Some content /\ codec a content = Ok c /\
    d' = if (List.length c <? size)%nat then JsMap.set d (file ++ siblingExt a) c else d.
Proof.
  unfold attempt, compressWithWorker, Fs.read.
  destruct (JsMap.get d file) as [content|]; [|discriminate]. cbn [bind].
  destruct (codec a content) as [c|] eqn:Ec; [|discriminate]. cbn [bind].
  intros H. exists content, c. split; [reflexivity|]. split; [assumption|].
  revert H. destruct (List.length c <? size)%nat; now intros [= <-].
Qed.

Lemma attempt_frame (a : Algorithm) (file : string) (size : nat) (d d' : Dir) (k : string) :
  attempt codec a file size d = Ok d' -> k <> file ++ siblingExt a ->
  JsMap.get d' k = JsMap.get d k.
Proof.
  intros H Hk. destruct (attempt_spec _ _ _ _ _ H) as (content & c & _ & _ & ->).
  destruct (List.length c <? size)%nat; [|reflexivity].
  apply get_set_other. congruence.
Qed.

Lemma compressible_not_sibling (file g : string) (a : Algorithm) :
  compressible file = true -> file <> g ++ siblingExt a.
Proof.
  intros H ->. now rewrite sibling_not_compressible in H.
Qed.

(** what the task of a compressible entry leaves behind *)
Lemma entry_spec (d d' : Dir) (file : string) (content : bytes) :
  compressEntry codec d file = Ok d' ->
  compressible file = true ->
  JsMap.get d file = Some content ->
  (forall a, exists c,
      codec a content = Ok c /\
      JsMap.get d' (file ++ siblingExt a) =
      if (List.length c <? List.length content)%nat then Some c
      else JsMap.get d (file ++ siblingExt a)) /\
  (forall k, (forall a, k <> file ++ siblingExt a) -> JsMap.get d' k = JsMap.get d k).
Proof.
  unfold compressEntry. intros H Hc Hget. rewrite Hc in H.
  unfold Fs.size in H. rewrite Hget in H.
  destruct (attempt codec gzip file (List.length content) d) as [d1|] eqn:E1; [|discriminate].
  cbn [bind] in H.
  destruct (attempt codec zstd file (List.length content) d1) as [d2|] eqn:E2; [|discriminate].
  cbn [bind] in H.
  assert (F1 : forall k, k <> file ++ siblingExt gzip -> JsMap.get d1 k = JsMap.get d k)
    by (intros; eapply attempt_frame; eauto).
  assert (F2 : forall k, k <> file ++ siblingExt zstd -> JsMap.get d2 k = JsMap.get d1 k)
    by (intros; eapply attempt_frame; eauto).
  assert (F3 : forall k, k <> file ++ siblingExt brotli -> JsMap.get d' k = JsMap.get d2 k)
    by (intros; eapply attempt_frame; eauto).
  assert (N : forall a b, a <> b -> file ++ siblingExt a <> file ++ siblingExt b).
  { intros a b Hab K. apply sibling_inj in K. now destruct K. }
  assert (G1 : JsMap.get d1 file = Some content).
  { rewrite F1; [assumption | now apply compressible_not_sibling]. }
  assert (G2 : JsMap.get d2 file = Some content).
  { rewrite F2; [assumption | now apply compressible_not_sibling]. }
  split.
  - intros a.
    destruct (attempt_spec _ _ _ _ _ E1) as (c1 & z1 & K1 & C1 & D1).
    destruct (attempt_spec _ _ _ _ _ E2) as (c2 & z2 & K2 & C2 & D2).
    destruct (attempt_spec _ _ _ _ _ H) as (c3 & z3 & K3 & C3 & D3).
    assert (c1 = content) by congruence. assert (c2 = content) by congruence.
    assert (c3 = content) by congruence. subst c1 c2 c3.
    destruct a.
    + exists z1. split; [assumption|].
      rewrite F3, F2 by (apply N; discriminate).
      rewrite D1. destruct (List.length z1 <? List.length content)%nat; [|reflexivity].
      apply get_set_here.
    + exists z2. split; [assumption|].
      rewrite F3 by (apply N; discriminate).
      rewrite D2. destruct (List.length z2 <? List.length content)%nat.
      * apply get_set_here.
      * apply F1, N. discriminate.
    + exists z3. split; [assumption|].
      rewrite D3. destruct (List.length z3 <? List.length content)%nat.
      * apply get_set_here.
      * rewrite F2, F1 by (apply N; discriminate). reflexivity.
  - intros k Hk. rewrite F3, F2, F1 by apply Hk. reflexivity.
Qed.

Lemma entry_reads (d d' : Dir) (file : string) :
  compressEntry codec d file = Ok d' -> compressible file = true ->
  exists content, JsMap.get d file = Some content.
Proof.
  unfold compressEntry. intros H Hc. rewrite Hc in H.
  destruct (attempt codec gzip file (Fs.size d file) d) as [d1|] eqn:E1; [|discriminate].
  destruct (attempt_spec _ _ _ _ _ E1) as (content & _ & K & _). eauto.
Qed.

Lemma entry_skipped (d : Dir) (file : string) :
  compressible file = false -> compressEntry codec d file = Ok d.
Proof. unfold compressEntry. now intros ->. Qed.

(** a task leaves every compressible entry as it found it *)
Lemma entry_keeps_sources (d d' : Dir) (file k : string) :
  compressEntry codec d file = Ok d' -> compressible k = true ->
  JsMap.get d' k = JsMap.get d k.
Proof.
  intros H Hk. destruct (compressible file) eqn:Hc.
  - destruct (entry_reads _ _ _ H Hc) as [content Hget].
    apply (proj2 (entry_spec _ _ _ _ H Hc Hget)).
    intros a. now apply compressible_not_sibling.
  - rewrite entry_skipped in H by assumption. now injection H as <-.
Qed.

Section OneSibling.
Variables (base : Dir) (file : string) (content : bytes) (a : Algorithm).
Hypothesis Hbase : JsMap.get base file = Some content.
Hypothesis Hfile : compressible file = true.

Lemma runEntries_spec (l : list string) :
  forall d0 d',
    runEntries codec l d0 = Ok d' ->
    (forall k, compressible k = true -> JsMap.get d0 k = JsMap.get base k) ->
    (forall k, compressible k = true -> JsMap.get d' k = JsMap.get base k) /\
    (~ In file l ->
     JsMap.get d' (file ++ siblingExt a) = JsMap.get d0 (file ++ siblingExt a)) /\
    (In file l ->
     exists c, codec a content = Ok c /\
               JsMap.get d' (file ++ siblingExt a) =
               if (List.length c <? List.length content)%nat then Some c
               else JsMap.get d0 (file ++ siblingExt a)).
Proof.
  induction l as [|g r IH]; intros d0 d' H Inv.
  - injection H as <-. split; [assumption|]. split; [reflexivity|]. intros [].
  - cbn [runEntries] in H.
    destruct (compressEntry codec d0 g) as [d1|] eqn:E; [|discriminate]. cbn [bind] in H.
    assert (Inv1 : forall k, compressible k = true -> JsMap.get d1 k = JsMap.get base k).
    { intros k Hk. rewrite (entry_keeps_sources _ _ _ _ E Hk). now apply Inv. }
    destruct (IH _ _ H Inv1) as (I' & Out & In').
    split; [assumption|].
    destruct (String.eqb_spec g file) as [->|Hne].
    + assert (Hget : JsMap.get d0 file = Some content) by (rewrite Inv; assumption).
      destruct (proj1 (entry_spec _ _ _ _ E Hfile Hget) a) as (c & Hc & Hd1).
      split; [intros K; exfalso; apply K; now left|]. intros _. exists c. split; [assumption|].
      destruct (in_dec string_dec file r) as [Hin|Hout].
      * destruct (In' Hin) as (c' & Hc' & Hd'). assert (c' = c) by congruence. subst c'.
        rewrite Hd', Hd1. now destruct (List.length c <? List.length content)%nat.
      * now rewrite (Out Hout).
    + assert (Hd1 : JsMap.get d1 (file ++ siblingExt a) = JsMap.get d0 (file ++ siblingExt a)).
      { destruct (compressible g) eqn:Hg.
        - destruct (entry_reads _ _ _ E Hg) as [cg Hcg].
          apply (proj2 (entry_spec _ _ _ _ E Hg Hcg)).
          intros b K. apply sibling_inj in K. destruct K. congruence.
        - rewrite entry_skipped in E by assumption. now injection E as <-. }
      split.
      * intros K. rewrite Out; [assumption|]. intros Hin. apply K. now right.
      * intros [K|K]; [congruence|]. destruct (In' K) as (c & Hc & Hd').
        exists c. split; [assumption|]. now rewrite Hd', Hd1.
Qed.
End OneSibling.

(** C6: after a run of [compressFilesInDir] that did not reject, for every
    compressible file and each of gzip, zstd and brotli, the sibling
    ([.gz]/[.zst]/[.br]) holds the compressed bytes if they are strictly
    shorter than the file, and otherwise the run left the sibling's entry as
    it was (absent, if it was absent). *)
Theorem sibling_written_iff_smaller (d d' : Dir) (file : string) (content : bytes)
        (a : Algorithm) :
  compressFilesInDir codec d = Ok d' ->
  JsMap.get d file = Some content ->
  compressible file = true ->
  exists compressed,
    codec a content = Ok compressed /\
    (List.length compressed < List.length content ->
     JsMap.get d' (file ++ siblingExt a) = Some compressed) /\
    (List.length content <= List.length compressed ->
     JsMap.get d' (file ++ siblingExt a) = JsMap.get d (file ++ siblingExt a)).
Proof.
  intros H Hget Hc.
  destruct (@runEntries_spec d file content a Hget Hc _ _ _ H (fun _ _ => eq_refl))
    as (_ & _ & Hin).
  destruct Hin as (c & Hcodec & Hd').
  { apply MapFacts.get_in_keys. congruence. }
  exists c. split; [assumption|]. rewrite Hd'. split; intros L.
  - apply Nat.ltb_lt in L. now rewrite L.
  - apply Nat.ltb_ge in L. now rewrite L.
Qed.

Lemma runEntries_fixed (d : Dir) (l : list string) :
  (forall f, In f l -> compressEntry codec d f = Ok d) -> runEntries codec l d = Ok d.
Proof.
  induction l as [|f r IH]; intros H; [reflexivity|].
  cbn [runEntries]. rewrite H by now left. cbn [bind]. apply IH. intros g Hg. apply H. now right.
Qed.

Lemma runEntries_keeps_sources (l : list string) :
  forall d0 d' k,
    runEntries codec l d0 = Ok d' -> compressible k = true ->
    JsMap.get d' k = JsMap.get d0 k.
Proof.
  induction l as [|g r IH]; intros d0 d' k H Hk.
  - now injection H as <-.
  - cbn [runEntries] in H.
    destruct (compressEntry codec d0 g) as [d1|] eqn:E; [|discriminate]. cbn [bind] in H.
    rewrite (IH _ _ _ H Hk). apply (entry_keeps_sources _ _ _ _ E Hk).
Qed.

Lemma attempt_fixed (a : Algorithm) (file : string) (content c : bytes) (d : Dir) :
  JsMap.get d file = Some content -> codec a content = Ok c ->
  (List.length c < List.length content -> JsMap.get d (file ++ siblingExt a) = Some c) ->
  attempt codec a file (List.length content) d = Ok d.
Proof.
  intros Hget Hc Hs. unfold attempt, compressWithWorker, Fs.read.
  rewrite Hget. cbn [bind]. rewrite Hc. cbn [bind].
  destruct (List.length c <? List.length content)%nat eqn:L; [|reflexivity].
  apply Nat.ltb_lt in L. now rewrite MapFacts.set_same by auto.
Qed.

Lemma second_run_fixed (d d1 : Dir) :
  compressFilesInDir codec d = Ok d1 -> compressFilesInDir codec d1 = Ok d1.
Proof.
  intros H. apply runEntries_fixed. intros f Hf.
  destruct (compressible f) eqn:Hc; [|now apply entry_skipped].
  apply MapFacts.get_in_keys in Hf.
  destruct (JsMap.get d1 f) as [content|] eqn:Hget; [clear Hf | congruence].
  assert (Hsrc : JsMap.get d f = Some content).
  { rewrite <- Hget. symmetry. apply (runEntries_keeps_sources _ _ _ _ H Hc). }
  assert (A : forall a, attempt codec a f (List.length content) d1 = Ok d1).
  { intros a.
    destruct (runEntries_spec d f content a Hsrc Hc _ _ _ H (fun _ _ => eq_refl))
      as (_ & _ & Hin).
    destruct Hin as (c & Hcodec & Hd1); [apply get_in_keys; congruence|].
    apply attempt_fixed with (c := c); [assumption | assumption |].
    intros L. apply Nat.ltb_lt in L. now rewrite Hd1, L. }
  unfold compressEntry. rewrite Hc. unfold Fs.size. rewrite Hget.
  rewrite (A gzip). cbn [bind]. rewrite (A zstd). cbn [bind]. apply A.
Qed.
End Run.

Lemma sibling_written_iff_smaller_witness :
  (exists compressed,
      sampleCodec gzip (list_byte_of_string "console.log(1)") = Ok compressed /\
      (List.length compressed < 14 ->
       JsMap.get sampleDirCompressed "app.js.gz" = Some compressed) /\
      (14 <= List.length compressed ->
       JsMap.get sampleDirCompressed "app.js.gz" = JsMap.get sampleDir "app.js.gz")) /\
  (exists compressed,
      sampleCodec zstd (list_byte_of_string "console.log(1)") = Ok compressed /\
      (List.length compressed < 14 ->
       JsMap.get sampleDirCompressed "app.js.zst" = Some compressed) /\
      (14 <= List.length compressed ->
       JsMap.get sampleDirCompressed "app.js.zst" = JsMap.get sampleDir "app.js.zst")).
Proof.
  split.
  - apply (sibling_written_iff_smaller sampleCodec sampleDir sampleDirCompressed
             "app.js" (list_byte_of_string "console.log(1)") gzip);
      vm_compute; reflexivity.
  - apply (sibling_written_iff_smaller sampleCodec sampleDir sampleDirCompressed
             "app.js" (list_byte_of_string "console.log(1)") zstd);
      vm_compute; reflexivity.
Defined.

Lemma compressible_iff (file : string) :
  compressible file = true <->
  exists stem ext, In ext allowList /\ file = stem ++ "." ++ ext.
Proof.
  unfold compressible. rewrite existsb_exists. split.
  - intros (ext & Hin & He). apply endsWith_iff in He. destruct He as [stem ->].
    now exists stem, ext.
  - intros (stem & ext & Hin & ->). exists ext. split; [assumption|].
    apply endsWith_append.
Qed.

Lemma compressed_name_skipped (file : string) :
  Str.endsWith file ".gz" = true \/ Str.endsWith file ".zst" = true \/
  Str.endsWith file ".br" = true ->
  compressible file = false.
Proof.
  intros [H|[H|H]]; apply endsWith_iff in H; destruct H as [stem ->].
  - apply (sibling_not_compressible stem gzip).
  - apply (sibling_not_compressible stem zstd).
  - apply (sibling_not_compressible stem brotli).
Qed.

(** C10: only names ending in [.js], [.css], [.html], [.json], [.svg] or
    [.ico] are compressed; a name ending in [.gz], [.zst] or [.br] is not
    among them, so its entry's task does nothing; and a second run over the
    directory a first run left changes nothing, so it adds no file name. *)
Theorem compression_is_for_sources_only (codec : Algorithm -> bytes -> result bytes) :
  (forall file, compressible file = true <->
                exists stem ext, In ext allowList /\ file = stem ++ "." ++ ext) /\
  (forall file d,
      Str.endsWith file ".gz" = true \/ Str.endsWith file ".zst" = true \/
      Str.endsWith file ".br" = true ->
      compressible file = false /\ compressEntry codec d file = Ok d) /\
  (forall d d1,
      compressFilesInDir codec d = Ok d1 ->
      exists d2, compressFilesInDir codec d1 = Ok d2 /\ d2 = d1 /\
                 readdirSync d2 = readdirSync d1).
Proof.
  split; [apply compressible_iff|]. split.
  - intros file d H. apply compressed_name_skipped in H.
    split; [assumption | now apply entry_skipped].
  - intros d d1 H. exists d1. split; [now apply second_run_fixed with (d := d) | auto].
Qed.

Lemma compression_is_for_sources_only_witness :
  (compressible "app.js.gz" = false /\
   compressEntry sampleCodec sampleDirCompressed "app.js.gz" = Ok sampleDirCompressed) /\
  exists d2, compressFilesInDir sampleCodec sampleDirCompressed = Ok d2 /\
             d2 = sampleDirCompressed /\
             readdirSync d2 = readdirSync sampleDirCompressed.
Proof.
  split.
  - apply (proj1 (proj2 (compression_is_for_sources_only sampleCodec))).
    left. reflexivity.
  - apply (proj2 (proj2 (compression_is_for_sources_only sampleCodec)) sampleDir).
    vm_compute. reflexivity.
Defined.

End CompressFacts.

(** ** fixDuplicateExportsInDirectory *)

Module ExportFixFacts.
Import ExportFix StrFacts MapFacts.

Lemma includesName_iff (l : list string) (x : string) :
  includesName l x = true <-> In x l.
Proof.
  unfold includesName. rewrite existsb_exists. split.
  - intros (y & Hy & E). apply String.eqb_eq in E. now subst.
  - intros H. exists x. split; [assumption | apply String.eqb_refl].
Qed.

Lemma setAddAll_in (xs seen : list string) (x : string) :
  In x (setAddAll seen xs) -> In x seen \/ In x xs.
Proof.
  revert seen. induction xs as [|y ys IH]; intros seen H; [now left|].
  cbn [setAddAll fold_left] in H. apply IH in H. destruct H as [H|H]; [|right; now right].
  unfold setAdd in H. destruct (includesName seen y); [now left|].
  apply in_app_or in H. destruct H as [H|[<-|[]]]; [now left | right; now left].
Qed.

Lemma filter_none (A : Type) (f : A -> bool) (l : list A) :
  (forall x, In x l -> f x = false) -> List.filter f l = [].
Proof.
  induction l as [|a l IH]; intros H; [reflexivity|]. simpl.
  rewrite (H a) by now left. apply IH. intros x Hx. apply H. now right.
Qed.

Lemma NoDup_app_apart (A : Type) (l1 l2 : list A) :
  NoDup (l1 ++ l2) -> forall a, In a l1 -> ~ In a l2.
Proof.
  induction l1 as [|x l1 IH]; intros H a Ha; [destruct Ha|].
  cbn in H. apply NoDup_cons_iff in H. destruct H as [Hx H].
  destruct Ha as [->|Ha]; [|now apply IH].
  intros K. apply Hx. apply in_or_app. now right.
Qed.

(** statements whose names are pairwise different plan no fix *)
Lemma plan_without_duplicates (code : string) (stmts : list ExportStatement) :
  forall p,
    statementsToRemove p = [] ->
    namesToRemoveFromStatements p = [] ->
    NoDup (List.concat (List.map names stmts)) ->
    (forall x, In x (seen p) -> ~ In x (List.concat (List.map names stmts))) ->
    let p' := List.fold_left (planStatement code) stmts p in
    statementsToRemove p' = [] /\ namesToRemoveFromStatements p' = [].
Proof.
  induction stmts as [|st r IH]; intros p R N D S; [now split|].
  cbn [fold_left map concat] in *.
  pose proof (NoDup_app_apart _ _ _ D) as Dis. apply NoDup_app_remove_l in D.
  assert (E : List.filter (includesName (seen p)) (names st) = []).
  { apply filter_none. intros x Hx. destruct (includesName (seen p) x) eqn:K; [|reflexivity].
    apply includesName_iff in K. exfalso. apply (S x K). apply in_or_app. now left. }
  apply IH.
  - unfold planStatement. rewrite E. exact R.
  - unfold planStatement. rewrite E. exact N.
  - exact D.
  - unfold planStatement. rewrite E. cbn [seen]. intros x Hx Hin.
    apply setAddAll_in in Hx. destruct Hx as [Hx|Hx].
    + apply (S x Hx). apply in_or_app. now right.
    + exact (Dis x Hx Hin).
Qed.

Lemma fixCode_without_duplicates (code : string) (exports : list ExportSpecifier) :
  NoDup (List.concat (List.map names (exportStatements code exports))) ->
  fixCode code exports = None.
Proof.
  intros D. unfold fixCode, planFixes.
  destruct (plan_without_duplicates code (exportStatements code exports) emptyPlan
              eq_refl eq_refl D) as [R N].
  { intros x []. }
  now rewrite R, N.
Qed.

Section Fixer.
Variable parse : string -> result (list ExportSpecifier).

(** a file's task writes that file only *)
Lemma fixOne_frame (dirPath : string) (d : Dir) (f k : string) :
  k <> f -> JsMap.get (fst (fixOne parse dirPath d f)) k = JsMap.get d k.
Proof.
  intros Hk. unfold fixOne, fixDuplicateExportsInFile, readText.
  destruct (Fs.read d f) as [b|]; [|reflexivity]. cbn [bind].
  destruct (parse (string_of_list_byte b)) as [exports|]; [|reflexivity]. cbn [bind].
  destruct (fixCode (string_of_list_byte b) exports); [|reflexivity].
  cbn [fst]. unfold writeText. apply get_set_other. congruence.
Qed.

(** and its outcome depends on that file only *)
Lemma fixOne_local (dirPath : string) (d1 d2 : Dir) (f : string) :
  JsMap.get d1 f = JsMap.get d2 f ->
  snd (fixOne parse dirPath d1 f) = snd (fixOne parse dirPath d2 f).
Proof.
  intros H. unfold fixOne, fixDuplicateExportsInFile, readText, Fs.read. rewrite H.
  destruct (JsMap.get d2 f) as [b|]; [|reflexivity]. cbn [bind].
  destruct (parse (string_of_list_byte b)) as [exports|]; [|reflexivity]. cbn [bind].
  now destruct (fixCode (string_of_list_byte b) exports).
Qed.

Lemma fixAll_results (dirPath : string) (d : Dir) (l : list string) :
  forall d0,
    NoDup l ->
    (forall f, In f l -> JsMap.get d0 f = JsMap.get d f) ->
    snd (fixAll parse dirPath d0 l) = List.map (fun g => snd (fixOne parse dirPath d g)) l.
Proof.
  induction l as [|f r IH]; intros d0 ND Agree; [reflexivity|].
  cbn [fixAll List.map].
  pose proof (fixOne_local dirPath d0 d f (Agree f (or_introl eq_refl))) as L.
  pose proof (fun k => fixOne_frame dirPath d0 f k) as F.
  destruct (fixOne parse dirPath d0 f) as [d1 entry]. cbn [fst snd] in L, F.
  apply NoDup_cons_iff in ND. destruct ND as [Hf ND].
  specialize (IH d1 ND).
  destruct (fixAll parse dirPath d1 r) as [d2 entries]. cbn [snd] in *.
  rewrite L. f_equal. apply IH. intros g Hg.
  rewrite F by (intros ->; contradiction). apply Agree. now right.
Qed.

Lemma fixOne_throw (dirPath : string) (d : Dir) (f err : string) :
  fixDuplicateExportsInFile parse d f = Throw err ->
  fixOne parse dirPath d f =
  (d, {| filePath := Path.join dirPath f; wasFixed := false; error := Some err |}).
Proof. unfold fixOne. now intros ->. Qed.

Lemma directory_report (dirPath : string) (d : Dir) :
  getAllJsFiles d <> [] ->
  exists rep,
    snd (fixDuplicateExportsInDirectory parse dirPath d) = Some rep /\
    results rep = snd (fixAll parse dirPath d (getAllJsFiles d)) /\
    fst (fixDuplicateExportsInDirectory parse dirPath d) =
      fst (fixAll parse dirPath d (getAllJsFiles d)) /\
    totalFiles rep = List.length (getAllJsFiles d) /\
    filesFixed rep = List.length (List.filter wasFixed (results rep)) /\
    errorCount rep =
      List.length (List.filter (fun r => BunStatic.isSome (error r)) (results rep)).
Proof.
  intros Hne. unfold fixDuplicateExportsInDirectory.
  destruct (getAllJsFiles d) as [|f r] eqn:E; [contradiction|].
  destruct (fixAll parse dirPath d (f :: r)) as [d' rs]. eexists. repeat split.
Qed.

Lemma count_at_least_one (A : Type) (p : A -> bool) (l : list A) (x : A) :
  In x l -> p x = true -> 1 <= List.length (List.filter p l).
Proof.
  intros Hin Hp. assert (K : In x (List.filter p l)) by (apply filter_In; auto).
  destruct (List.filter p l); [destruct K | simpl; lia].
Qed.

(** C9: an error thrown while one file is fixed ends up in that file's entry
    of the results; every file of the directory has its entry, with the
    outcome of its own fix; and the function returns with the three counts. *)
Theorem one_file_error_is_isolated (dirPath : string) (d : Dir) (f err : string) :
  NoDup (JsMap.keys d) ->
  In f (getAllJsFiles d) ->
  fixDuplicateExportsInFile parse d f = Throw err ->
  exists d' rep,
    fixDuplicateExportsInDirectory parse dirPath d = (d', Some rep) /\
    results rep = List.map (fun g => snd (fixOne parse dirPath d g)) (getAllJsFiles d) /\
    In {| filePath := Path.join dirPath f; wasFixed := false; error := Some err |}
       (results rep) /\
    totalFiles rep = List.length (getAllJsFiles d) /\
    filesFixed rep = List.length (List.filter wasFixed (results rep)) /\
    errorCount rep =
      List.length (List.filter (fun r => BunStatic.isSome (error r)) (results rep)) /\
    1 <= errorCount rep.
Proof.
  intros ND Hin Hthrow.
  assert (Hne : getAllJsFiles d <> []) by (intros E; rewrite E in Hin; destruct Hin).
  destruct (directory_report dirPath d Hne) as (rep & Hrep & Hres & Hd & Ht & Hf & He).
  exists (fst (fixDuplicateExportsInDirectory parse dirPath d)), rep.
  assert (R : results rep =
              List.map (fun g => snd (fixOne parse dirPath d g)) (getAllJsFiles d)).
  { rewrite Hres. apply fixAll_results; [|reflexivity].
    unfold getAllJsFiles, globJs. now apply NoDup_filter. }
  assert (I : In {| filePath := Path.join dirPath f; wasFixed := false; error := Some err |}
                 (results rep)).
  { rewrite R. apply in_map_iff. exists f. split; [|assumption].
    now rewrite (fixOne_throw dirPath d f err Hthrow). }
  split; [rewrite <- Hrep; apply surjective_pairing|].
  repeat (split; [assumption|]).
  rewrite He. now apply count_at_least_one with (x := {| filePath := Path.join dirPath f; wasFixed := false; error := Some err |}).
Qed.

Lemma fixAll_untouched (dirPath : string) (d : Dir) (l : list string) :
  (forall f, In f l -> fixDuplicateExportsInFile parse d f = Ok (d, false)) ->
  fixAll parse dirPath d l =
  (d, List.map (fun f => {| filePath := Path.join dirPath f; wasFixed := false;
                            error := None |}) l).
Proof.
  induction l as [|f r IH]; intros H; [reflexivity|].
  cbn [fixAll List.map]. unfold fixOne at 1. rewrite (H f) by now left.
  rewrite IH; [reflexivity|]. intros g Hg. apply H. now right.
Qed.

Lemma filter_map_none (A B : Type) (g : A -> B) (p : B -> bool) (l : list A) :
  (forall a, p (g a) = false) -> List.filter p (List.map g l) = [].
Proof.
  intros H. induction l as [|a l IH]; [reflexivity|]. cbn. now rewrite H.
Qed.

(** C2, amended: when no [.js] file of the directory exports a name twice
    (as with two files that each hold [export { foo };]), the fixer changes
    no file, reports no file fixed and no error, and a second run does the
    same: each file is de-duplicated on its own. *)
Theorem files_without_inner_duplicates_stay (dirPath : string) (d : Dir) :
  getAllJsFiles d <> [] ->
  (forall f, In f (getAllJsFiles d) ->
     exists code exports,
       readText d f = Ok code /\ parse code = Ok exports /\
       NoDup (List.concat (List.map names (exportStatements code exports)))) ->
  exists rep,
    fixDuplicateExportsInDirectory parse dirPath d = (d, Some rep) /\
    totalFiles rep = List.length (getAllJsFiles d) /\
    filesFixed rep = 0 /\ errorCount rep = 0 /\
    fixDuplicateExportsInDirectory parse dirPath
      (fst (fixDuplicateExportsInDirectory parse dirPath d)) = (d, Some rep).
Proof.
  intros Hne H.
  assert (U : forall f, In f (getAllJsFiles d) ->
                        fixDuplicateExportsInFile parse d f = Ok (d, false)).
  { intros f Hf. destruct (H f Hf) as (code & exports & Hr & Hp & Hn).
    unfold fixDuplicateExportsInFile. rewrite Hr. cbn [bind]. rewrite Hp. cbn [bind].
    now rewrite (fixCode_without_duplicates code exports Hn). }
  destruct (directory_report dirPath d Hne) as (rep & Hrep & Hres & Hd & Ht & Hf & He).
  rewrite (fixAll_untouched dirPath d _ U) in Hres, Hd. cbn [fst snd] in Hres, Hd.
  assert (E : fixDuplicateExportsInDirectory parse dirPath d = (d, Some rep)).
  { rewrite (surjective_pairing (fixDuplicateExportsInDirectory parse dirPath d)).
    now rewrite Hrep, Hd. }
  exists rep. split; [assumption|]. split; [assumption|].
  rewrite Hf, He, Hres, !filter_map_none by reflexivity.
  repeat split. now rewrite E.
Qed.
End Fixer.

Lemma files_without_inner_duplicates_stay_witness :
  exists rep,
    fixDuplicateExportsInDirectory sampleParse "/out" twoFiles = (twoFiles, Some rep) /\
    totalFiles rep = List.length (getAllJsFiles twoFiles) /\
    filesFixed rep = 0 /\ errorCount rep = 0 /\
    fixDuplicateExportsInDirectory sampleParse "/out"
      (fst (fixDuplicateExportsInDirectory sampleParse "/out" twoFiles))
    = (twoFiles, Some rep).
Proof.
  apply (files_without_inner_duplicates_stay sampleParse "/out" twoFiles).
  - vm_compute. discriminate.
  - intros f Hf. exists "export { foo };", [{| n := Some "foo"; s := 9; e := 12 |}].
    vm_compute in Hf. destruct Hf as [<-|[<-|[]]].
    + split; [reflexivity|]. split; [reflexivity|]. vm_compute.
      constructor; [intros [] | constructor].
    + split; [reflexivity|]. split; [reflexivity|]. vm_compute.
      constructor; [intros [] | constructor].
Defined.

(** C2 as stated fails: after the run both files still hold the statement
    and nothing was reported as fixed. *)
Lemma both_files_keep_the_export :
  let run := fixDuplicateExportsInDirectory sampleParse "/out" twoFiles in
  retains (fst run) "a.js" "export { foo };" = true /\
  retains (fst run) "b.js" "export { foo };" = true /\
  option_map filesFixed (snd run) = Some 0.
Proof. vm_compute. repeat split. Qed.

(** within one file the fixer does remove the repeated name *)
Example repeated_name_is_dropped :
  fixCode twoStatements
          [{| n := Some "foo"; s := 9; e := 12 |};
           {| n := Some "foo"; s := 25; e := 28 |};
           {| n := Some "bar"; s := 30; e := 33 |}]
  = Some ("export { foo };" ++ newline ++ "export { bar };").
Proof. vm_compute. reflexivity. Qed.

Lemma one_file_error_is_isolated_witness :
  exists d' rep,
    fixDuplicateExportsInDirectory sampleParse "/out" brokenDir = (d', Some rep) /\
    results rep =
      List.map (fun g => snd (fixOne sampleParse "/out" brokenDir g))
               (getAllJsFiles brokenDir) /\
    In {| filePath := Path.join "/out" "bad.js"; wasFixed := false;
          error := Some "Parse error @:1:9" |} (results rep) /\
    totalFiles rep = List.length (getAllJsFiles brokenDir) /\
    filesFixed rep = List.length (List.filter wasFixed (results rep)) /\
    errorCount rep =
      List.length (List.filter (fun r => BunStatic.isSome (error r)) (results rep)) /\
    1 <= errorCount rep.
Proof.
  apply (one_file_error_is_isolated sampleParse "/out" brokenDir "bad.js"
           "Parse error @:1:9").
  - simpl. constructor; [simpl; intros [K|[]]; discriminate|].
    constructor; [intros [] | constructor].
  - vm_compute. right. left. reflexivity.
  - vm_compute. reflexivity.
Defined.

End ExportFixFacts.

(** ** resolveJsDependencies *)

Module BundlingFacts.
Import Bundling StrFacts MapFacts.

Lemma hasName_iff (l : list string) (x : string) : hasName l x = true <-> In x l.
Proof.
  unfold hasName. rewrite existsb_exists. split.
  - intros (y & Hy & E). apply String.eqb_eq in E. now subst.
  - intros H. exists x. split; [assumption | apply String.eqb_refl].
Qed.

Section Fuel.
Variable referenceMap : JsMap.t (list string).
Hypothesis Hclosed : closed referenceMap.
Let U := JsMap.keys referenceMap.
Let visiting := visiting referenceMap.

Lemma collectDeps_enough_fuel (fuel : nat) :
  forall basename allDeps,
    visiting fuel allDeps ->
    exists allDeps',
      collectDeps fuel referenceMap basename allDeps = Some allDeps' /\
      visiting fuel allDeps' /\ List.length allDeps <= List.length allDeps'.
Proof.
  induction fuel as [|fuel IH]; intros basename allDeps (ND & Inc & Len).
  - exfalso. pose proof (NoDup_incl_length ND Inc). simpl in Len. lia.
  - cbn [collectDeps].
    destruct (JsMap.get referenceMap basename) as [refs|] eqn:G.
    2:{ exists allDeps. repeat split; auto. }
    pose proof (Hclosed _ _ G) as Hrefs. clear G.
    assert (V : visiting (S fuel) allDeps) by (repeat split; auto).
    clear ND Inc Len. revert allDeps V.
    induction refs as [|ref rest IHr]; intros allDeps V.
    + exists allDeps. auto.
    + destruct (hasName allDeps ref) eqn:Hn.
      * apply IHr; [|assumption]. intros x Hx. apply Hrefs. now right.
      * destruct V as (ND & Inc & Len).
        assert (Hnot : ~ In ref allDeps).
        { intros K. apply hasName_iff in K. congruence. }
        assert (ND' : NoDup (allDeps ++ [ref])%list).
        { apply NoDup_app; auto.
          - constructor; [intros [] | constructor].
          - intros a Ha [<-|[]]. contradiction. }
        assert (Inc' : incl (allDeps ++ [ref])%list U).
        { apply incl_app; [assumption|]. intros x [<-|[]]. apply Hrefs. now left. }
        pose proof (NoDup_incl_length ND' Inc') as L'. rewrite length_app in L'. simpl in L'.
        destruct (IH ref (allDeps ++ [ref])%list) as (a' & Ha' & (ND2 & Inc2 & Len2) & Mono).
        { repeat split; auto. rewrite length_app. simpl. lia. }
        rewrite Ha'. rewrite length_app in Mono. simpl in Mono.
        destruct (IHr (fun x Hx => Hrefs x (or_intror Hx)) a') as (a2 & Ha2 & V2 & Mono2).
        { repeat split; auto. lia. }
        exists a2. repeat split; try apply V2; auto. lia.
Qed.
End Fuel.

Lemma collectDeps_total (referenceMap : JsMap.t (list string)) (basename : string) :
  closed referenceMap ->
  exists allDeps,
    collectDeps (S (List.length referenceMap)) referenceMap basename [] = Some allDeps.
Proof.
  intros Hc.
  destruct (collectDeps_enough_fuel referenceMap Hc (S (List.length referenceMap))
              basename []) as (a & Ha & _).
  - repeat split; [constructor | intros x [] |].
    unfold JsMap.keys. rewrite length_map. simpl. lia.
  - eauto.
Qed.

(** *** the reference map is closed *)

Section FoldSet.
Variables (E V : Type) (key : E -> string) (val : E -> V).

Let step (m : JsMap.t V) (e : E) : JsMap.t V := JsMap.set m (key e) (val e).

Lemma fold_set_keys (l : list E) :
  forall m k, In k (JsMap.keys (List.fold_left step l m)) <->
              In k (JsMap.keys m) \/ In k (List.map key l).
Proof.
  induction l as [|e l IH]; intros m k; cbn [fold_left List.map]; [simpl; tauto|].
  rewrite IH. unfold step. rewrite keys_set. unfold JsMap.has.
  destruct (JsMap.get m (key e)) eqn:G.
  - assert (In (key e) (JsMap.keys m)) by (apply get_in_keys; congruence).
    simpl. intuition (subst; auto).
  - rewrite in_app_iff. simpl. intuition.
Qed.

Lemma fold_set_get (l : list E) :
  forall m k v, JsMap.get (List.fold_left step l m) k = Some v ->
                JsMap.get m k = Some v \/ exists e, In e l /\ key e = k /\ val e = v.
Proof.
  induction l as [|e l IH]; intros m k v H; cbn [fold_left] in H; [now left|].
  apply IH in H. destruct H as [H|(e' & He' & K)]; [|right; exists e'; simpl; tauto].
  unfold step in H. destruct (String.eqb_spec (key e) k) as [<-|Hne].
  - rewrite get_set_here in H. injection H as <-. right. exists e. simpl. auto.
  - rewrite get_set_other in H by assumption. now left.
Qed.
End FoldSet.

Lemma mapM_fst (A B : Type) (f : string * A -> result (string * B)) (l : list (string * A)) :
  (forall e y, f e = Ok y -> fst y = fst e) ->
  forall out, mapM f l = Ok out -> List.map fst out = List.map fst l.
Proof.
  intros Hf. induction l as [|e l IH]; intros out H; cbn [mapM] in H.
  - now injection H as <-.
  - destruct (f e) as [y|] eqn:E; [|discriminate]. cbn [bind] in H.
    destruct (mapM f l) as [ys|]; [|discriminate]. cbn [bind] in H.
    injection H as <-. cbn [List.map]. now rewrite (Hf e y E), (IH ys eq_refl).
Qed.

Lemma referenceMap_closed (readText : string -> result string)
      (publicAssetPath : string) (jsFilesByBasename contents : JsMap.t string) :
  fileContents readText jsFilesByBasename = Ok contents ->
  closed (referenceMapOf publicAssetPath jsFilesByBasename contents).
Proof.
  intros H k refs G.
  assert (K : List.map fst contents = JsMap.keys jsFilesByBasename).
  { unfold fileContents in H. refine (mapM_fst _ _ _ _ _ contents H).
    intros e y. cbv beta. destruct (readText (snd e)); [|discriminate].
    now intros [= <-]. }
  unfold referenceMapOf in *.
  apply fold_set_get in G. destruct G as [G|(e & He & _ & <-)]; [discriminate|].
  intros x Hx. apply fold_set_keys. right. rewrite K.
  unfold referencesOf in Hx. apply filter_In in Hx. tauto.
Qed.

(** *** appending dependencies *)

Section Append.
Variables (publicAssetPath : string) (jsFilesByBasename : JsMap.t string).
Let add := addDependency publicAssetPath jsFilesByBasename.

Lemma has_url_iff (jsFiles : list JsAsset) (u : string) :
  List.existsb (fun f => urlPath f =? u) jsFiles = true <-> In u (List.map urlPath jsFiles).
Proof.
  rewrite existsb_exists, in_map_iff. split.
  - intros (f & Hf & E). apply String.eqb_eq in E. eauto.
  - intros (f & E & Hf). exists f. split; [assumption|]. now apply String.eqb_eq.
Qed.

Lemma appendsNew_refl (jsFiles : list JsAsset) : appendsNew jsFiles jsFiles.
Proof.
  exists []. rewrite app_nil_r. repeat split; [constructor | destruct H | destruct H].
Qed.

Lemma appendsNew_trans (a b c : list JsAsset) :
  appendsNew a b -> appendsNew b c -> appendsNew a c.
Proof.
  intros (x & -> & Nx & Hx) (y & -> & Ny & Hy). exists (x ++ y)%list.
  split; [now rewrite app_assoc|]. split.
  - rewrite map_app. apply NoDup_app; auto.
    intros u Hu Hv. apply in_map_iff in Hv. destruct Hv as (f & <- & Hf).
    apply (proj2 (Hy f Hf)). rewrite map_app. apply in_or_app. now right.
  - intros f Hf. apply in_app_or in Hf. destruct Hf as [Hf|Hf]; [now apply Hx|].
    destruct (Hy f Hf) as [K N]. split; [assumption|].
    intros M. apply N. rewrite map_app. apply in_or_app. now left.
Qed.

(** the de-duplication test of the source: nothing is appended twice *)
Lemma addDependency_appendsNew (jsFiles : list JsAsset) (dep : string) :
  appendsNew jsFiles (add jsFiles dep).
Proof.
  unfold add, addDependency.
  destruct (JsMap.get jsFilesByBasename dep) as [fp|]; [|apply appendsNew_refl].
  destruct (List.existsb _ jsFiles) eqn:E; [apply appendsNew_refl|].
  eexists. split; [reflexivity|]. split.
  - simpl. constructor; [intros [] | constructor].
  - intros a [<-|[]]. split; [reflexivity|]. cbn [urlPath].
    intros K. apply has_url_iff in K. congruence.
Qed.

Lemma fold_appendsNew (deps : list string) :
  forall jsFiles, appendsNew jsFiles (List.fold_left add deps jsFiles).
Proof.
  induction deps as [|dep deps IH]; intros jsFiles; [apply appendsNew_refl|].
  cbn [fold_left]. eapply appendsNew_trans; [apply addDependency_appendsNew | apply IH].
Qed.

Lemma appendsNew_keeps_urls (a b : list JsAsset) (u : string) :
  appendsNew a b -> In u (List.map urlPath a) -> In u (List.map urlPath b).
Proof.
  intros (x & -> & _) H. rewrite map_app. apply in_or_app. now left.
Qed.

Lemma add_covers (jsFiles : list JsAsset) (dep : string) :
  JsMap.get jsFilesByBasename dep <> None ->
  In (publicAssetPath ++ dep) (List.map urlPath (add jsFiles dep)).
Proof.
  intros H. unfold add, addDependency.
  destruct (JsMap.get jsFilesByBasename dep) as [fp|]; [|congruence].
  destruct (List.existsb _ jsFiles) eqn:E; [now apply has_url_iff|].
  rewrite map_app. apply in_or_app. right. now left.
Qed.

Lemma fold_covers (deps : list string) :
  forall jsFiles dep,
    In dep deps -> JsMap.get jsFilesByBasename dep <> None ->
    In (publicAssetPath ++ dep) (List.map urlPath (List.fold_left add deps jsFiles)).
Proof.
  induction deps as [|d deps IH]; intros jsFiles dep Hin Hget; [destruct Hin|].
  destruct Hin as [<-|Hin]; cbn [fold_left].
  - apply (appendsNew_keeps_urls _ _ _ (fold_appendsNew deps _)). now apply add_covers.
  - now apply IH.
Qed.

Lemma fold_fixed (deps : list string) (jsFiles : list JsAsset) :
  (forall dep, In dep deps -> JsMap.get jsFilesByBasename dep <> None ->
               In (publicAssetPath ++ dep) (List.map urlPath jsFiles)) ->
  List.fold_left add deps jsFiles = jsFiles.
Proof.
  induction deps as [|d deps IH]; intros H; [reflexivity|]. cbn [fold_left].
  assert (E : add jsFiles d = jsFiles).
  { unfold add, addDependency.
    destruct (JsMap.get jsFilesByBasename d) as [fp|] eqn:G; [|reflexivity].
    assert (K : In (publicAssetPath ++ d) (List.map urlPath jsFiles)).
    { apply H; [now left | congruence]. }
    apply has_url_iff in K. now rewrite K. }
  rewrite E. apply IH. intros dep Hd. apply H. now right.
Qed.

Lemma find_entrypoint_app (jsFiles added : list JsAsset) :
  (forall a, In a added -> kind a = chunk) ->
  List.find isEntrypoint (jsFiles ++ added) = List.find isEntrypoint jsFiles.
Proof.
  intros H. induction jsFiles as [|f l IH]; cbn [app List.find].
  - induction added as [|a r IHr]; [reflexivity|]. cbn [List.find].
    unfold isEntrypoint at 1. rewrite (H a) by now left.
    apply IHr. intros x Hx. apply H. now right.
  - destruct (isEntrypoint f); [reflexivity | apply IH].
Qed.

Variable referenceMap : JsMap.t (list string).

Lemma resolvePage_appendsNew (jsFiles out : list JsAsset) :
  resolvePage publicAssetPath jsFilesByBasename referenceMap jsFiles = Some out ->
  appendsNew jsFiles out.
Proof.
  unfold resolvePage. destruct (List.find isEntrypoint jsFiles) as [entry|].
  - destruct (collectDeps _ _ _ _) as [allDeps|]; [|discriminate].
    intros [= <-]. apply fold_appendsNew.
  - intros [= <-]. apply appendsNew_refl.
Qed.

Lemma resolvePage_again (jsFiles out : list JsAsset) :
  resolvePage publicAssetPath jsFilesByBasename referenceMap jsFiles = Some out ->
  resolvePage publicAssetPath jsFilesByBasename referenceMap out = Some out.
Proof.
  intros H. pose proof (resolvePage_appendsNew _ _ H) as (added & Eo & _ & Hk).
  revert H. unfold resolvePage.
  rewrite Eo, (find_entrypoint_app jsFiles added (fun a Ha => proj1 (Hk a Ha))).
  destruct (List.find isEntrypoint jsFiles) as [entry|]; [|now intros [= <-]].
  destruct (collectDeps _ _ _ _) as [allDeps|]; [|discriminate].
  intros [= E]. f_equal. fold add in E |- *. rewrite <- E at 2.
  rewrite E. apply fold_fixed. intros dep Hin Hget. rewrite <- E.
  now apply fold_covers.
Qed.

Lemma resolvePages_again (pages out : BundleJsByPagePathMap) :
  resolvePages publicAssetPath jsFilesByBasename referenceMap pages = Some out ->
  resolvePages publicAssetPath jsFilesByBasename referenceMap out = Some out /\
  Forall2 (fun p p' => fst p' = fst p /\ appendsNew (snd p) (snd p')) pages out.
Proof.
  revert out. induction pages as [|[pagePath jsFiles] rest IH]; intros out H.
  - injection H as <-. split; [reflexivity | constructor].
  - cbn [resolvePages] in H.
    destruct (resolvePage _ _ _ jsFiles) as [jsFiles'|] eqn:E1; [|discriminate].
    destruct (resolvePages _ _ _ rest) as [rest'|] eqn:E2; [|discriminate].
    injection H as <-. destruct (IH rest' eq_refl) as [I1 I2]. split.
    + cbn [resolvePages]. now rewrite (resolvePage_again _ _ E1), I1.
    + constructor; [|assumption]. split; [reflexivity|].
      now apply resolvePage_appendsNew.
Qed.

Lemma resolvePages_total (pages : BundleJsByPagePathMap) :
  closed referenceMap ->
  exists out, resolvePages publicAssetPath jsFilesByBasename referenceMap pages = Some out.
Proof.
  intros Hc. induction pages as [|[pagePath jsFiles] rest [out IH]]; [now exists []|].
  cbn [resolvePages]. rewrite IH.
  assert (T : exists o, resolvePage publicAssetPath jsFilesByBasename referenceMap jsFiles
                        = Some o).
  { unfold resolvePage. destruct (List.find isEntrypoint jsFiles) as [entry|]; [|eauto].
    destruct (collectDeps_total referenceMap (Path.basename (urlPath entry)) Hc) as [a ->].
    eauto. }
  destruct T as [o ->]. eauto.
Qed.
End Append.

(** *** the function as a whole *)

Section Resolve.
Variables (clientJsDistFiles : list string) (readText : string -> result string).
Variables (clientDistDir publicAssetPath : string).

Lemma resolveJsDependencies_fuel (pages : BundleJsByPagePathMap)
      (o : option BundleJsByPagePathMap) :
  resolveJsDependencies clientJsDistFiles readText clientDistDir publicAssetPath pages
  = Ok o ->
  o <> None.
Proof.
  unfold resolveJsDependencies.
  destruct (fileContents readText _) as [contents|] eqn:E; [|discriminate].
  cbn [bind]. intros [= <-].
  destruct (resolvePages_total publicAssetPath
              (jsFilesByBasenameOf clientDistDir clientJsDistFiles)
              (referenceMapOf publicAssetPath
                 (jsFilesByBasenameOf clientDistDir clientJsDistFiles) contents)
              pages (referenceMap_closed _ _ _ _ E)) as [out ->].
  discriminate.
Qed.

Lemma resolve_again (pages out : BundleJsByPagePathMap) :
  resolveJsDependencies clientJsDistFiles readText clientDistDir publicAssetPath pages
  = Ok (Some out) ->
  Forall2 (fun p p' => fst p' = fst p /\ appendsNew (snd p) (snd p')) pages out /\
  resolveJsDependencies clientJsDistFiles readText clientDistDir publicAssetPath out
  = Ok (Some out).
Proof.
  unfold resolveJsDependencies.
  destruct (fileContents readText _) as [contents|] eqn:E; [|discriminate].
  cbn [bind]. intros [= H].
  destruct (resolvePages_again _ _ _ _ _ H) as [I1 I2]. split; [assumption|].
  now rewrite I1.
Qed.
End Resolve.

(** C7: [resolveJsDependencies] returns (when the files can be read); each
    page keeps its list and gets behind it chunks whose URLs are pairwise
    different and were not in the list; and resolving the result again
    returns it unchanged. *)
Theorem dependencies_appended_once (clientJsDistFiles : list string)
        (readText : string -> result string) (clientDistDir publicAssetPath : string)
        (pages : BundleJsByPagePathMap) (o : option BundleJsByPagePathMap) :
  resolveJsDependencies clientJsDistFiles readText clientDistDir publicAssetPath pages
  = Ok o ->
  exists out,
    o = Some out /\
    Forall2 (fun p p' => fst p' = fst p /\ appendsNew (snd p) (snd p')) pages out /\
    resolveJsDependencies clientJsDistFiles readText clientDistDir publicAssetPath out
    = Ok (Some out).
Proof.
  intros H. destruct o as [out|].
  - exists out. split; [reflexivity|]. now apply resolve_again.
  - now apply resolveJsDependencies_fuel in H.
Qed.

Lemma dependencies_appended_once_witness :
  exists out,
    Some sampleResolved = Some out /\
    Forall2 (fun p p' => fst p' = fst p /\ appendsNew (snd p) (snd p')) samplePages out /\
    resolveJsDependencies sampleScan sampleRead "/out" "/dist/client/" out = Ok (Some out).
Proof.
  apply (dependencies_appended_once sampleScan sampleRead "/out" "/dist/client/"
           samplePages (Some sampleResolved)).
  vm_compute. reflexivity.
Defined.

(** C3 at the failing input: the entry's text contains
    [publicAssetPath + basename] of the chunk, outside any dynamic import, but
    the pattern searched is [path.join(publicAssetPath, basename)], which
    folds the [//] of the URL, so no reference is recorded and the page's
    list stays without the chunk. *)
Theorem cdn_reference_is_missed :
  Str.includes cdnEntry (cdnPath ++ "b-2.js") = true /\
  Str.includes cdnEntry ("import('" ++ cdnPath ++ "b-2.js" ++ "')") = false /\
  Str.includes cdnEntry ("import(" ++ dquote ++ cdnPath ++ "b-2.js" ++ dquote ++ ")") = false /\
  Path.join cdnPath "b-2.js" = "https:/cdn.example.com/b-2.js" /\
  referencesStatically cdnPath cdnEntry "b-2.js" = false /\
  resolveJsDependencies cdnScan cdnRead "/out" cdnPath cdnPages = Ok (Some cdnPages).
Proof. vm_compute. repeat split. Qed.

Lemma splitOn_plain (b : string) :
  List.forallb BunStatic.notSlash (list_ascii_of_string b) = true ->
  Str.splitOn "/" b = [b].
Proof.
  induction b as [|c b IH]; [reflexivity|]. cbn [list_ascii_of_string forallb].
  intros H. apply andb_prop in H. destruct H as [Hc Hb].
  cbn [Str.splitOn]. unfold BunStatic.notSlash in Hc. apply negb_true_iff in Hc.
  rewrite Hc, (IH Hb). reflexivity.
Qed.

Lemma plain_no_trailing_slash (pre b : string) :
  b <> "" ->
  List.forallb BunStatic.notSlash (list_ascii_of_string b) = true ->
  Str.endsWith (pre ++ b) "/" = false.
Proof.
  intros Hne Hb. destruct (Str.endsWith (pre ++ b) "/") eqn:E; [exfalso|reflexivity].
  apply endsWith_iff in E. destruct E as [q Hq].
  apply (f_equal list_ascii_of_string) in Hq. rewrite !list_of_append in Hq.
  assert (Hl : list_ascii_of_string b <> []).
  { intros K. apply Hne. apply list_of_inj. now rewrite K. }
  destruct (exists_last Hl) as (l' & c & El). rewrite El in Hq, Hb.
  rewrite app_assoc in Hq. cbn [list_ascii_of_string] in Hq.
  apply app_inj_tail in Hq. destruct Hq as [_ ->].
  rewrite forallb_app in Hb. apply andb_prop in Hb. destruct Hb as [_ Hb].
  discriminate.
Qed.

(** for the prefix [ssrBundle] uses, joining is concatenation *)
Lemma join_public_asset_path (b : string) :
  plainName b -> Path.join PUBLIC_ASSET_PATH b = PUBLIC_ASSET_PATH ++ b.
Proof.
  intros (H0 & H1 & H2 & Hs).
  apply String.eqb_neq in H0, H1, H2.
  unfold Path.join, PUBLIC_ASSET_PATH. rewrite H0. cbn [String.eqb Ascii.eqb Bool.eqb].
  unfold Path.normalize.
  change ("/dist/client/" ++ "/" ++ b) with ("/dist/client//" ++ b).
  rewrite (plain_no_trailing_slash "/dist/client//" b) by (try apply String.eqb_neq; assumption).
  cbn [append String.eqb Ascii.eqb Bool.eqb Str.startsWith String.prefix negb].
  cbn [Str.splitOn Ascii.eqb Bool.eqb]. rewrite (splitOn_plain b Hs).
  cbn [Path.normalizeSegments String.eqb Ascii.eqb Bool.eqb orb].
  rewrite H0, H1, H2. cbn [orb Path.normalizeSegments List.rev app Str.join String.concat append].
  cbn [String.eqb]. reflexivity.
Qed.

(** C3 under [/dist/client/]: the test of the source is the one of the claim *)
Lemma static_reference_under_dist_client (content b : string) :
  plainName b ->
  referencesStatically PUBLIC_ASSET_PATH content b =
  Str.includes content (PUBLIC_ASSET_PATH ++ b) &&
  negb (Str.includes content ("import('" ++ PUBLIC_ASSET_PATH ++ b ++ "')") ||
        Str.includes content ("import(" ++ dquote ++ PUBLIC_ASSET_PATH ++ b ++ dquote ++ ")")).
Proof.
  intros H. unfold referencesStatically. now rewrite (join_public_asset_path b H).
Qed.

(** *** ssrBundle *)

Lemma nonEmpty_set_singleton (A : Type) (m : JsMap.t (list A)) (k : string) (x : A) :
  nonEmptyLists m -> nonEmptyLists (JsMap.set m k [x]).
Proof.
  intros H k' l G. destruct (String.eqb_spec k k') as [<-|Hne].
  - rewrite get_set_here in G. injection G as <-. discriminate.
  - rewrite get_set_other in G by assumption. now apply (H k').
Qed.

Lemma processOutput_nonEmpty (pages : list BunSsrRouteConfig) (outs outs' : BundleOutputs)
      (d d' : Fs.t bytes) (output : BuildArtifact) :
  processOutput pages (outs, d) output = Ok (outs', d') ->
  nonEmptyLists (jsByPagePath outs) -> nonEmptyLists (jsByPagePath outs').
Proof.
  intros H NE. unfold processOutput in H.
  set (js1 := if isEntryPoint output then _ else _) in H.
  assert (J : forall js, js1 = Ok js -> nonEmptyLists js).
  { subst js1. intros js. destruct (isEntryPoint output).
    - destruct (pageForOutput pages output) as [b [page|]]; [|discriminate].
      intros [= <-]. now apply nonEmpty_set_singleton.
    - now intros [= <-]. }
  destruct js1 as [js|]; [|discriminate]. cbn [bind] in H. specialize (J js eq_refl).
  destruct (Str.endsWith (outPath output) ".css").
  - destruct (pageForOutput pages output) as [b [page|]]; injection H as <- _; exact J.
  - injection H as <- _. exact J.
Qed.

Lemma processOutputs_nonEmpty (pages : list BunSsrRouteConfig) (l : list BuildArtifact) :
  forall outs d outs' d',
    processOutputs pages (outs, d) l = Ok (outs', d') ->
    nonEmptyLists (jsByPagePath outs) -> nonEmptyLists (jsByPagePath outs').
Proof.
  induction l as [|o r IH]; intros outs d outs' d' H NE.
  - now injection H as <- _.
  - cbn [processOutputs] in H.
    destruct (processOutput pages (outs, d) o) as [[outs1 d1]|] eqn:E; [|discriminate].
    cbn [bind] in H. apply (IH _ _ _ _ H). apply (processOutput_nonEmpty _ _ _ _ _ _ E NE).
Qed.

Lemma appended_get (pages out : BundleJsByPagePathMap) :
  Forall2 (fun p p' => fst p' = fst p /\ appendsNew (snd p) (snd p')) pages out ->
  forall k l', JsMap.get out k = Some l' ->
               exists l, JsMap.get pages k = Some l /\ appendsNew l l'.
Proof.
  induction 1 as [|[k0 l0] [k1 l1] pages out [Hk Ha] _ IH]; intros k l' G; [discriminate|].
  cbn [fst snd] in Hk, Ha. subst k1. cbn [JsMap.get] in *.
  destruct (k0 =? k); [|now apply IH]. injection G as <-. eauto.
Qed.

Lemma appended_nonEmpty (pages out : BundleJsByPagePathMap) :
  Forall2 (fun p p' => fst p' = fst p /\ appendsNew (snd p) (snd p')) pages out ->
  nonEmptyLists pages -> nonEmptyLists out.
Proof.
  intros F NE k l' G. destruct (appended_get _ _ F k l' G) as (l & Gl & (added & -> & _)).
  specialize (NE k l Gl). destruct l; [contradiction | discriminate].
Qed.

Section Bundle.
Variable parse : string -> result (list ExportFix.ExportSpecifier).
Variable codec : Compress.Algorithm -> bytes -> result bytes.
Variable cwd : string.

Lemma bundleClient_nonEmpty (pages : list BunSsrRouteConfig) (clientDistDir : string)
      (build : BuildOutput) (d d' : Fs.t bytes) (outs : BundleOutputs) :
  bundleClient parse pages clientDistDir build d = Ok (outs, d') ->
  nonEmptyLists (jsByPagePath outs).
Proof.
  unfold bundleClient. destruct (negb (success build)); [discriminate|].
  destruct (processOutputs _ _ _) as [[outs1 d1]|] eqn:E; [|discriminate]. cbn [bind].
  destruct (resolveJsDependencies _ _ _ _ _) as [o|] eqn:R; [|discriminate]. cbn [bind].
  destruct o as [out|]; [|discriminate].
  destruct (resolve_again _ _ _ _ _ _ R) as [F _].
  intros [= <- _]. cbn [jsByPagePath].
  apply (appended_nonEmpty _ _ F).
  apply (processOutputs_nonEmpty _ _ _ _ _ _ E). intros k l G. discriminate.
Qed.

Lemma manifestRoute_ok (outs : BundleOutputs) (page : BunSsrRouteConfig) (r : ManifestRoute) :
  nonEmptyLists (jsByPagePath outs) ->
  manifestRoute outs page = Ok r -> mpath r = path page /\ js r <> [].
Proof.
  intros NE. unfold manifestRoute.
  destruct (JsMap.get (jsByPagePath outs) (path page)) as [l|] eqn:G; [|discriminate].
  destruct (JsMap.get (cssByPagePath outs) (path page)); [|discriminate].
  intros [= <-]. split; [reflexivity|]. cbn [js]. specialize (NE _ _ G).
  destruct l; [contradiction | discriminate].
Qed.

Lemma buildManifest_ok (pages : list BunSsrRouteConfig) (outs : BundleOutputs) (m : Manifest) :
  nonEmptyLists (jsByPagePath outs) ->
  buildManifest pages outs = Ok m ->
  List.map mpath (routes m) = List.map path pages /\
  Forall (fun r => js r <> []) (routes m).
Proof.
  intros NE. unfold buildManifest.
  destruct (mapM (manifestRoute outs) pages) as [rs|] eqn:E; [|discriminate].
  cbn [bind]. intros [= <-]. cbn [routes]. revert rs E.
  induction pages as [|page rest IH]; intros rs E; cbn [mapM] in E.
  - injection E as <-. split; [reflexivity | constructor].
  - destruct (manifestRoute outs page) as [r|] eqn:R; [|discriminate]. cbn [bind] in E.
    destruct (mapM (manifestRoute outs) rest) as [rs'|]; [|discriminate]. cbn [bind] in E.
    injection E as <-. destruct (IH rs' eq_refl) as [I1 I2].
    destruct (manifestRoute_ok _ _ _ NE R) as [P J]. split.
    + cbn [List.map]. now rewrite P, I1.
    + now constructor.
Qed.

Lemma buildManifest_throws (pages : list BunSsrRouteConfig) (outs : BundleOutputs) :
  (exists page, In page pages /\
                (JsMap.get (jsByPagePath outs) (path page) = None \/
                 JsMap.get (cssByPagePath outs) (path page) = None)) ->
  exists page msg, In page pages /\ missingEntry page msg /\
                   buildManifest pages outs = Throw msg.
Proof.
  intros (bad & Hin & Hbad). unfold buildManifest.
  induction pages as [|page rest IH]; [destruct Hin|]. cbn [mapM].
  destruct (manifestRoute outs page) as [r|msg] eqn:R.
  - cbn [bind]. destruct Hin as [->|Hin].
    + exfalso. unfold manifestRoute in R.
      destruct Hbad as [K|K]; rewrite K in R;
        [|destruct (JsMap.get (jsByPagePath outs) (path bad))]; discriminate.
    + destruct (IH Hin) as (p & msg & Hp & Hm & E). exists p, msg.
      split; [now right|]. split; [assumption|].
      destruct (mapM (manifestRoute outs) rest); [discriminate|].
      cbn [bind] in E |- *. exact E.
  - exists page, msg. split; [now left|]. split; [|reflexivity].
    unfold manifestRoute in R.
    destruct (JsMap.get (jsByPagePath outs) (path page)).
    + destruct (JsMap.get (cssByPagePath outs) (path page)); [discriminate|].
      injection R as <-. now right.
    + injection R as <-. now left.
Qed.

(** C4: for a non-empty route list, the manifest of an [ssrBundle] that
    returned has one entry per route, in the order of the routes, each with
    a non-empty [assets.js]; and when a route has no entry in the JS map or
    in the CSS map, building the manifest throws and so does [ssrBundle]. *)
Theorem manifest_lists_every_route (pages : list BunSsrRouteConfig) (o : BundleOptions)
        (build : BuildOutput) (d : Fs.t bytes) :
  pages <> [] ->
  (forall dir m client,
      ssrBundle parse codec cwd pages o build d = Ok (BundleWritten dir m client) ->
      List.map mpath (routes m) = List.map path pages /\
      Forall (fun r => js r <> []) (routes m)) /\
  (forall outs d1,
      bundleClient parse pages (clientDistDirOf cwd o) build d = Ok (outs, d1) ->
      (exists page, In page pages /\
                    (JsMap.get (jsByPagePath outs) (path page) = None \/
                     JsMap.get (cssByPagePath outs) (path page) = None)) ->
      (exists page msg, In page pages /\ missingEntry page msg /\
                        buildManifest pages outs = Throw msg) /\
      exists msg, ssrBundle parse codec cwd pages o build d = Throw msg).
Proof.
  intros Hne. destruct pages as [|p0 ps]; [contradiction|]. clear Hne. split.
  - intros dir m client. cbn [ssrBundle].
    destruct (bundleClient _ _ _ _ _) as [[outs d1]|] eqn:B; [|discriminate]. cbn [bind].
    destruct (if compress o then _ else _) as [d2|]; [|discriminate]. cbn [bind].
    destruct (buildManifest (p0 :: ps) outs) as [m'|] eqn:M; [|discriminate]. cbn [bind].
    intros [= _ <- _].
    apply (buildManifest_ok _ _ _ (bundleClient_nonEmpty _ _ _ _ _ _ B) M).
  - intros outs d1 B Hbad.
    destruct (buildManifest_throws _ _ Hbad) as (page & msg & Hp & Hm & E).
    split; [eauto|]. cbn [ssrBundle]. rewrite B. cbn [bind].
    destruct (if compress o then _ else _) as [d2|e]; cbn [bind]; [|eauto].
    rewrite E. cbn [bind]. eauto.
Qed.
End Bundle.

Lemma manifest_lists_every_route_witness :
  (List.map mpath (routes sampleManifest) = List.map path [sampleRoute] /\
   Forall (fun r => js r <> []) (routes sampleManifest)) /\
  ((exists page msg, In page [sampleRoute] /\ missingEntry page msg /\
                     buildManifest [sampleRoute]
                       {| jsByPagePath :=
                            [("/ssr", [{| urlPath := "/dist/client/ssr.hydrate-abc123.js";
                                          filePath := "/proj/dist-ssr/client/ssr.hydrate-abc123.js";
                                          kind := entrypoint |};
                                       {| urlPath := "/dist/client/chunk-77.js";
                                          filePath := "/proj/dist-ssr/client/chunk-77.js";
                                          kind := chunk |}])];
                          cssByPagePath := [] |} = Throw msg) /\
   exists msg, ssrBundle ExportFix.sampleParse Compress.sampleCodec "/proj" [sampleRoute]
                         sampleOptions sampleBuildNoCss sampleClientDir = Throw msg).
Proof.
  split.
  - eapply (proj1 (manifest_lists_every_route ExportFix.sampleParse Compress.sampleCodec
                     "/proj" [sampleRoute] sampleOptions sampleBuild sampleClientDir
                     ltac:(discriminate))).
    vm_compute. reflexivity.
  - apply (proj2 (manifest_lists_every_route ExportFix.sampleParse Compress.sampleCodec
                    "/proj" [sampleRoute] sampleOptions sampleBuildNoCss sampleClientDir
                    ltac:(discriminate)) _ sampleClientDir).
    + vm_compute. reflexivity.
    + exists sampleRoute. split; [now left | right; reflexivity].
Defined.

(** *** generateSsrBundleHandlers *)

(** a manifest whose [version] is not the number 1 does not pass the schema *)
Lemma schema_rejects_other_versions (fields : list (string * Json)) :
  field fields "version" <> Some (JNumber 1) ->
  ssrBundleManifestSchema (JObject fields) = Throw "ZodError".
Proof.
  intros H. unfold ssrBundleManifestSchema, zLiteralVersion.
  destruct (field fields "version") as [[| | z | | |]|]; try reflexivity.
  destruct (Z.eqb_spec z (Z.of_nat SSR_MANIFEST_VERSION)) as [->|Hz]; [|reflexivity].
  now contradiction H.
Qed.

Lemma schema_accepts_version_one (manifestJson : Json) (m : Manifest) :
  ssrBundleManifestSchema manifestJson = Ok m -> version m = SSR_MANIFEST_VERSION.
Proof.
  unfold ssrBundleManifestSchema. destruct manifestJson as [| | | | |fields]; try discriminate.
  unfold zLiteralVersion.
  destruct (field fields "version") as [[| | z | | |]|]; try discriminate.
  destruct (z =? Z.of_nat SSR_MANIFEST_VERSION)%Z; [|discriminate].
  destruct (zString _); [|discriminate]. destruct (zArray _ _); [|discriminate].
  now intros [= <-].
Qed.

Section Handlers.
Variable isProduction : bool.
Variable tryCompress : BunStatic.Request -> SsrResponse -> SsrResponse.
Variable mimeType : string -> string.

(** C8, amended: with a non-empty route list, a missing manifest file, a
    manifest that does not pass the schema, and in particular one whose
    [version] is not 1, each make [generateSsrBundleHandlers] throw with no
    route handler built. *)
Theorem manifest_checked_before_handlers (compressSsrResponse : bool)
        (pages : list BunSsrRouteConfig) (manifestFile : ManifestFile)
        (bundleDirPath : string) (client : Fs.t bytes) (listing : list string) :
  pages <> [] ->
  let run := generateSsrBundleHandlers isProduction tryCompress mimeType
               compressSsrResponse pages manifestFile bundleDirPath client listing in
  (manifestFile = Missing ->
   built run = [] /\
   outcome run = Throw ("SSR manifest file not found at "
                        ++ Path.join bundleDirPath SSR_MANIFEST_FILENAME
                        ++ ". Did you run the bundle step?")) /\
  (forall manifestJson err,
      manifestFile = Parsed manifestJson ->
      ssrBundleManifestSchema manifestJson = Throw err ->
      built run = [] /\ outcome run = Throw err) /\
  (forall fields,
      manifestFile = Parsed (JObject fields) ->
      field fields "version" <> Some (JNumber 1) ->
      built run = [] /\ outcome run = Throw "ZodError").
Proof.
  intros Hne. destruct pages as [|p0 ps]; [contradiction|]. cbv zeta.
  split; [|split].
  - intros ->. split; reflexivity.
  - intros manifestJson err -> E. cbn [generateSsrBundleHandlers]. rewrite E. split; reflexivity.
  - intros fields -> Hv. cbn [generateSsrBundleHandlers].
    rewrite (schema_rejects_other_versions fields Hv). split; reflexivity.
Qed.
End Handlers.

Lemma manifest_checked_before_handlers_witness :
  (built (generateSsrBundleHandlers false noCompress BunStatic.sampleMime true
            [sampleRoute] Missing "/proj/dist-ssr" [] []) = [] /\
   outcome (generateSsrBundleHandlers false noCompress BunStatic.sampleMime true
              [sampleRoute] Missing "/proj/dist-ssr" [] [])
   = Throw ("SSR manifest file not found at "
            ++ Path.join "/proj/dist-ssr" SSR_MANIFEST_FILENAME
            ++ ". Did you run the bundle step?")) /\
  (built (generateSsrBundleHandlers false noCompress BunStatic.sampleMime true
            [sampleRoute] (Parsed staleManifest) "/proj/dist-ssr" [] []) = [] /\
   outcome (generateSsrBundleHandlers false noCompress BunStatic.sampleMime true
              [sampleRoute] (Parsed staleManifest) "/proj/dist-ssr" [] [])
   = Throw "ZodError").
Proof.
  split.
  - apply (proj1 (manifest_checked_before_handlers false noCompress BunStatic.sampleMime
                    true [sampleRoute] Missing "/proj/dist-ssr" [] []
                    ltac:(discriminate))).
    reflexivity.
  - apply (proj2 (proj2 (manifest_checked_before_handlers false noCompress
                           BunStatic.sampleMime true [sampleRoute] (Parsed staleManifest)
                           "/proj/dist-ssr" [] [] ltac:(discriminate)))
             [("version", JNumber 2);
              ("publicAssetPath", JString "/dist/client/");
              ("routes", JArray [])]).
    + reflexivity.
    + vm_compute. discriminate.
Defined.

(** C8 as stated fails for an empty route list: the function returns
    [{ routeHandlers: {} }] before it looks for the manifest. *)
Lemma no_routes_no_manifest_check :
  outcome (generateSsrBundleHandlers false noCompress BunStatic.sampleMime true
             [] Missing "/proj/dist-ssr" [] []) = Ok [] /\
  outcome (generateSsrBundleHandlers false noCompress BunStatic.sampleMime true
             [] (Parsed staleManifest) "/proj/dist-ssr" [] []) = Ok [].
Proof. split; reflexivity. Qed.

(** with the manifest of the sample build the handler of its route is built *)
Example handlers_from_valid_manifest :
  let run := generateSsrBundleHandlers false noCompress BunStatic.sampleMime true
               [sampleRoute] (Parsed validManifest) "/proj/dist-ssr" [] [] in
  built run = ["/ssr"] /\
  exists hs, outcome run = Ok hs /\ JsMap.keys hs = ["/ssr"].
Proof. cbv zeta. split; [reflexivity|]. eexists. split; reflexivity. Qed.

End BundlingFacts.

(** ** The dependency closure *)

Module ReachabilityFacts.
Import Bundling StrFacts MapFacts BundlingFacts.

Section Closure.
Variable referenceMap : JsMap.t (list string).

Let refsWithin := refsWithin referenceMap.

Lemma collectDeps_invariant (fuel : nat) :
  forall b A A',
    collectDeps fuel referenceMap b A = Some A' ->
    incl A A' /\
    refsWithin b A' /\
    (forall x, In x A' -> ~ In x A -> refsWithin x A') /\
    (forall x, In x A' -> In x A \/ reaches referenceMap b x).
Proof.
  induction fuel as [|fuel IH]; intros b A A' H; [discriminate|].
  cbn [collectDeps] in H.
  destruct (JsMap.get referenceMap b) as [refs|] eqn:G.
  2:{ injection H as <-. repeat split.
      - apply incl_refl.
      - intros refs K. unfold refsWithin in *. congruence.
      - intros x Hx Hn. contradiction.
      - intros x Hx. now left. }
  assert (L : incl A A' /\ incl refs A' /\
              (forall x, In x A' -> ~ In x A -> refsWithin x A') /\
              (forall x, In x A' -> In x A \/ exists r, In r refs /\
                                                (x = r \/ reaches referenceMap r x))).
  { clear G. revert A A' H. induction refs as [|r rest IHr]; intros A A' H.
    - injection H as <-. repeat split; auto using incl_refl.
      + intros x [].
      + intros x Hx Hn. contradiction.
    - destruct (hasName A r) eqn:Hn.
      + apply hasName_iff in Hn. destruct (IHr _ _ H) as (I1 & I2 & I3 & I4).
        repeat split; auto.
        * intros x [<-|Hx]; auto.
        * intros x Hx. destruct (I4 x Hx) as [K|(r' & Hr' & K)]; [now left|].
          right. exists r'. split; [now right | assumption].
      + destruct (collectDeps fuel referenceMap r (A ++ [r])%list) as [A2|] eqn:E;
          [|discriminate].
        destruct (IH _ _ _ E) as (J1 & J2 & J3 & J4).
        destruct (IHr _ _ H) as (I1 & I2 & I3 & I4).
        assert (HA : incl A A2).
        { intros x Hx. apply J1. apply in_or_app. now left. }
        assert (Hr : In r A2).
        { apply J1. apply in_or_app. right. now left. }
        repeat split.
        * intros x Hx. auto.
        * intros x [<-|Hx]; auto.
        * intros x Hx Hnx. destruct (in_dec string_dec x A2) as [K|K]; [|now apply I3].
          intros refs Hrefs y Hy. apply I1.
          destruct (string_dec x r) as [->|Hne].
          -- exact (J2 refs Hrefs y Hy).
          -- refine (J3 x K _ refs Hrefs y Hy). intros M. apply in_app_or in M.
             destruct M as [M|[M|[]]]; [contradiction | congruence].
        * intros x Hx. destruct (I4 x Hx) as [K|(r' & Hr' & K)].
          -- destruct (J4 x K) as [M|M].
             ++ apply in_app_or in M. destruct M as [M|[M|[]]]; [now left|].
                right. exists r. split; [now left | left; congruence].
             ++ right. exists r. split; [now left | now right].
          -- right. exists r'. split; [now right | assumption]. }
  destruct L as (L1 & L2 & L3 & L4). repeat split; auto.
  - intros refs' K. unfold refsWithin in *. rewrite G in K. now injection K as <-.
  - intros x Hx. destruct (L4 x Hx) as [K|(r & Hr & [->|K])]; [now left | right | right].
    + now apply reaches_ref with (refs := refs).
    + now apply reaches_step with (refs := refs) (m := r).
Qed.

Lemma closed_under_references (b : string) (A' : list string) :
  refsWithin b A' ->
  (forall x, In x A' -> refsWithin x A') ->
  forall a y, reaches referenceMap a y -> a = b \/ In a A' -> In y A'.
Proof.
  intros Hb Hall a y R. induction R as [a refs y G Hy | a refs m y G Hm R IH]; intros Ha.
  - destruct Ha as [->|Ha]; [exact (Hb refs G y Hy) | exact (Hall a Ha refs G y Hy)].
  - apply IH. right. destruct Ha as [->|Ha]; [exact (Hb refs G m Hm) | exact (Hall a Ha refs G m Hm)].
Qed.

Lemma collectDeps_members (fuel : nat) (basename : string) (allDeps : list string) :
  collectDeps fuel referenceMap basename [] = Some allDeps ->
  forall b, In b allDeps <-> reaches referenceMap basename b.
Proof.
  intros HA. destruct (collectDeps_invariant _ _ _ _ HA) as (_ & I2 & I3 & I4).
  intros b. split.
  - intros Hb. destruct (I4 b Hb) as [[]|K]. exact K.
  - intros R.
    apply (closed_under_references basename allDeps I2) with (a := basename) (y := b);
      auto.
Qed.

(** X1: started with an empty set on a map whose references are files of the
    map, [collectDeps] returns, without repetition, exactly the basenames
    that one or more recorded references lead to from the starting file. *)
Theorem collectDeps_is_reachability (basename : string) :
  closed referenceMap ->
  exists allDeps,
    collectDeps (S (List.length referenceMap)) referenceMap basename [] = Some allDeps /\
    NoDup allDeps /\
    forall b, In b allDeps <-> reaches referenceMap basename b.
Proof.
  intros Hc.
  destruct (collectDeps_enough_fuel referenceMap Hc (S (List.length referenceMap))
              basename []) as (A' & HA & (ND & _) & _).
  { repeat split; [constructor | intros x [] |].
    unfold JsMap.keys. rewrite length_map. simpl. lia. }
  exists A'. split; [assumption|]. split; [assumption|].
  now apply collectDeps_members with (fuel := S (List.length referenceMap)).
Qed.
End Closure.

Lemma sampleReferences_closed : closed sampleReferences.
Proof.
  intros k refs G x Hx. unfold sampleReferences in *. cbn [JsMap.get] in G.
  repeat match type of G with
         | (if ?c then _ else _) = _ => destruct c
         end; try discriminate; injection G as <-; simpl in Hx |- *; tauto.
Qed.

Lemma collectDeps_is_reachability_witness :
  exists allDeps,
    collectDeps (S (List.length sampleReferences)) sampleReferences "a-1.js" []
    = Some allDeps /\
    NoDup allDeps /\
    forall b, In b allDeps <-> reaches sampleReferences "a-1.js" b.
Proof.
  apply (collectDeps_is_reachability sampleReferences "a-1.js" sampleReferences_closed).
Defined.

(** *** the URLs a page ends up with *)

Section Urls.
Variables (publicAssetPath : string) (jsFilesByBasename : JsMap.t string).
Let add := addDependency publicAssetPath jsFilesByBasename.

Lemma fold_urls_from_deps (deps : list string) :
  forall jsFiles u,
    In u (List.map urlPath (List.fold_left add deps jsFiles)) ->
    In u (List.map urlPath jsFiles) \/
    exists dep, In dep deps /\ JsMap.get jsFilesByBasename dep <> None /\
                u = publicAssetPath ++ dep.
Proof.
  induction deps as [|d deps IH]; intros jsFiles u H; [now left|].
  cbn [fold_left] in H. apply IH in H.
  destruct H as [H|(dep & Hd & Hg & ->)]; [|right; exists dep; simpl; auto].
  unfold add, addDependency in H.
  destruct (JsMap.get jsFilesByBasename d) as [fp|] eqn:G; [|now left].
  destruct (List.existsb _ jsFiles); [now left|].
  rewrite map_app in H. apply in_app_or in H. destruct H as [H|[<-|[]]]; [now left|].
  right. exists d. split; [now left|]. split; [congruence | reflexivity].
Qed.
End Urls.

Section ResolvedUrls.
Variables (clientJsDistFiles : list string) (readText : string -> result string).
Variables (clientDistDir publicAssetPath : string).
Let byBase := jsFilesByBasenameOf clientDistDir clientJsDistFiles.

Lemma reached_is_a_file (contents : JsMap.t string) (a b : string) :
  reaches (referenceMapOf publicAssetPath byBase contents) a b ->
  JsMap.get byBase b <> None.
Proof.
  intros R. induction R as [a refs b G Hb | a refs m b G Hm R IH]; [|assumption].
  unfold referenceMapOf in G. apply fold_set_get in G.
  destruct G as [G|(e & He & _ & <-)]; [discriminate|].
  unfold referencesOf in Hb. apply filter_In in Hb. apply get_in_keys. tauto.
Qed.

Lemma resolvePage_urls (contents : JsMap.t string) (jsFiles out : list JsAsset) :
  resolvePage publicAssetPath byBase (referenceMapOf publicAssetPath byBase contents) jsFiles
  = Some out ->
  match List.find isEntrypoint jsFiles with
  | None => out = jsFiles
  | Some e =>
      forall u, In u (List.map urlPath out) <->
                In u (List.map urlPath jsFiles) \/
                exists b, reaches (referenceMapOf publicAssetPath byBase contents)
                                  (Path.basename (urlPath e)) b /\
                          u = publicAssetPath ++ b
  end.
Proof.
  unfold resolvePage. destruct (List.find isEntrypoint jsFiles) as [e|]; [|now intros [= <-]].
  destruct (collectDeps _ _ _ _) as [allDeps|] eqn:E; [|discriminate].
  intros [= <-] u. pose proof (collectDeps_members _ _ _ _ E) as M. split.
  - intros H. apply fold_urls_from_deps in H.
    destruct H as [H|(dep & Hd & _ & ->)]; [now left|].
    right. exists dep. split; [now apply M | reflexivity].
  - intros [H|(b & R & ->)].
    + exact (appendsNew_keeps_urls _ _ _ (fold_appendsNew _ _ allDeps jsFiles) H).
    + apply fold_covers; [now apply M | exact (reached_is_a_file _ _ _ R)].
Qed.

(** X2: a page without an entrypoint keeps its list; for any other page the
    URLs after [resolveJsDependencies] are the URLs it had together with
    [publicAssetPath + b] for every basename [b] that recorded references
    lead to from the basename of its entrypoint's URL. *)
Theorem resolved_page_urls (pages out : BundleJsByPagePathMap) :
  resolveJsDependencies clientJsDistFiles readText clientDistDir publicAssetPath pages
  = Ok (Some out) ->
  exists contents,
    fileContents readText byBase = Ok contents /\
    Forall2
      (fun p p' =>
         fst p' = fst p /\
         match List.find isEntrypoint (snd p) with
         | None => snd p' = snd p
         | Some e =>
             forall u, In u (List.map urlPath (snd p')) <->
                       In u (List.map urlPath (snd p)) \/
                       exists b, reaches (referenceMapOf publicAssetPath byBase contents)
                                         (Path.basename (urlPath e)) b /\
                                 u = publicAssetPath ++ b
         end)
      pages out.
Proof.
  unfold resolveJsDependencies. fold byBase.
  destruct (fileContents readText byBase) as [contents|]; [|discriminate].
  cbn [bind]. intros [= H]. exists contents. split; [reflexivity|].
  revert out H. induction pages as [|[pagePath jsFiles] rest IH]; intros out H.
  - injection H as <-. constructor.
  - cbn [resolvePages] in H.
    destruct (resolvePage _ _ _ jsFiles) as [jsFiles'|] eqn:E1; [|discriminate].
    destruct (resolvePages _ _ _ rest) as [rest'|] eqn:E2; [|discriminate].
    injection H as <-. constructor; [|now apply IH].
    split; [reflexivity|]. cbn [snd]. now apply resolvePage_urls.
Qed.
End ResolvedUrls.

Lemma resolved_page_urls_witness :
  exists contents,
    fileContents sampleRead (jsFilesByBasenameOf "/out" sampleScan) = Ok contents /\
    Forall2
      (fun p p' =>
         fst p' = fst p /\
         match List.find isEntrypoint (snd p) with
         | None => snd p' = snd p
         | Some e =>
             forall u, In u (List.map urlPath (snd p')) <->
                       In u (List.map urlPath (snd p)) \/
                       exists b, reaches (referenceMapOf "/dist/client/"
                                            (jsFilesByBasenameOf "/out" sampleScan) contents)
                                         (Path.basename (urlPath e)) b /\
                                 u = "/dist/client/" ++ b
         end)
      samplePages sampleResolved.
Proof.
  apply (resolved_page_urls sampleScan sampleRead "/out" "/dist/client/" samplePages
           sampleResolved).
  vm_compute. reflexivity.
Defined.

End ReachabilityFacts.

(** ** The manifest on disk *)

Module ManifestFacts.
Import Bundling StrFacts MapFacts BundlingFacts.

(** *** the manifest, written and read back *)

Lemma zArray_strings (l : list string) :
  zArray zString (Some (JArray (List.map JString l))) = Some l.
Proof.
  unfold zArray. rewrite map_map. induction l as [|x l IH]; [reflexivity|].
  cbn in IH |- *. now rewrite IH.
Qed.

Lemma routeSchema_roundtrip (r : ManifestRoute) :
  routeSchema (Some (routeToJson r)) = Some r.
Proof.
  unfold routeSchema, routeToJson, field. cbn [JsMap.get String.eqb Ascii.eqb Bool.eqb zString].
  rewrite !zArray_strings. now destruct r.
Qed.

Lemma routes_roundtrip (rs : list ManifestRoute) :
  zArray routeSchema (Some (JArray (List.map routeToJson rs))) = Some rs.
Proof.
  unfold zArray. rewrite map_map. induction rs as [|r rs IH]; [reflexivity|].
  cbn [List.map allSome]. rewrite routeSchema_roundtrip. cbn [allSome].
  now rewrite IH.
Qed.

Lemma manifest_roundtrip (m : Manifest) :
  version m = SSR_MANIFEST_VERSION ->
  ssrBundleManifestSchema (manifestToJson m) = Ok m.
Proof.
  intros Hv. unfold ssrBundleManifestSchema, manifestToJson, field.
  cbn [JsMap.get String.eqb Ascii.eqb Bool.eqb zString zLiteralVersion].
  rewrite Hv, Z.eqb_refl, routes_roundtrip. destruct m. cbn in Hv. now subst.
Qed.

Lemma buildManifest_version (pages : list BunSsrRouteConfig) (outs : BundleOutputs)
      (m : Manifest) :
  buildManifest pages outs = Ok m ->
  version m = SSR_MANIFEST_VERSION /\ publicAssetPath m = PUBLIC_ASSET_PATH.
Proof.
  unfold buildManifest. destruct (mapM _ pages); [|discriminate].
  cbn [bind]. now intros [= <-].
Qed.

Section Bundle.
Variable parse : string -> result (list ExportFix.ExportSpecifier).
Variable codec : Compress.Algorithm -> bytes -> result bytes.
Variable cwd : string.

Lemma ssrBundle_written (pages : list BunSsrRouteConfig) (o : BundleOptions)
      (build : BuildOutput) (d : Fs.t bytes) (dir : string) (m : Manifest)
      (client : Fs.t bytes) :
  ssrBundle parse codec cwd pages o build d = Ok (BundleWritten dir m client) ->
  pages <> [] /\
  exists outs d1,
    bundleClient parse pages (clientDistDirOf cwd o) build d = Ok (outs, d1) /\
    buildManifest pages outs = Ok m.
Proof.
  destruct pages as [|p0 ps]; [discriminate|]. cbn [ssrBundle].
  destruct (bundleClient _ _ _ _ _) as [[outs d1]|] eqn:B; [|discriminate]. cbn [bind].
  destruct (if compress o then _ else _) as [d2|]; [|discriminate]. cbn [bind].
  destruct (buildManifest (p0 :: ps) outs) as [m'|] eqn:M; [|discriminate]. cbn [bind].
  intros [= _ <- _]. split; [discriminate|]. eauto.
Qed.

(** X3: a manifest passes the loader's schema after a trip through JSON
    exactly when its version is 1, and the manifest [ssrBundle] writes does:
    it has version 1 and the public path [/dist/client/]. *)
Theorem written_manifest_is_accepted (pages : list BunSsrRouteConfig) (o : BundleOptions)
        (build : BuildOutput) (d : Fs.t bytes) :
  (forall m, ssrBundleManifestSchema (manifestToJson m) = Ok m <->
             version m = SSR_MANIFEST_VERSION) /\
  (forall dir m client,
      ssrBundle parse codec cwd pages o build d = Ok (BundleWritten dir m client) ->
      version m = SSR_MANIFEST_VERSION /\
      publicAssetPath m = PUBLIC_ASSET_PATH /\
      ssrBundleManifestSchema (manifestToJson m) = Ok m).
Proof.
  split.
  - intros m. split; [apply schema_accepts_version_one | apply manifest_roundtrip].
  - intros dir m client H.
    destruct (ssrBundle_written _ _ _ _ _ _ _ H) as (_ & outs & d1 & _ & M).
    destruct (buildManifest_version _ _ _ M) as [V P].
    repeat split; auto. now apply manifest_roundtrip.
Qed.
End Bundle.

Lemma written_manifest_is_accepted_witness :
  version sampleManifest = SSR_MANIFEST_VERSION /\
  publicAssetPath sampleManifest = PUBLIC_ASSET_PATH /\
  ssrBundleManifestSchema (manifestToJson sampleManifest) = Ok sampleManifest.
Proof.
  eapply (proj2 (written_manifest_is_accepted ExportFix.sampleParse Compress.sampleCodec
                   "/proj" [sampleRoute] sampleOptions sampleBuild sampleClientDir)).
  vm_compute. reflexivity.
Defined.

End ManifestFacts.

(** ** Loading the bundle *)

Module HandlerFacts.
Import Bundling StrFacts MapFacts BundlingFacts ManifestFacts.

(** *** the handlers of a loaded manifest *)

Section Spread.
Variable V : Type.

Lemma in_get_nodup (m : JsMap.t V) (k : string) (v : V) :
  NoDup (JsMap.keys m) -> In (k, v) m -> JsMap.get m k = Some v.
Proof.
  induction m as [|[k0 v0] m IH]; intros ND Hin; [destruct Hin|].
  cbn [JsMap.keys List.map fst] in ND. apply NoDup_cons_iff in ND. destruct ND as [Hk ND].
  cbn [JsMap.get]. destruct Hin as [[= -> ->]|Hin].
  - now rewrite String.eqb_refl.
  - destruct (String.eqb_spec k0 k) as [->|Hne]; [|now apply IH].
    exfalso. apply Hk. apply in_map_iff. now exists (k, v).
Qed.

Lemma get_in (m : JsMap.t V) (k : string) (v : V) :
  JsMap.get m k = Some v -> In (k, v) m.
Proof.
  induction m as [|[k0 v0] m IH]; [discriminate|]. cbn [JsMap.get].
  destruct (String.eqb_spec k0 k) as [->|Hne].
  - intros [= ->]. now left.
  - intros H. right. now apply IH.
Qed.

Lemma set_keeps_nodup (m : JsMap.t V) (k : string) (v : V) :
  NoDup (JsMap.keys m) -> NoDup (JsMap.keys (JsMap.set m k v)).
Proof.
  intros ND. rewrite keys_set. unfold JsMap.has.
  destruct (JsMap.get m k) eqn:G; [assumption|].
  apply NoDup_app; auto.
  - constructor; [intros [] | constructor].
  - intros a Ha [<-|[]]. apply get_in_keys in Ha. contradiction.
Qed.
End Spread.

Lemma spread_get_other (entries : list (string * RouteHandler)) :
  forall o k, ~ In k (List.map fst entries) ->
              JsMap.get (spread entries o) k = JsMap.get o k.
Proof.
  induction entries as [|e r IH]; intros o k Hk; [reflexivity|].
  cbn [spread fold_left]. fold (spread r (JsMap.set o (fst e) (snd e))).
  rewrite IH.
  - apply get_set_other. intros E. apply Hk. now left.
  - intros K. apply Hk. now right.
Qed.

Lemma spread_get_in (entries : list (string * RouteHandler)) :
  forall o k v, NoDup (List.map fst entries) -> In (k, v) entries ->
                JsMap.get (spread entries o) k = Some v.
Proof.
  induction entries as [|e r IH]; intros o k v ND Hin; [destruct Hin|].
  cbn [List.map] in ND. apply NoDup_cons_iff in ND. destruct ND as [He ND].
  cbn [spread fold_left]. fold (spread r (JsMap.set o (fst e) (snd e))).
  destruct Hin as [->|Hin]; [|now apply IH].
  cbn [fst snd] in *. rewrite spread_get_other by assumption. apply get_set_here.
Qed.

Lemma spread_get_some (entries : list (string * RouteHandler)) :
  forall o k, In k (List.map fst entries) -> JsMap.get (spread entries o) k <> None.
Proof.
  induction entries as [|e r IH]; intros o k Hin; [destruct Hin|].
  cbn [spread fold_left]. fold (spread r (JsMap.set o (fst e) (snd e))).
  destruct (in_dec string_dec k (List.map fst r)) as [K|K]; [now apply IH|].
  rewrite spread_get_other by assumption.
  destruct Hin as [<-|Hin]; [|contradiction]. rewrite get_set_here. discriminate.
Qed.

Lemma spread_get_from (entries : list (string * RouteHandler)) :
  forall o k v, JsMap.get (spread entries o) k = Some v ->
                In (k, v) entries \/ JsMap.get o k = Some v.
Proof.
  induction entries as [|e r IH]; intros o k v G; [now right|].
  cbn [spread fold_left] in G. fold (spread r (JsMap.set o (fst e) (snd e))) in G.
  destruct (IH _ _ _ G) as [Hin|G']; [left; now right|].
  destruct (String.eqb_spec (fst e) k) as [E|Hne].
  - rewrite <- E, get_set_here in G'. injection G' as <-. left. left.
    rewrite <- E. now destruct e.
  - rewrite get_set_other in G' by assumption. now right.
Qed.

Lemma fold_set_nodup (V : Type) (entries : list (string * V)) :
  forall o, NoDup (JsMap.keys o) ->
            NoDup (JsMap.keys (List.fold_left (fun o e => JsMap.set o (fst e) (snd e))
                                              entries o)).
Proof.
  induction entries as [|e r IH]; intros o ND; [exact ND|].
  cbn [fold_left]. apply IH. now apply set_keeps_nodup.
Qed.

Lemma bunStatic_nodup (mimeType : string -> string) (fs : Fs.t bytes)
      (routePath dir : string) (headersFn : BunStatic.HeadersOption)
      (strategy : BunStatic.Strategy) (spaMode : bool) (listing : list string)
      (static : JsMap.t BunStatic.Handler) :
  BunStatic.bunStatic mimeType fs routePath dir headersFn strategy spaMode listing
  = Ok static ->
  NoDup (JsMap.keys static).
Proof.
  unfold BunStatic.bunStatic. destruct (mapM _ _) as [entries|]; [|discriminate].
  cbn [bind]. intros [= <-]. apply fold_set_nodup. constructor.
Qed.

Section Handlers.
Variable isProduction : bool.
Variable tryCompress : BunStatic.Request -> SsrResponse -> SsrResponse.
Variable mimeType : string -> string.
Variable compressSsrResponse : bool.
Variable pages : list BunSsrRouteConfig.

Lemma getRouteHandler_routable (route : ManifestRoute) :
  (routable pages route = true ->
   exists h, getRouteHandler isProduction tryCompress compressSsrResponse pages route
             = Ok (SsrHandler h)) /\
  (routable pages route = false ->
   exists e, getRouteHandler isProduction tryCompress compressSsrResponse pages route
             = Throw e).
Proof.
  unfold routable, getRouteHandler.
  destruct (List.find _ pages) as [page|]; [|split; [discriminate | eauto]].
  destruct (SsrComponent page) as [render|tag]; split; try discriminate; eauto.
  destruct tag; eauto.
Qed.

Lemma routeHandlersOf_built (rs : list ManifestRoute) :
  built (routeHandlersOf isProduction tryCompress compressSsrResponse pages rs)
  = List.map mpath (List.filter (routable pages) rs).
Proof.
  induction rs as [|r rs IH]; [reflexivity|]. cbn [routeHandlersOf List.filter].
  destruct (routable pages r) eqn:R.
  - destruct (proj1 (getRouteHandler_routable r) R) as [h ->]. cbn [built List.map].
    now rewrite IH.
  - destruct (proj2 (getRouteHandler_routable r) R) as [e ->]. cbn [built]. exact IH.
Qed.

Lemma routeHandlersOf_throws (rs : list ManifestRoute) :
  (exists r, In r rs /\ routable pages r = false) ->
  exists e, outcome (routeHandlersOf isProduction tryCompress compressSsrResponse pages rs)
            = Throw e.
Proof.
  induction rs as [|r rs IH]; intros (bad & Hin & Hbad); [destruct Hin|].
  cbn [routeHandlersOf]. destruct (routable pages r) eqn:R.
  - destruct (proj1 (getRouteHandler_routable r) R) as [h ->]. cbn [outcome].
    destruct Hin as [->|Hin]; [congruence|].
    destruct IH as [e ->]; [now exists bad|]. cbn [bind]. eauto.
  - destruct (proj2 (getRouteHandler_routable r) R) as [e ->]. cbn [outcome]. eauto.
Qed.

Lemma routeHandlersOf_ok (rs : list ManifestRoute) :
  (forall r, In r rs -> routable pages r = true) ->
  exists hs, outcome (routeHandlersOf isProduction tryCompress compressSsrResponse pages rs)
             = Ok hs /\
             List.map fst hs = List.map mpath rs.
Proof.
  induction rs as [|r rs IH]; intros H; [now exists []|].
  cbn [routeHandlersOf].
  destruct (proj1 (getRouteHandler_routable r) (H r (or_introl eq_refl))) as [h ->].
  destruct IH as (hs & -> & E); [intros x Hx; apply H; now right|].
  cbn [outcome bind]. eexists. split; [reflexivity|]. cbn [List.map fst]. now rewrite E.
Qed.

Lemma generateSsrBundleHandlers_loaded (manifestJson : Json) (m : Manifest)
      (bundleDirPath : string) (client : Fs.t bytes) (listing : list string) :
  pages <> [] ->
  ssrBundleManifestSchema manifestJson = Ok m ->
  generateSsrBundleHandlers isProduction tryCompress mimeType compressSsrResponse pages
    (Parsed manifestJson) bundleDirPath client listing
  = let ssr := routeHandlersOf isProduction tryCompress compressSsrResponse pages
                 (routes m) in
    {| built := built ssr;
       outcome :=
         ssrRouteHandlers <- outcome ssr ;;
         staticAssetHandlers <-
           BunStatic.bunStatic mimeType client (publicAssetPath m)
             (Path.join bundleDirPath "client") BunStatic.HeadersUndefined
             BunStatic.ram false listing ;;
         Ok (spread (List.map (fun e => (fst e, StaticHandler (snd e)))
                              staticAssetHandlers)
                    (spread ssrRouteHandlers [])) |}.
Proof.
  intros Hne Hm. unfold generateSsrBundleHandlers.
  destruct pages; [contradiction|]. now rewrite Hm.
Qed.

(** X4: with a non-empty page list and a manifest that passes the schema,
    a handler is built for exactly the manifest routes that have a page of
    their path whose component is a function; if some route has none, the
    call throws whatever the static files are. *)
Theorem unroutable_route_throws (manifestJson : Json) (m : Manifest)
        (bundleDirPath : string) (client : Fs.t bytes) (listing : list string) :
  pages <> [] ->
  ssrBundleManifestSchema manifestJson = Ok m ->
  let run := generateSsrBundleHandlers isProduction tryCompress mimeType
               compressSsrResponse pages (Parsed manifestJson) bundleDirPath client
               listing in
  built run = List.map mpath (List.filter (routable pages) (routes m)) /\
  ((exists r, In r (routes m) /\ routable pages r = false) ->
   exists e, outcome run = Throw e).
Proof.
  intros Hne Hm. cbv zeta.
  rewrite (generateSsrBundleHandlers_loaded _ _ _ _ _ Hne Hm). cbv zeta.
  cbn [built outcome]. split; [apply routeHandlersOf_built|].
  intros Hbad. destruct (routeHandlersOf_throws _ Hbad) as [e ->]. cbn [bind]. eauto.
Qed.

Lemma routeHandlersOf_entries (rs : list ManifestRoute) (hs : list (string * RouteHandler)) :
  outcome (routeHandlersOf isProduction tryCompress compressSsrResponse pages rs) = Ok hs ->
  forall k h, In (k, h) hs ->
              exists r, In r rs /\ mpath r = k /\
                        getRouteHandler isProduction tryCompress compressSsrResponse pages r
                        = Ok h.
Proof.
  revert hs. induction rs as [|r rs IH]; intros hs H k h Hin.
  - injection H as <-. destruct Hin.
  - cbn [routeHandlersOf] in H.
    destruct (getRouteHandler _ _ _ pages r) as [h0|] eqn:G; [|discriminate].
    cbn [outcome] in H.
    destruct (outcome (routeHandlersOf _ _ _ pages rs)) as [hs'|]; [|discriminate].
    cbn [bind] in H. injection H as <-. destruct Hin as [[= <- <-]|Hin].
    + exists r. split; [now left | now split].
    + destruct (IH hs' eq_refl k h Hin) as (r' & Hr & E & G'). exists r'.
      split; [now right | now split].
Qed.

Lemma getRouteHandler_ok (route : ManifestRoute) (h : RouteHandler) :
  getRouteHandler isProduction tryCompress compressSsrResponse pages route = Ok h ->
  exists page render,
    List.find (fun it => path it =? mpath route) pages = Some page /\
    SsrComponent page = FunctionComponent render /\
    h = SsrHandler (ssrHandler isProduction tryCompress compressSsrResponse render route).
Proof.
  unfold getRouteHandler. destruct (List.find _ pages) as [page|]; [|discriminate].
  destruct (SsrComponent page) as [render|tag] eqn:C.
  - intros [= <-]. now exists page, render.
  - destruct tag; discriminate.
Qed.

(** X5: the route table [generateSsrBundleHandlers] returns.  A route of
    the static files is answered by its static handler, also when a page
    has the same path; any other entry is the SSR handler of a manifest
    route with that path, rendering the component of the first page with
    that path with the route's [css] and [js] lists. *)
Theorem static_routes_shadow_pages (manifestJson : Json) (m : Manifest)
        (bundleDirPath : string) (client : Fs.t bytes) (listing : list string)
        (hs : JsMap.t RouteHandler) :
  pages <> [] ->
  ssrBundleManifestSchema manifestJson = Ok m ->
  outcome (generateSsrBundleHandlers isProduction tryCompress mimeType compressSsrResponse
             pages (Parsed manifestJson) bundleDirPath client listing) = Ok hs ->
  exists static,
    BunStatic.bunStatic mimeType client (publicAssetPath m)
      (Path.join bundleDirPath "client") BunStatic.HeadersUndefined BunStatic.ram false
      listing = Ok static /\
    forall k,
      match JsMap.get static k with
      | Some h => JsMap.get hs k = Some (StaticHandler h)
      | None =>
          forall h, JsMap.get hs k = Some h ->
                    exists r page render,
                      In r (routes m) /\ mpath r = k /\
                      List.find (fun it => path it =? k) pages = Some page /\
                      SsrComponent page = FunctionComponent render /\
                      h = SsrHandler (ssrHandler isProduction tryCompress
                                                 compressSsrResponse render r)
      end.
Proof.
  intros Hne Hm. rewrite (generateSsrBundleHandlers_loaded _ _ _ _ _ Hne Hm). cbv zeta.
  cbn [outcome].
  destruct (outcome (routeHandlersOf _ _ _ pages (routes m))) as [ssr|] eqn:S;
    [|discriminate].
  cbn [bind]. destruct (BunStatic.bunStatic _ _ _ _ _ _ _ _) as [static|] eqn:B;
    [|discriminate].
  cbn [bind]. intros [= <-]. exists static. split; [reflexivity|]. intros k.
  assert (ND : NoDup (List.map fst (List.map (fun e => (fst e, StaticHandler (snd e)))
                                            static))).
  { rewrite List.map_map. cbn [fst]. apply (bunStatic_nodup _ _ _ _ _ _ _ _ _ B). }
  destruct (JsMap.get static k) as [h|] eqn:G.
  - apply spread_get_in; [exact ND|]. apply get_in in G.
    apply (in_map (fun e => (fst e, StaticHandler (snd e))) _ _ G).
  - intros h Gh. rewrite spread_get_other in Gh.
    + destruct (spread_get_from _ _ _ _ Gh) as [Hin|K]; [|discriminate].
      destruct (routeHandlersOf_entries _ _ S _ _ Hin) as (r & Hr & E & R).
      destruct (getRouteHandler_ok _ _ R) as (page & render & F & C & ->).
      exists r, page, render. rewrite <- E. now repeat split.
    + rewrite List.map_map. cbn [fst]. intros K. apply get_in_keys in K.
      contradiction.
Qed.

Section Bundle.
Variable parse : string -> result (list ExportFix.ExportSpecifier).
Variable codec : Compress.Algorithm -> bytes -> result bytes.
Variable cwd : string.

Lemma find_path_in (p : string) :
  In p (List.map path pages) ->
  exists page, List.find (fun it => path it =? p) pages = Some page /\ In page pages.
Proof.
  intros Hin. destruct (List.find (fun it => path it =? p) pages) as [page|] eqn:F.
  - exists page. split; [reflexivity|]. now apply find_some in F.
  - exfalso. apply in_map_iff in Hin. destruct Hin as (q & <- & Hq).
    pose proof (find_none _ _ F q Hq) as K. cbv beta in K.
    now rewrite String.eqb_refl in K.
Qed.

(** X6: bundling and loading agree.  When [ssrBundle] wrote a manifest for
    pages whose components are all functions, [generateSsrBundleHandlers]
    over the same pages and that manifest builds a handler for every page,
    in the order of the pages, and, when the static files load, returns a
    table with a handler at every page's path. *)
Theorem bundle_then_load (o : BundleOptions) (build : BuildOutput) (d : Fs.t bytes)
        (dir : string) (m : Manifest) (written : Fs.t bytes)
        (bundleDirPath : string) (client : Fs.t bytes) (listing : list string) :
  ssrBundle parse codec cwd pages o build d = Ok (BundleWritten dir m written) ->
  (forall page, In page pages -> exists render, SsrComponent page = FunctionComponent render) ->
  let run := generateSsrBundleHandlers isProduction tryCompress mimeType
               compressSsrResponse pages (Parsed (manifestToJson m)) bundleDirPath client
               listing in
  built run = List.map path pages /\
  forall static,
    BunStatic.bunStatic mimeType client PUBLIC_ASSET_PATH (Path.join bundleDirPath "client")
      BunStatic.HeadersUndefined BunStatic.ram false listing = Ok static ->
    exists hs, outcome run = Ok hs /\
               forall page, In page pages -> JsMap.get hs (path page) <> None.
Proof.
  intros H Hfun. destruct (ssrBundle_written _ _ _ _ _ _ _ _ _ _ H) as (Hne & outs & d1 & B & M).
  destruct (buildManifest_version _ _ _ M) as [V P].
  pose proof (manifest_roundtrip _ V) as Hm.
  destruct (buildManifest_ok _ _ _ (bundleClient_nonEmpty _ _ _ _ _ _ _ B) M) as [Hp _].
  assert (R : forall r, In r (routes m) -> routable pages r = true).
  { intros r Hr. unfold routable.
    destruct (find_path_in (mpath r)) as (page & -> & Hpage).
    - rewrite <- Hp. now apply in_map.
    - destruct (Hfun page Hpage) as [render ->]. reflexivity. }
  cbv zeta. rewrite (generateSsrBundleHandlers_loaded _ _ _ _ _ Hne Hm). cbv zeta.
  cbn [built outcome]. split.
  - rewrite routeHandlersOf_built, <- Hp. f_equal.
    apply forallb_filter_id. apply forallb_forall. exact R.
  - intros static S. destruct (routeHandlersOf_ok _ R) as (ssr & -> & E).
    cbn [bind]. rewrite P, S. cbn [bind]. eexists. split; [reflexivity|].
    intros page Hpage.
    set (st := List.map (fun e => (fst e, StaticHandler (snd e))) static).
    destruct (in_dec string_dec (path page) (List.map fst st)) as [K|K].
    + now apply spread_get_some.
    + rewrite spread_get_other by assumption. apply spread_get_some.
      rewrite E, Hp. now apply in_map.
Qed.
End Bundle.
End Handlers.

Lemma unroutable_route_throws_witness :
  let run := generateSsrBundleHandlers false noCompress BunStatic.sampleMime true
               [sampleRoute; tagRoute] (Parsed twoRouteManifest) "/proj/dist-ssr" [] [] in
  built run = ["/ssr"] /\ exists e, outcome run = Throw e.
Proof.
  cbv zeta.
  destruct (unroutable_route_throws false noCompress BunStatic.sampleMime true
              [sampleRoute; tagRoute] twoRouteManifest
              {| version := 1; publicAssetPath := "/dist/client/";
                 routes := [{| mpath := "/tos"; js := []; css := [] |};
                            {| mpath := "/ssr"; js := []; css := [] |}] |}
              "/proj/dist-ssr" [] [] ltac:(discriminate) eq_refl) as [B T].
  split; [exact B|]. apply T.
  exists {| mpath := "/tos"; js := []; css := [] |}. split; [now left | reflexivity].
Defined.

Lemma static_routes_shadow_pages_witness :
  exists static,
    BunStatic.bunStatic BunStatic.sampleMime shadowFs "/dist/client/"
      (Path.join "/proj/dist-ssr" "client") BunStatic.HeadersUndefined BunStatic.ram false
      ["app.js"] = Ok static /\
    forall k,
      match JsMap.get static k with
      | Some h => JsMap.get shadowTable k = Some (StaticHandler h)
      | None =>
          forall h, JsMap.get shadowTable k = Some h ->
                    exists r page render,
                      In r (routes shadowManifest) /\ mpath r = k /\
                      List.find (fun it => path it =? k) [shadowRoute; sampleRoute]
                      = Some page /\
                      SsrComponent page = FunctionComponent render /\
                      h = SsrHandler (ssrHandler false noCompress true render r)
      end.
Proof.
  apply (static_routes_shadow_pages false noCompress BunStatic.sampleMime true
           [shadowRoute; sampleRoute] (manifestToJson shadowManifest) shadowManifest
           "/proj/dist-ssr" shadowFs ["app.js"] shadowTable).
  - discriminate.
  - reflexivity.
  - reflexivity.
Defined.

Lemma bundle_then_load_witness :
  let run := generateSsrBundleHandlers false noCompress BunStatic.sampleMime true
               [sampleRoute] (Parsed (manifestToJson sampleManifest)) "/proj/dist-ssr"
               [] [] in
  built run = ["/ssr"] /\
  forall static,
    BunStatic.bunStatic BunStatic.sampleMime [] PUBLIC_ASSET_PATH
      (Path.join "/proj/dist-ssr" "client") BunStatic.HeadersUndefined BunStatic.ram false []
    = Ok static ->
    exists hs, outcome run = Ok hs /\
               forall page, In page [sampleRoute] -> JsMap.get hs (path page) <> None.
Proof.
  eapply (bundle_then_load false noCompress BunStatic.sampleMime true [sampleRoute]
            ExportFix.sampleParse Compress.sampleCodec "/proj" sampleOptions sampleBuild
            sampleClientDir).
  - vm_compute. reflexivity.
  - intros page [<-|[]]. eexists. reflexivity.
Defined.

End HandlerFacts.

(** ** The client bundle *)

Module ClientBundleFacts.
Import Bundling StrFacts MapFacts BundlingFacts ManifestFacts.

(** *** the output loop *)

Section Outputs.
Variable pages : list BunSsrRouteConfig.

Lemma processOutput_cases (outs : BundleOutputs) (d : Fs.t bytes) (o : BuildArtifact) :
  processOutput pages (outs, d) o =
  if unmatchedEntry pages o
  then Throw ("Page for basename " ++ fst (pageForOutput pages o) ++ " not found")
  else
    Ok ({| jsByPagePath :=
             if isEntryPoint o
             then match snd (pageForOutput pages o) with
                  | Some page => JsMap.set (jsByPagePath outs) (path page) [entryAssetOf o]
                  | None => jsByPagePath outs
                  end
             else jsByPagePath outs;
           cssByPagePath :=
             if isCss o
             then match snd (pageForOutput pages o) with
                  | Some page =>
                      JsMap.set (cssByPagePath outs) (path page)
                        (match JsMap.get (cssByPagePath outs) (path page) with
                         | Some a => a
                         | None => []
                         end ++ [cssAssetOf o])%list
                  | None => cssByPagePath outs
                  end
             else cssByPagePath outs |},
        if isCss o then JsMap.set d (hashText o ++ ".css") (content o) else d).
Proof.
  unfold processOutput, unmatchedEntry, isCss, entryAssetOf, cssAssetOf.
  destruct (isEntryPoint o); destruct (pageForOutput pages o) as [b [page|]];
    cbn [fst snd bind BunStatic.isSome negb andb];
    destruct (Str.endsWith (outPath o) ".css"); reflexivity.
Qed.



Lemma processOutputs_entries (all l : list BuildArtifact) :
  forall outs d outs' d',
    processOutputs pages (outs, d) l = Ok (outs', d') ->
    incl l all ->
    entriesOf pages all (jsByPagePath outs) -> entriesOf pages all (jsByPagePath outs').
Proof.
  induction l as [|o r IH]; intros outs d outs' d' H Hincl Inv.
  - now injection H as <- _.
  - cbn [processOutputs] in H. rewrite processOutput_cases in H.
    destruct (unmatchedEntry pages o); [discriminate|]. cbn [bind] in H.
    apply (IH _ _ _ _ H); [intros x Hx; apply Hincl; now right|].
    cbn [jsByPagePath]. destruct (isEntryPoint o) eqn:Ep; [|exact Inv].
    destruct (snd (pageForOutput pages o)) as [page|] eqn:P; [|exact Inv].
    intros k l G. destruct (String.eqb_spec (path page) k) as [<-|Hne].
    + rewrite get_set_here in G. injection G as <-. exists o, page.
      split; [apply Hincl; now left|]. now repeat split.
    + rewrite get_set_other in G by assumption. now apply Inv.
Qed.

Lemma cssOfPage_snoc (k : string) (done : list BuildArtifact) (o : BuildArtifact) :
  cssOfPage pages k (done ++ [o]) =
  (cssOfPage pages k done ++
   if isCss o && match snd (pageForOutput pages o) with
                 | Some page => path page =? k
                 | None => false
                 end
   then [cssAssetOf o] else [])%list.
Proof.
  unfold cssOfPage. rewrite filter_app, map_app. cbn [List.filter].
  now destruct (isCss o && _)%bool.
Qed.

Lemma processOutputs_css (l : list BuildArtifact) :
  forall done outs d outs' d',
    processOutputs pages (outs, d) l = Ok (outs', d') ->
    cssSoFar pages done (cssByPagePath outs) -> cssSoFar pages (done ++ l) (cssByPagePath outs').
Proof.
  induction l as [|o r IH]; intros done outs d outs' d' H Inv.
  - injection H as <- _. now rewrite app_nil_r.
  - cbn [processOutputs] in H. rewrite processOutput_cases in H.
    destruct (unmatchedEntry pages o); [discriminate|]. cbn [bind] in H.
    replace (done ++ o :: r)%list with ((done ++ [o]) ++ r)%list
      by now rewrite <- app_assoc.
    apply (IH _ _ _ _ _ H). cbn [cssByPagePath]. clear H IH.
    intros k. rewrite cssOfPage_snoc. specialize (Inv k).
    destruct (isCss o); cbn [andb];
      [|rewrite app_nil_r; exact Inv].
    destruct (snd (pageForOutput pages o)) as [page|];
      [|rewrite app_nil_r; exact Inv].
    destruct (String.eqb_spec (path page) k) as [<-|Hne].
    + rewrite get_set_here.
      destruct (JsMap.get (cssByPagePath outs) (path page)) as [a|].
      * destruct Inv as [_ <-]. split; [now destruct a | reflexivity].
      * rewrite Inv. split; [discriminate | reflexivity].
    + rewrite get_set_other by assumption. rewrite app_nil_r. exact Inv.
Qed.

Lemma fold_addCommonCss (cssFile : BuildArtifact) (l : list BunSsrRouteConfig) :
  forall css k,
    JsMap.get (List.fold_left (addCommonCss cssFile) l css) k =
    match JsMap.get css k with
    | Some (a :: r) => Some (a :: r)
    | other => if hasName (List.map path l) k then Some [cssAssetOf cssFile] else other
    end.
Proof.
  induction l as [|page rest IH]; intros css k; cbn [fold_left List.map].
  - cbn [hasName existsb]. now destruct (JsMap.get css k) as [[|a r]|].
  - rewrite IH. unfold hasName. cbn [existsb]. fold (hasName (List.map path rest) k).
    unfold addCommonCss. fold (cssAssetOf cssFile).
    destruct (String.eqb_spec k (path page)) as [->|Hne].
    + destruct (JsMap.get css (path page)) as [[|a r]|] eqn:G; cbn [orb].
      * rewrite get_set_here. reflexivity.
      * rewrite G. reflexivity.
      * rewrite get_set_here. reflexivity.
    + cbn [orb].
      destruct (JsMap.get css (path page)) as [[|a r]|] eqn:G;
        rewrite ?get_set_other by congruence; reflexivity.
Qed.
End Outputs.

Lemma filter_both (A : Type) (f g : A -> bool) (l : list A) :
  List.filter (fun x => f x && g x)%bool l = List.filter g (List.filter f l).
Proof.
  induction l as [|x l IH]; [reflexivity|]. cbn [List.filter].
  destruct (f x); cbn [andb List.filter]; [|exact IH]. destruct (g x); now rewrite IH.
Qed.

Lemma cssOfPage_single (pages : list BunSsrRouteConfig) (k : string)
      (outs : list BuildArtifact) (cssFile : BuildArtifact) :
  List.filter isCss outs = [cssFile] ->
  cssOfPage pages k outs = [] \/ cssOfPage pages k outs = [cssAssetOf cssFile].
Proof.
  intros H. unfold cssOfPage. rewrite filter_both, H. cbn [List.filter].
  destruct (match snd (pageForOutput pages cssFile) with Some _ => _ | None => _ end);
    [now right | now left].
Qed.

Lemma cssOfPage_none (pages : list BunSsrRouteConfig) (k : string)
      (outs : list BuildArtifact) :
  (forall o, In o outs -> isCss o = false) -> cssOfPage pages k outs = [].
Proof.
  intros H. unfold cssOfPage. rewrite filter_both.
  replace (List.filter isCss outs) with (@nil BuildArtifact); [reflexivity|].
  symmetry. induction outs as [|o r IH]; [reflexivity|]. cbn [List.filter].
  rewrite (H o (or_introl eq_refl)). apply IH. intros x Hx. apply H. now right.
Qed.

Section Client.
Variable parse : string -> result (list ExportFix.ExportSpecifier).
Variable codec : Compress.Algorithm -> bytes -> result bytes.
Variable cwd : string.
Variable pages : list BunSsrRouteConfig.

(** what [bundleClient] is made of when it returns *)
Lemma bundleClient_ok (clientDistDir : string) (build : BuildOutput) (d d' : Fs.t bytes)
      (outs : BundleOutputs) :
  bundleClient parse pages clientDistDir build d = Ok (outs, d') ->
  exists outs1,
    processOutputs pages
      ({| jsByPagePath := []; cssByPagePath := [] |},
       fst (ExportFix.fixDuplicateExportsInDirectory parse clientDistDir d))
      (outputs build) = Ok (outs1, d') /\
    Forall2 (fun p p' => fst p' = fst p /\ appendsNew (snd p) (snd p'))
            (jsByPagePath outs1) (jsByPagePath outs) /\
    cssByPagePath outs =
      match List.filter isCss (outputs build) with
      | [cssFile] => List.fold_left (addCommonCss cssFile) pages (cssByPagePath outs1)
      | _ => cssByPagePath outs1
      end.
Proof.
  unfold bundleClient. destruct (negb (success build)); [discriminate|].
  destruct (processOutputs _ _ _) as [[outs1 d1]|] eqn:E; [|discriminate]. cbn [bind].
  destruct (resolveJsDependencies _ _ _ _ _) as [o|] eqn:R; [|discriminate]. cbn [bind].
  destruct o as [out|]; [|discriminate].
  destruct (resolve_again _ _ _ _ _ _ R) as [F _].
  intros [= <- <-]. exists outs1. split; [reflexivity|]. split; [exact F|]. reflexivity.
Qed.

(** X7: the scripts [bundleClient] leaves for a page are the entry point
    first, the one of an entry-point output named after that page and served
    under its base name, then chunks only, and no URL twice. *)
Theorem page_scripts_entry_first (clientDistDir : string) (build : BuildOutput)
        (d d' : Fs.t bytes) (outs : BundleOutputs) :
  bundleClient parse pages clientDistDir build d = Ok (outs, d') ->
  entryFirst (jsByPagePath outs) /\
  forall k l,
    JsMap.get (jsByPagePath outs) k = Some l ->
    NoDup (List.map urlPath l) /\
    exists o page,
      In o (outputs build) /\ isEntryPoint o = true /\
      snd (pageForOutput pages o) = Some page /\ In page pages /\ path page = k /\
      List.hd_error l = Some (entryAssetOf o).
Proof.
  intros H. destruct (bundleClient_ok _ _ _ _ _ H) as (outs1 & P & F & _).
  assert (Inv : entriesOf pages (outputs build) (jsByPagePath outs1)).
  { apply (processOutputs_entries pages (outputs build) _ _ _ _ _ P).
    - apply incl_refl.
    - intros k l G. discriminate. }
  assert (K : forall k l, JsMap.get (jsByPagePath outs) k = Some l ->
                          exists o page added,
                            In o (outputs build) /\ isEntryPoint o = true /\
                            snd (pageForOutput pages o) = Some page /\ path page = k /\
                            l = entryAssetOf o :: added /\
                            NoDup (List.map urlPath added) /\
                            forall a, In a added ->
                                      kind a = chunk /\ urlPath a <> urlPath (entryAssetOf o)).
  { intros k l G. destruct (appended_get _ _ F k l G) as (l0 & G0 & added & -> & ND & Hadd).
    destruct (Inv k l0 G0) as (o & page & Ho & Ep & Pg & Hk & ->).
    exists o, page, added.
    split; [assumption|]. split; [assumption|]. split; [assumption|].
    split; [assumption|]. split; [reflexivity|]. split; [assumption|].
    intros a Ha. split; [now apply Hadd|].
    intros E. apply (proj2 (Hadd a Ha)). left. now symmetry. }
  split.
  - intros k l G. destruct (K k l G) as (o & page & added & _ & _ & _ & _ & -> & _ & Hadd).
    exists (entryAssetOf o), added. split; [reflexivity|]. split; [reflexivity|].
    apply Forall_forall. intros a Ha. now apply Hadd.
  - intros k l G. destruct (K k l G) as (o & page & added & Ho & Ep & Pg & Hk & -> & ND & Hadd).
    split.
    + cbn [List.map]. constructor; [|exact ND]. intros Hin. apply in_map_iff in Hin.
      destruct Hin as (a & E & Ha). now apply (proj2 (Hadd a Ha)).
    + exists o, page. repeat split; auto.
      unfold pageForOutput in Pg. cbn [snd] in Pg. now apply find_some in Pg.
Qed.


(** X9: when the build has exactly one stylesheet, [bundleClient] leaves
    every page with that stylesheet and nothing else, served under
    [<hash>.css]: by its name for the page it is named after, by the
    fallback for the others. *)
Theorem single_stylesheet_for_every_page (clientDistDir : string) (build : BuildOutput)
        (d d' : Fs.t bytes) (outs : BundleOutputs) (cssFile : BuildArtifact) :
  bundleClient parse pages clientDistDir build d = Ok (outs, d') ->
  List.filter isCss (outputs build) = [cssFile] ->
  forall page, In page pages ->
               JsMap.get (cssByPagePath outs) (path page) = Some [cssAssetOf cssFile].
Proof.
  intros H Hone page Hpage. destruct (bundleClient_ok _ _ _ _ _ H) as (outs1 & P & _ & C).
  rewrite Hone in C. rewrite C, fold_addCommonCss.
  pose proof (processOutputs_css pages (outputs build) [] _ _ _ _ P) as Inv.
  cbn [app cssByPagePath] in Inv.
  specialize (Inv (fun k => eq_refl) (path page)).
  assert (Hn : hasName (List.map path pages) (path page) = true).
  { apply hasName_iff. now apply in_map. }
  rewrite Hn.
  destruct (JsMap.get (cssByPagePath outs1) (path page)) as [[|a r]|]; try reflexivity.
  destruct Inv as [_ E].
  destruct (cssOfPage_single pages (path page) _ _ Hone) as [K|K]; rewrite K in E;
    [discriminate | now rewrite E].
Qed.

(** X10: a build without any stylesheet cannot be bundled: for a non-empty
    route list [ssrBundle] throws, at the latest when the manifest is
    built, because no route has an entry in the CSS map. *)
Theorem no_stylesheet_no_bundle (o : BundleOptions) (build : BuildOutput) (d : Fs.t bytes) :
  pages <> [] ->
  (forall out, In out (outputs build) -> isCss out = false) ->
  exists msg, ssrBundle parse codec cwd pages o build d = Throw msg.
Proof.
  intros Hne Hnone. destruct pages as [|p0 ps] eqn:Ep; [contradiction|]. rewrite <- Ep in *.
  assert (E : ssrBundle parse codec cwd pages o build d =
              (st <- bundleClient parse pages (clientDistDirOf cwd o) build d ;;
               let '(outs, d1) := st in
               d2 <- (if compress o then Compress.compressFilesInDir codec d1 else Ok d1) ;;
               manifest <- buildManifest pages outs ;;
               Ok (BundleWritten (bundleDistDirOf cwd o) manifest d2))).
  { rewrite Ep. reflexivity. }
  rewrite E. clear E.
  destruct (bundleClient _ _ _ _ _) as [[outs d1]|e] eqn:B; cbn [bind]; [|eauto].
  destruct (if compress o then _ else _) as [d2|e]; cbn [bind]; [|eauto].
  destruct (bundleClient_ok _ _ _ _ _ B) as (outs1 & P & _ & C).
  pose proof (processOutputs_css pages (outputs build) [] _ _ _ _ P) as Inv.
  cbn [app cssByPagePath] in Inv. specialize (Inv (fun k => eq_refl) (path p0)).
  rewrite (cssOfPage_none pages (path p0) _ Hnone) in Inv.
  assert (F : List.filter isCss (outputs build) = []).
  { clear -Hnone. induction (outputs build) as [|x r IH]; [reflexivity|]. cbn [List.filter].
    rewrite (Hnone x (or_introl eq_refl)). apply IH. intros y Hy. apply Hnone. now right. }
  rewrite F in C.
  assert (G : JsMap.get (cssByPagePath outs) (path p0) = None).
  { rewrite C. destruct (JsMap.get (cssByPagePath outs1) (path p0)) as [l|]; [|reflexivity].
    destruct Inv as [N E]. contradiction. }
  destruct (buildManifest_throws pages outs) as (page & msg & _ & _ & M).
  - exists p0. split; [rewrite Ep; now left | now right].
  - rewrite M. cbn [bind]. eauto.
Qed.
End Client.

Lemma page_scripts_entry_first_witness :
  entryFirst (jsByPagePath sampleOutputs) /\
  forall k l,
    JsMap.get (jsByPagePath sampleOutputs) k = Some l ->
    NoDup (List.map urlPath l) /\
    exists o page,
      In o (outputs sampleBuild) /\ isEntryPoint o = true /\
      snd (pageForOutput [sampleRoute] o) = Some page /\ In page [sampleRoute] /\
      path page = k /\ List.hd_error l = Some (entryAssetOf o).
Proof.
  eapply (page_scripts_entry_first ExportFix.sampleParse [sampleRoute]
            "/proj/dist-ssr/client" sampleBuild sampleClientDir).
  vm_compute. reflexivity.
Defined.


Lemma single_stylesheet_for_every_page_witness :
  JsMap.get (cssByPagePath sampleOutputs) (path sampleRoute)
  = Some [cssAssetOf sampleStylesheet].
Proof.
  eapply (single_stylesheet_for_every_page ExportFix.sampleParse [sampleRoute]
            "/proj/dist-ssr/client" sampleBuild sampleClientDir).
  - vm_compute. reflexivity.
  - reflexivity.
  - left. reflexivity.
Defined.

Lemma no_stylesheet_no_bundle_witness :
  exists msg, ssrBundle ExportFix.sampleParse Compress.sampleCodec "/proj" [sampleRoute]
                        sampleOptions sampleBuildNoCss sampleClientDir = Throw msg.
Proof.
  apply (no_stylesheet_no_bundle ExportFix.sampleParse Compress.sampleCodec "/proj"
           [sampleRoute] sampleOptions sampleBuildNoCss sampleClientDir).
  - discriminate.
  - intros out [<-|[<-|[]]]; reflexivity.
Defined.

End ClientBundleFacts.

(** ** The whole compression run *)

Module CompressRunFacts.
Import Compress StrFacts MapFacts CompressFacts.

Section Run.
Variable codec : Algorithm -> bytes -> result bytes.






Lemma runEntries_only_siblings (base : Dir) (l : list string) :
  forall d0 d',
    runEntries codec l d0 = Ok d' ->
    (forall k, compressible k = true -> JsMap.get d0 k = JsMap.get base k) ->
    onlySmallerSiblings codec base d0 -> onlySmallerSiblings codec base d'.
Proof.
  induction l as [|g r IH]; intros d0 d' H Inv P.
  - now injection H as <-.
  - cbn [runEntries] in H.
    destruct (compressEntry codec d0 g) as [d1|] eqn:E; [|discriminate]. cbn [bind] in H.
    apply (IH _ _ H).
    + intros k Hk. rewrite (entry_keeps_sources codec _ _ _ _ E Hk). now apply Inv.
    + clear IH H. destruct (compressible g) eqn:Hg.
      2:{ rewrite entry_skipped in E by assumption. now injection E as <-. }
      destruct (entry_reads codec _ _ _ E Hg) as [content G].
      pose proof (entry_spec codec _ _ _ _ E Hg G) as [S F].
      assert (Gb : JsMap.get base g = Some content) by (rewrite <- Inv; assumption).
      assert (Sib : forall a k, k = g ++ siblingExt a ->
                                JsMap.get d1 k <> JsMap.get base k ->
                                exists file content a c,
                                  k = file ++ siblingExt a /\ compressible file = true /\
                                  JsMap.get base file = Some content /\
                                  codec a content = Ok c /\
                                  List.length c < List.length content /\
                                  JsMap.get d1 k = Some c).
      { intros a k -> D. destruct (S a) as (c & C & K).
        destruct (List.length c <? List.length content)%nat eqn:L.
        - apply Nat.ltb_lt in L. exists g, content, a, c. now repeat split.
        - rewrite K in D |- *. destruct (P _ D) as (f & ct & a' & c' & Hk & R).
          exists f, ct, a', c'. now split. }
      intros k D.
      destruct (string_dec k (g ++ siblingExt gzip)) as [K1|N1]; [now apply (Sib gzip)|].
      destruct (string_dec k (g ++ siblingExt zstd)) as [K2|N2]; [now apply (Sib zstd)|].
      destruct (string_dec k (g ++ siblingExt brotli)) as [K3|N3]; [now apply (Sib brotli)|].
      assert (Fk : JsMap.get d1 k = JsMap.get d0 k) by (apply F; intros []; assumption).
      rewrite Fk in D |- *. now apply P.
Qed.

(** X12: a run of [compressFilesInDir] that returns deletes nothing, and
    every entry it added or changed is the sibling of a compressible file
    and holds the output of that sibling's codec for the file, strictly
    shorter than the file. *)
Theorem run_changes_only_siblings (d d' : Dir) :
  compressFilesInDir codec d = Ok d' ->
  onlySmallerSiblings codec d d' /\
  forall k, JsMap.get d k <> None -> JsMap.get d' k <> None.
Proof.
  intros H.
  assert (P : onlySmallerSiblings codec d d').
  { apply (runEntries_only_siblings d (readdirSync d) d d' H (fun _ _ => eq_refl)).
    intros k D. now contradiction D. }
  split; [exact P|]. intros k Hk.
  destruct (JsMap.get d' k) as [v|] eqn:G; [discriminate|].
  destruct (P k) as (f & ct & a & c & _ & _ & _ & _ & _ & K); congruence.
Qed.
End Run.


Lemma run_changes_only_siblings_witness :
  onlySmallerSiblings sampleCodec sampleDir sampleDirCompressed /\
  forall k, JsMap.get sampleDir k <> None -> JsMap.get sampleDirCompressed k <> None.
Proof.
  apply (run_changes_only_siblings sampleCodec sampleDir sampleDirCompressed).
  vm_compute. reflexivity.
Defined.

End CompressRunFacts.

(** ** Static files: groups and headers *)

Module StaticFilesFacts.
Import BunStatic StrFacts MapFacts BunStaticFacts CompressFacts HandlerFacts.

(** *** grouping the listing *)

Lemma length_append (a b : string) :
  String.length (a ++ b) = String.length a + String.length b.
Proof. induction a as [|c a IH]; cbn; [reflexivity | now rewrite IH]. Qed.

Lemma substring_prefix (a b : string) : String.substring 0 (String.length a) (a ++ b) = a.
Proof.
  induction a as [|c a IH]; cbn; [now destruct b | now rewrite IH].
Qed.

Lemma dropRight_append (a b : string) : Str.dropRight (a ++ b) (String.length b) = a.
Proof.
  unfold Str.dropRight. rewrite length_append, Nat.add_sub. apply substring_prefix.
Qed.

Lemma sibling_tag (file : string) (a : Compress.Algorithm) :
  findCompressionExtension (file ++ Compress.siblingExt a) = Some (Bundling.encodingOf a).
Proof.
  unfold findCompressionExtension, compressionExtensions.
  destruct a; cbn [Compress.siblingExt List.find extName Bundling.encodingOf].
  - change ("." ++ "gz") with ".gz". now rewrite endsWith_append.
  - change ("." ++ "gz") with ".gz". change ("." ++ "br") with ".br".
    change ("." ++ "zst") with ".zst".
    assert (E1 : Str.endsWith (file ++ ".zst") ".gz" = false)
      by exact (endsWith_clash file ".zs" ".g" "t"%char "z"%char ltac:(discriminate)).
    assert (E2 : Str.endsWith (file ++ ".zst") ".br" = false)
      by exact (endsWith_clash file ".zs" ".b" "t"%char "r"%char ltac:(discriminate)).
    now rewrite E1, E2, endsWith_append.
  - change ("." ++ "gz") with ".gz". change ("." ++ "br") with ".br".
    assert (E1 : Str.endsWith (file ++ ".br") ".gz" = false)
      by exact (endsWith_clash file ".b" ".g" "r"%char "z"%char ltac:(discriminate)).
    now rewrite E1, endsWith_append.
Qed.

Lemma source_has_no_tag (file : string) :
  Compress.compressible file = true -> findCompressionExtension file = None.
Proof.
  intros Hc. unfold findCompressionExtension, compressionExtensions. cbn [List.find extName].
  change ("." ++ "gz") with ".gz". change ("." ++ "br") with ".br".
  change ("." ++ "zst") with ".zst".
  destruct (Str.endsWith file ".gz") eqn:E1.
  { rewrite compressed_name_skipped in Hc by auto. discriminate. }
  destruct (Str.endsWith file ".br") eqn:E2.
  { rewrite compressed_name_skipped in Hc by auto. discriminate. }
  destruct (Str.endsWith file ".zst") eqn:E3.
  { rewrite compressed_name_skipped in Hc by auto. discriminate. }
  reflexivity.
Qed.

(** X13: what [compressFilesInDir] writes is what [bunStatic] looks for.
    The sibling a codec writes next to [file] carries that codec's
    compression tag and falls into the group named [file], whatever [file]
    is; a compressible file carries no tag and names its own group. *)
Theorem siblings_grouped_with_source (file : string) :
  (forall a,
      findCompressionExtension (file ++ Compress.siblingExt a)
      = Some (Bundling.encodingOf a) /\
      nameWithoutCompression (file ++ Compress.siblingExt a) = file) /\
  (Compress.compressible file = true ->
   findCompressionExtension file = None /\ nameWithoutCompression file = file).
Proof.
  split.
  - intros a. split; [apply sibling_tag|].
    unfold nameWithoutCompression. rewrite sibling_tag.
    replace (String.length (extName (Bundling.encodingOf a)) + 1)
      with (String.length (Compress.siblingExt a)) by now destruct a.
    apply dropRight_append.
  - intros Hc. unfold nameWithoutCompression. rewrite (source_has_no_tag _ Hc). now split.
Qed.

Lemma siblings_grouped_with_source_witness :
  findCompressionExtension "app.js" = None /\ nameWithoutCompression "app.js" = "app.js".
Proof.
  apply (proj2 (siblings_grouped_with_source "app.js")). reflexivity.
Defined.

Section Grouping.
Variable dir : string.

Lemma membersOf_snoc (k : string) (done : list string) (n : string) :
  membersOf k (done ++ [n]) =
  (membersOf k done ++ if nameWithoutCompression n =? k then [n] else [])%list.
Proof.
  unfold membersOf. rewrite filter_app. cbn [List.filter].
  now destruct (nameWithoutCompression n =? k).
Qed.

Lemma addFile_grouped (done : list string) (groups : JsMap.t (list GroupFile))
      (n : string) :
  groupedSoFar dir done groups -> groupedSoFar dir (done ++ [n]) (addFile dir groups n).
Proof.
  intros [ND G]. unfold addFile. split; [now apply set_keeps_nodup|].
  intros k. rewrite membersOf_snoc.
  destruct (String.eqb_spec (nameWithoutCompression n) k) as [<-|Hne].
  - rewrite get_set_here, G. fold (groupFileOf dir n).
    destruct (membersOf (nameWithoutCompression n) done) as [|m ms]; [reflexivity|].
    cbn [app List.map]. rewrite map_app. reflexivity.
  - rewrite get_set_other by assumption. rewrite app_nil_r. apply G.
Qed.

Lemma fold_addFile_grouped (l : list string) :
  forall done groups,
    groupedSoFar dir done groups ->
    groupedSoFar dir (done ++ l) (List.fold_left (addFile dir) l groups).
Proof.
  induction l as [|n r IH]; intros done groups H; cbn [fold_left].
  - now rewrite app_nil_r.
  - replace (done ++ n :: r)%list with ((done ++ [n]) ++ r)%list by now rewrite <- app_assoc.
    apply IH. now apply addFile_grouped.
Qed.

Lemma groups_of_listing (listing : list string) :
  groupedSoFar dir listing (List.fold_left (addFile dir) listing []).
Proof.
  apply (fold_addFile_grouped listing [] []). split; [constructor | reflexivity].
Qed.

Lemma groupedFiles_in (listing : list string) (g : Group) :
  In g (groupedFiles dir listing) <->
  exists fs, JsMap.get (List.fold_left (addFile dir) listing []) (name g) = Some fs /\
             g = {| name := name g; gpath := Path.join dir (name g); files := fs |}.
Proof.
  destruct (groups_of_listing listing) as [ND _]. unfold groupedFiles. split.
  - intros H. apply in_map_iff in H. destruct H as ([n fs] & <- & Hin). cbn [name].
    exists fs. split; [now apply in_get_nodup | reflexivity].
  - intros (fs & G & ->). apply in_map_iff. exists (name g, fs).
    split; [reflexivity | now apply get_in].
Qed.

Lemma listed_in_group (listing : list string) (n : string) :
  In n listing ->
  exists g, In g (groupedFiles dir listing) /\
            name g = nameWithoutCompression n /\
            gpath g = Path.join dir (nameWithoutCompression n) /\
            In (groupFileOf dir n) (files g).
Proof.
  intros Hn. destruct (groups_of_listing listing) as [ND G].
  assert (M : In n (membersOf (nameWithoutCompression n) listing)).
  { apply filter_In. split; [assumption | apply String.eqb_refl]. }
  pose proof (G (nameWithoutCompression n)) as Gn.
  destruct (membersOf (nameWithoutCompression n) listing) as [|m ms] eqn:Em;
    [destruct M|].
  exists {| name := nameWithoutCompression n;
            gpath := Path.join dir (nameWithoutCompression n);
            files := List.map (groupFileOf dir) (m :: ms) |}.
  split; [|split; [reflexivity|split; [reflexivity|]]].
  - apply groupedFiles_in. cbn [name]. eauto.
  - cbn [files]. now apply in_map.
Qed.

(** X14: the grouping of [bunStatic].  The groups have pairwise different
    names; each group holds, in listing order, exactly the listed files
    whose name without a compression extension is the group's name, at
    least one, each with its joined path and its compression tag; the
    group's own path is the joined path of its name; and every listed file
    is in the group of its name. *)
Theorem groups_partition_listing (listing : list string) :
  NoDup (List.map name (groupedFiles dir listing)) /\
  (forall g, In g (groupedFiles dir listing) ->
             gpath g = Path.join dir (name g) /\ files g <> [] /\
             files g = List.map (groupFileOf dir) (membersOf (name g) listing)) /\
  (forall n, In n listing ->
             exists g, In g (groupedFiles dir listing) /\
                       name g = nameWithoutCompression n /\
                       In (groupFileOf dir n) (files g)).
Proof.
  destruct (groups_of_listing listing) as [ND G]. split; [|split].
  - unfold groupedFiles. rewrite List.map_map.
    replace (List.map _ (List.fold_left (addFile dir) listing []))
      with (JsMap.keys (List.fold_left (addFile dir) listing [])); [exact ND|].
    unfold JsMap.keys. apply map_ext. now intros [n fs].
  - intros g Hg. apply groupedFiles_in in Hg. destruct Hg as (fs & Hfs & E).
    rewrite G in Hfs. rewrite E. cbn [gpath files name].
    destruct (membersOf (name g) listing) as [|m ms]; [discriminate|].
    injection Hfs as <-. split; [reflexivity|]. split; [discriminate | reflexivity].
  - intros n Hn. destruct (listed_in_group listing n Hn) as (g & Hg & Hname & _ & Hf).
    now exists g.
Qed.
End Grouping.

(** *** the handlers *)

Lemma mapM_throws (A B : Type) (f : A -> result B) (l : list A) (x : A) :
  In x l -> (exists e, f x = Throw e) -> exists e, mapM f l = Throw e.
Proof.
  induction l as [|y r IH]; intros Hin Hx; [destruct Hin|]. cbn [mapM].
  destruct (f y) as [b|e] eqn:E; cbn [bind]; [|eauto].
  destruct Hin as [->|Hin].
  - destruct Hx as [e K]. congruence.
  - destruct (IH Hin Hx) as [e ->]. cbn [bind]. eauto.
Qed.

Lemma headersGet_set_other (h : Headers) (n m v : string) :
  Str.toLowerCase n <> Str.toLowerCase m ->
  headersGet (headersSet h n v) m = headersGet h m.
Proof. intros H. unfold headersGet, headersSet. now apply get_set_other. Qed.

Ltac other_header :=
  repeat match goal with
         | |- context [Str.toLowerCase (String ?c ?s)] =>
             let v := eval vm_compute in (Str.toLowerCase (String c s)) in
             change (Str.toLowerCase (String c s)) with v
         end;
  congruence.

Ltac header_value :=
  repeat (rewrite headersGet_set_other by discriminate);
  first [apply headersGet_headersSet | reflexivity].

Ltac negotiated :=
  cbn [headers orb option_map fst];
  split;
  [ intros n (N1 & N2 & N3);
    rewrite !headersGet_set_other; [reflexivity | | |]; other_header
  | split; [intros _; split; header_value | discriminate] ].

Section Handlers.
Variable mimeType : string -> string.
Variable fs : Fs.t bytes.

Lemma buildHandler_orphan (headersFn : HeadersOption) (g : Group) :
  hasCompressedVariants g = true ->
  JsMap.get fs (gpath g) = None ->
  exists e, buildHandler mimeType fs ram headersFn g = Throw e.
Proof.
  unfold hasCompressedVariants, buildHandler. intros -> G.
  destruct (variantBytes fs (findVariant g br)); cbn [bind]; [|eauto].
  destruct (variantBytes fs (findVariant g zst)); cbn [bind]; [|eauto].
  destruct (variantBytes fs (findVariant g gz)); cbn [bind]; [|eauto].
  unfold Fs.read. rewrite G. cbn [bind]. eauto.
Qed.

(** X15: a listed file with a compression extension whose uncompressed
    namesake is not on disk makes [bunStatic] reject under the [ram]
    strategy: its group has a compressed variant, so the group's own file
    is read, and it is missing. *)
Theorem orphan_variant_rejects_ram (routePath dir : string) (headersFn : HeadersOption)
        (spaMode : bool) (listing : list string) (n : string) :
  In n listing ->
  findCompressionExtension n <> None ->
  JsMap.get fs (Path.join dir (nameWithoutCompression n)) = None ->
  exists e, bunStatic mimeType fs routePath dir headersFn ram spaMode listing = Throw e.
Proof.
  intros Hn Hc Hmiss.
  destruct (listed_in_group dir listing n Hn) as (g & Hin & Hname & Hp & Hf).
  destruct (buildHandler_orphan headersFn g) as [e E].
  - unfold hasCompressedVariants. apply existsb_exists. exists (groupFileOf dir n).
    split; [assumption|]. cbn [groupFileOf compression].
    now destruct (findCompressionExtension n).
  - now rewrite Hp.
  - unfold bunStatic.
    destruct (mapM_throws _ _
                (fun file =>
                   handler <- buildHandler mimeType fs ram headersFn file ;;
                   Ok (computeRoute routePath spaMode (name file), handler))
                (groupedFiles dir listing) g Hin) as [e' ->].
    + rewrite E. cbn [bind]. eauto.
    + cbn [bind]. eauto.
Qed.


(** X17: the handler of a file with compressed variants.  When a variant
    is negotiated, the response carries that variant's [Content-Encoding]
    and the [Content-Type] of the uncompressed file, whatever headers the
    caller passes, and keeps the caller's other headers.  When none is, the
    [disk] strategy still sets [Content-Type] and the size of the file,
    while the [ram] strategy answers with the caller's headers alone. *)
Theorem content_headers_win (strategy : Strategy) (headersFn : HeadersOption) (g : Group)
        (f : Request -> Response) (req : Request) :
  buildHandler mimeType fs strategy headersFn g = Ok (RequestHandler f) ->
  let user := newHeaders (userHeadersOf headersFn g) in
  (forall n, callerHeader n -> headersGet (headers (f req)) n = headersGet user n) /\
  (negotiates g req = true ->
   headersGet (headers (f req)) "Content-Encoding"
   = option_map fst (negotiatedEncoding g req) /\
   headersGet (headers (f req)) "Content-Type" = Some (mimeType (gpath g))) /\
  (negotiates g req = false ->
   match strategy with
   | ram => headers (f req) = user
   | disk =>
       headersGet (headers (f req)) "Content-Type" = Some (mimeType (gpath g)) /\
       headersGet (headers (f req)) "Content-Length"
       = Some (Str.ofNat (Fs.size fs (gpath g))) /\
       headersGet (headers (f req)) "Content-Encoding" = headersGet user "Content-Encoding"
   end).
Proof.
  unfold buildHandler, negotiates, negotiatedEncoding. cbn [List.find fst snd].
  fold (userHeadersOf headersFn g).
  destruct (existsb _ (files g)).
  2:{ destruct strategy; [destruct (Fs.read fs (gpath g))|]; discriminate. }
  destruct strategy.
  - destruct (variantBytes fs (findVariant g br)) as [bb|]; [|discriminate].
    destruct (variantBytes fs (findVariant g zst)) as [zb|]; [|discriminate].
    destruct (variantBytes fs (findVariant g gz)) as [gb|]; [|discriminate].
    destruct (Fs.read fs (gpath g)) as [ub|]; [|discriminate].
    cbn [bind]. intros [= <-]. cbv zeta.
    destruct (isSome (findVariant g br) && _)%bool; [negotiated|].
    destruct (isSome (findVariant g zst) && _)%bool; [negotiated|].
    destruct (isSome (findVariant g gz) && _)%bool; [negotiated|].
    cbn [headers orb]. split; [reflexivity|]. split; [discriminate | reflexivity].
  - intros [= <-]. cbv zeta.
    destruct (isSome (findVariant g br) && _)%bool; [negotiated|].
    destruct (isSome (findVariant g zst) && _)%bool; [negotiated|].
    destruct (isSome (findVariant g gz) && _)%bool; [negotiated|].
    cbn [headers orb]. split; [|split; [discriminate|]].
    + intros n (N1 & N2 & N3). rewrite !headersGet_set_other; [reflexivity | |]; other_header.
    + intros _. repeat split; header_value.
Qed.
End Handlers.

Lemma orphan_variant_rejects_ram_witness :
  exists e, bunStatic sampleMime orphanFs "/static" "/srv" HeadersUndefined ram false
                      orphanListing = Throw e.
Proof.
  apply (orphan_variant_rejects_ram sampleMime orphanFs "/static" "/srv" HeadersUndefined
           false orphanListing "data.gz").
  - right. left. reflexivity.
  - vm_compute. discriminate.
  - vm_compute. reflexivity.
Defined.


Lemma content_headers_win_witness :
  exists f,
    buildHandler sampleMime sampleFs ram (HeadersInit callerHeaders) variantGroup
    = Ok (RequestHandler f) /\
    (headersGet (headers (f gzipRequest)) "Content-Encoding" = Some "gzip" /\
     headersGet (headers (f gzipRequest)) "Content-Type"
     = Some (sampleMime "/srv/app.js")) /\
    headers (f identityRequest) = newHeaders (Some callerHeaders).
Proof.
  eexists. split; [reflexivity|]. split.
  - apply (proj1 (proj2 (content_headers_win sampleMime sampleFs ram
                           (HeadersInit callerHeaders) variantGroup _ gzipRequest
                           eq_refl))).
    reflexivity.
  - apply (proj2 (proj2 (content_headers_win sampleMime sampleFs ram
                           (HeadersInit callerHeaders) variantGroup _ identityRequest
                           eq_refl))).
    reflexivity.
Defined.

End StaticFilesFacts.

(** ** The export plan and the directory run *)

Module ExportPlanFacts.
Import ExportFix StrFacts MapFacts ExportFixFacts.

(** *** the statements and the plan *)

Lemma addName_names (stmts : list ExportStatement) (a b : nat) (x : string) :
  Forall (fun st => NoDup (names st)) stmts ->
  Forall (fun st => NoDup (names st)) (addName stmts a b x).
Proof.
  induction 1 as [|st r Hst Hr IH]; [constructor|]. cbn [addName].
  destruct (sameStatement a b st); [|now constructor].
  constructor; [|assumption].
  destruct (includesName (names st) x) eqn:E; [assumption|]. cbn [names].
  apply NoDup_app; [assumption | constructor; [intros [] | constructor] |].
  intros y Hy [<-|[]]. apply includesName_iff in Hy. congruence.
Qed.

Lemma collectExport_names (code : string) (stmts : list ExportStatement)
      (exp : ExportSpecifier) :
  Forall (fun st => NoDup (names st)) stmts ->
  Forall (fun st => NoDup (names st)) (collectExport code stmts exp).
Proof.
  intros H. unfold collectExport. destruct (truthy (n exp)) as [x|]; [|assumption].
  destruct (statementAround code exp) as [[a b]|]; [|assumption].
  destruct (existsb (sameStatement a b) stmts); [now apply addName_names|].
  apply Forall_app. split; [assumption|]. constructor; [|constructor].
  cbn [names]. constructor; [intros [] | constructor].
Qed.

Lemma insertByStart_Forall (P : ExportStatement -> Prop) (st : ExportStatement)
      (sorted : list ExportStatement) :
  P st -> Forall P sorted -> Forall P (insertByStart st sorted).
Proof.
  intros Hst. induction 1 as [|h r Hh Hr IH]; cbn [insertByStart].
  - now constructor.
  - destruct (start st <? start h)%nat; repeat constructor; assumption.
Qed.

Lemma sortByStart_Forall (P : ExportStatement -> Prop) (stmts : list ExportStatement) :
  Forall P stmts -> Forall P (sortByStart stmts).
Proof.
  unfold sortByStart. intros H.
  assert (G : forall acc, Forall P acc ->
                          Forall P (fold_left (fun sorted st => insertByStart st sorted)
                                              stmts acc)).
  { induction H as [|st r Hst _ IH]; intros acc Hacc; [assumption|]. cbn [fold_left].
    apply IH. now apply insertByStart_Forall. }
  apply G. constructor.
Qed.

Lemma exportStatements_names (code : string) (exports : list ExportSpecifier) :
  Forall (fun st => NoDup (names st)) (exportStatements code exports).
Proof.
  unfold exportStatements. apply sortByStart_Forall.
  assert (G : forall acc, Forall (fun st => NoDup (names st)) acc ->
                          Forall (fun st => NoDup (names st))
                                 (fold_left (collectExport code) exports acc)).
  { induction exports as [|exp r IH]; intros acc Hacc; [assumption|]. cbn [fold_left].
    apply IH. now apply collectExport_names. }
  apply G. constructor.
Qed.

Lemma setAdd_in (seen : list string) (y x : string) :
  In x (setAdd seen y) <-> In x seen \/ x = y.
Proof.
  unfold setAdd. destruct (includesName seen y) eqn:E.
  - apply includesName_iff in E. split; [now left | intros [H| ->]; assumption].
  - rewrite in_app_iff. cbn. intuition congruence.
Qed.

Lemma setAddAll_iff (xs seen : list string) (x : string) :
  In x (setAddAll seen xs) <-> In x seen \/ In x xs.
Proof.
  revert seen. induction xs as [|y ys IH]; intros seen; cbn [setAddAll fold_left].
  - cbn. tauto.
  - fold (setAddAll (setAdd seen y) ys). rewrite IH, setAdd_in. cbn. intuition congruence.
Qed.

Lemma filter_nil_iff (A : Type) (f : A -> bool) (l : list A) :
  List.filter f l = [] <-> forall x, In x l -> f x = false.
Proof.
  split; [|apply filter_none]. intros H x Hx. destruct (f x) eqn:E; [|reflexivity].
  assert (K : In x (List.filter f l)) by (apply filter_In; auto).
  rewrite H in K. destruct K.
Qed.

(** the plan's two lists only grow *)
Lemma plan_grows (code : string) (stmts : list ExportStatement) :
  forall p,
    exists l1 l2,
      statementsToRemove (fold_left (planStatement code) stmts p)
      = (statementsToRemove p ++ l1)%list /\
      namesToRemoveFromStatements (fold_left (planStatement code) stmts p)
      = (namesToRemoveFromStatements p ++ l2)%list.
Proof.
  induction stmts as [|st r IH]; intros p; cbn [fold_left].
  - exists [], []. now rewrite !app_nil_r.
  - destruct (IH (planStatement code p st)) as (l1 & l2 & -> & ->).
    unfold planStatement.
    destruct (List.filter (includesName (seen p)) (names st)) as [|d ds];
      [|destruct (List.filter _ (names st))]; cbn [statementsToRemove namesToRemoveFromStatements];
      rewrite <- ?app_assoc; eauto.
Qed.

Lemma plan_nothing_first (code : string) (stmts : list ExportStatement) (p : Plan)
      (st : ExportStatement) :
  statementsToRemove (fold_left (planStatement code) (st :: stmts) p) = [] ->
  namesToRemoveFromStatements (fold_left (planStatement code) (st :: stmts) p) = [] ->
  List.filter (includesName (seen p)) (names st) = [] /\
  planStatement code p st =
  {| seen := setAddAll (seen p) (names st);
     statementsToRemove := statementsToRemove p;
     namesToRemoveFromStatements := namesToRemoveFromStatements p |}.
Proof.
  cbn [fold_left]. intros R N.
  destruct (plan_grows code stmts (planStatement code p st)) as (l1 & l2 & E1 & E2).
  rewrite E1 in R. rewrite E2 in N.
  apply app_eq_nil in R. apply app_eq_nil in N. destruct R as [R _], N as [N _].
  unfold planStatement in *.
  destruct (List.filter (includesName (seen p)) (names st)) as [|d ds]; [now split|].
  exfalso. destruct (List.filter _ (names st));
    cbn [statementsToRemove namesToRemoveFromStatements] in R, N.
  - now apply app_eq_nil in R.
  - now apply app_eq_nil in N.
Qed.

Lemma plan_nothing_nodup (code : string) (stmts : list ExportStatement) :
  forall p,
    Forall (fun st => NoDup (names st)) stmts ->
    statementsToRemove (fold_left (planStatement code) stmts p) = [] ->
    namesToRemoveFromStatements (fold_left (planStatement code) stmts p) = [] ->
    NoDup (List.concat (List.map names stmts)) /\
    forall x, In x (seen p) -> ~ In x (List.concat (List.map names stmts)).
Proof.
  induction stmts as [|st r IH]; intros p F R N.
  - split; [constructor | intros x _ []].
  - destruct (plan_nothing_first code r p st R N) as [D E].
    cbn [fold_left] in R, N. rewrite E in R, N.
    apply Forall_cons_iff in F. destruct F as [Hst F].
    destruct (IH _ F R N) as [ND S]. cbn [seen] in S. cbn [List.map concat].
    pose proof (proj1 (filter_nil_iff _ _ _) D) as Dis. split.
    + apply NoDup_app; [assumption | assumption |].
      intros x Hx. apply S. apply setAddAll_iff. now right.
    + intros x Hx K. apply in_app_or in K. destruct K as [K|K].
      * specialize (Dis x K). apply includesName_iff in Hx. congruence.
      * apply (S x); [|assumption]. apply setAddAll_iff. now left.
Qed.

(** X18: the fixer rewrites a file exactly when one export name is listed
    twice among its export statements, each of which lists a name at most
    once. *)
Theorem fix_needed_iff_repeated_name (code : string) (exports : list ExportSpecifier) :
  Forall (fun st => NoDup (names st)) (exportStatements code exports) /\
  (fixCode code exports = None <->
   NoDup (List.concat (List.map names (exportStatements code exports)))).
Proof.
  split; [apply exportStatements_names|]. split; [|apply fixCode_without_duplicates].
  unfold fixCode, planFixes. intros H.
  destruct (statementsToRemove _) eqn:R;
    [destruct (namesToRemoveFromStatements _) eqn:N|]; try discriminate.
  apply (plan_nothing_nodup code _ emptyPlan (exportStatements_names code exports) R N).
Qed.

Lemma trailingRemoval_ge (rest : string) :
  forall removalEnd, removalEnd <= trailingRemoval rest removalEnd.
Proof.
  induction rest as [|c t IH]; intros removalEnd; cbn [trailingRemoval]; [lia|].
  destruct (Ascii.eqb c ";"); [specialize (IH (S removalEnd)); lia|].
  destruct (Ascii.eqb c "010"); [lia|].
  destruct (Ascii.eqb c "013").
  - destruct t as [|d u]; [lia|]. destruct (Ascii.eqb d "010"); lia.
  - destruct (Ascii.eqb c " " || Ascii.eqb c "009")%bool; [|lia].
    specialize (IH (S removalEnd)). lia.
Qed.

Lemma setAdd_nodup (seen : list string) (y : string) :
  NoDup seen -> NoDup (setAdd seen y).
Proof.
  intros H. unfold setAdd. destruct (includesName seen y) eqn:E; [assumption|].
  apply NoDup_app; [assumption | constructor; [intros [] | constructor] |].
  intros x Hx [<-|[]]. apply includesName_iff in Hx. congruence.
Qed.

Lemma setAddAll_nodup (xs seen : list string) :
  NoDup seen -> NoDup (setAddAll seen xs).
Proof.
  revert seen. induction xs as [|y ys IH]; intros seen H; [assumption|].
  cbn [setAddAll fold_left]. apply IH. now apply setAdd_nodup.
Qed.

Lemma namesOf_snoc (pre : list ExportStatement) (st : ExportStatement) :
  namesOf (pre ++ [st]) = (namesOf pre ++ names st)%list.
Proof.
  unfold namesOf. rewrite map_app, concat_app. cbn. now rewrite app_nil_r.
Qed.

Lemma planStatement_safe (code : string) (pre post : list ExportStatement)
      (st : ExportStatement) (p : Plan) :
  (forall x, In x (seen p) <-> In x (namesOf pre)) ->
  NoDup (seen p) ->
  takesOnlyRepeats (pre ++ st :: post) p ->
  let p1 := planStatement code p st in
  (forall x, In x (seen p1) <-> In x (namesOf (pre ++ [st]))) /\
  NoDup (seen p1) /\
  takesOnlyRepeats (pre ++ st :: post) p1.
Proof.
  intros S ND [Q1 Q2]. cbv zeta. unfold planStatement.
  assert (Dups : forall x, In x (List.filter (includesName (seen p)) (names st)) <->
                           In x (names st) /\ In x (namesOf pre)).
  { intros x. rewrite filter_In, includesName_iff, S. tauto. }
  assert (News : forall x, In x (List.filter (fun x => negb (includesName (seen p) x))
                                             (names st)) <->
                           In x (names st) /\ ~ In x (namesOf pre)).
  { intros x. rewrite filter_In, negb_true_iff. split.
    - intros [A B]. split; [assumption|]. intros K. apply S, includesName_iff in K.
      congruence.
    - intros [A B]. split; [assumption|].
      destruct (includesName (seen p) x) eqn:E; [|reflexivity].
      apply includesName_iff, S in E. contradiction. }
  destruct (List.filter (includesName (seen p)) (names st)) as [|d ds] eqn:Ed.
  - cbn [seen statementsToRemove namesToRemoveFromStatements].
    split; [|split; [now apply setAddAll_nodup | now split]].
    intros x. rewrite setAddAll_iff, namesOf_snoc, in_app_iff, S. tauto.
  - destruct (List.filter (fun x => negb (includesName (seen p) x)) (names st))
      as [|w ws] eqn:En; cbn [seen statementsToRemove namesToRemoveFromStatements].
    + assert (All : incl (names st) (namesOf pre)).
      { intros x Hx. destruct (in_dec string_dec x (namesOf pre)) as [K|K]; [assumption|].
        exfalso. now apply (proj2 (News x) (conj Hx K)). }
      split; [|split; [assumption|split; [|assumption]]].
      * intros x. rewrite namesOf_snoc, in_app_iff, S. split; [now left|].
        intros [H|H]; [assumption | now apply All].
      * intros r Hr. apply in_app_or in Hr. destruct Hr as [Hr|[<-|[]]]; [now apply Q1|].
        exists pre, st, post. cbn [fst snd]. split; [reflexivity|]. split; [reflexivity|].
        split; [apply trailingRemoval_ge|]. split; [|assumption].
        intros E. assert (K : In d (names st)) by (apply Dups; now left).
        rewrite E in K. destruct K.
    + split; [|split; [now apply setAddAll_nodup|split; [assumption|]]].
      * intros x. rewrite setAddAll_iff, namesOf_snoc, in_app_iff, S, News.
        destruct (in_dec string_dec x (namesOf pre)); tauto.
      * intros st' dups H. apply in_app_or in H. destruct H as [H|[[= <- <-]|[]]];
          [now apply Q2|].
        exists pre, post. split; [reflexivity|]. split; [discriminate|].
        split; [intros x Hx; now apply Dups|]. split; [intros x Hx; now apply Dups|].
        exists w. assert (K : In w (names st) /\ ~ In w (namesOf pre))
          by (apply News; now left).
        destruct K as [K1 K2]. split; [assumption|]. split; [|assumption].
        intros K. apply Dups in K. tauto.
Qed.

Lemma plan_safe (code : string) (stmts : list ExportStatement) :
  forall pre p,
    (forall x, In x (seen p) <-> In x (namesOf pre)) ->
    NoDup (seen p) ->
    takesOnlyRepeats (pre ++ stmts) p ->
    let p' := fold_left (planStatement code) stmts p in
    (forall x, In x (seen p') <-> In x (namesOf (pre ++ stmts))) /\
    NoDup (seen p') /\
    takesOnlyRepeats (pre ++ stmts) p'.
Proof.
  induction stmts as [|st r IH]; intros pre p S ND Q; cbv zeta; cbn [fold_left].
  - rewrite app_nil_r in *. now split.
  - destruct (planStatement_safe code pre r st p S ND Q) as (S1 & ND1 & Q1).
    replace (pre ++ st :: r)%list with ((pre ++ [st]) ++ r)%list in *
      by now rewrite <- app_assoc.
    now apply IH.
Qed.

(** X19: the plan never takes away the first export of a name.  After
    planning, [seen] holds every exported name once; a statement is removed
    only when all its names are exported by earlier statements, and the
    removal starts at the statement and reaches at least to its end; a
    statement is shortened only by names that earlier statements export,
    and keeps a name that none of them exports. *)
Theorem plan_keeps_first_export (code : string) (stmts : list ExportStatement) :
  let p := planFixes code stmts in
  (forall x, In x (seen p) <-> In x (namesOf stmts)) /\
  NoDup (seen p) /\
  takesOnlyRepeats stmts p.
Proof.
  apply (plan_safe code stmts [] emptyPlan).
  - intros x. cbn. tauto.
  - constructor.
  - split; [intros r [] | intros st dups []].
Qed.

Section Fixer.
Variable parse : string -> result (list ExportSpecifier).

Lemma fixOne_keys (dirPath : string) (d : Dir) (f : string) :
  JsMap.keys (fst (fixOne parse dirPath d f)) = JsMap.keys d.
Proof.
  unfold fixOne, fixDuplicateExportsInFile, readText, Fs.read.
  destruct (JsMap.get d f) as [b|] eqn:G; [|reflexivity]. cbn [bind].
  destruct (parse (string_of_list_byte b)) as [exports|]; [|reflexivity]. cbn [bind].
  destruct (fixCode (string_of_list_byte b) exports); [|reflexivity].
  cbn [fst]. unfold writeText. rewrite keys_set. unfold JsMap.has. now rewrite G.
Qed.

Lemma fixOne_own (dirPath : string) (d1 d2 : Dir) (f : string) :
  JsMap.get d1 f = JsMap.get d2 f ->
  JsMap.get (fst (fixOne parse dirPath d1 f)) f
  = JsMap.get (fst (fixOne parse dirPath d2 f)) f.
Proof.
  intros H. unfold fixOne, fixDuplicateExportsInFile, readText, Fs.read. rewrite H.
  destruct (JsMap.get d2 f) as [b|] eqn:G; [|cbn [bind fst]; congruence]. cbn [bind].
  destruct (parse (string_of_list_byte b)) as [exports|]; [|cbn [bind fst]; congruence].
  cbn [bind]. destruct (fixCode (string_of_list_byte b) exports); cbn [fst]; [|congruence].
  unfold writeText. now rewrite !get_set_here.
Qed.

Lemma fixAll_get (dirPath : string) (d : Dir) (l : list string) :
  forall d0,
    NoDup l ->
    (forall f, In f l -> JsMap.get d0 f = JsMap.get d f) ->
    JsMap.keys (fst (fixAll parse dirPath d0 l)) = JsMap.keys d0 /\
    forall k, JsMap.get (fst (fixAll parse dirPath d0 l)) k =
              if includesName l k then JsMap.get (fst (fixOne parse dirPath d k)) k
              else JsMap.get d0 k.
Proof.
  induction l as [|f r IH]; intros d0 ND Agree; [now split|].
  cbn [fixAll].
  pose proof (fixOne_keys dirPath d0 f) as K.
  pose proof (fixOne_own dirPath d0 d f (Agree f (or_introl eq_refl))) as O.
  pose proof (fun k => fixOne_frame parse dirPath d0 f k) as F.
  destruct (fixOne parse dirPath d0 f) as [d1 entry]. cbn [fst] in K, O, F.
  apply NoDup_cons_iff in ND. destruct ND as [Hf ND].
  destruct (IH d1 ND) as [IK IG].
  { intros g Hg. rewrite F by (intros ->; contradiction). apply Agree. now right. }
  destruct (fixAll parse dirPath d1 r) as [d2 entries]. cbn [fst] in *.
  split; [congruence|]. intros k. rewrite IG. unfold includesName. cbn [existsb].
  fold (includesName r k).
  destruct (String.eqb_spec k f) as [->|Hne]; cbn [orb].
  - destruct (includesName r f) eqn:E; [reflexivity|]. exact O.
  - destruct (includesName r k); [reflexivity|]. now apply F.
Qed.

(** X20: the directory fixer works file by file.  It creates and deletes
    nothing; an entry that is not one of the scripts it scans is left as it
    is; and a script ends up as fixing that script alone would leave it. *)
Theorem directory_fix_is_per_file (dirPath : string) (d : Dir) :
  NoDup (JsMap.keys d) ->
  let d' := fst (fixDuplicateExportsInDirectory parse dirPath d) in
  JsMap.keys d' = JsMap.keys d /\
  forall k, JsMap.get d' k =
            if includesName (getAllJsFiles d) k
            then JsMap.get (fst (fixOne parse dirPath d k)) k
            else JsMap.get d k.
Proof.
  intros ND. cbv zeta. unfold fixDuplicateExportsInDirectory.
  destruct (getAllJsFiles d) as [|f r] eqn:E; [now split|].
  pose proof (fixAll_get dirPath d (f :: r) d) as G.
  destruct (fixAll parse dirPath d (f :: r)) as [d' rs]. cbn [fst] in *.
  apply G; [|reflexivity]. rewrite <- E. unfold getAllJsFiles, globJs.
  now apply NoDup_filter.
Qed.
End Fixer.

Lemma plan_keeps_first_export_witness :
  let p := planFixes twoStatements twoStatementList in
  (forall x, In x (seen p) <-> In x (namesOf twoStatementList)) /\
  NoDup (seen p) /\
  takesOnlyRepeats twoStatementList p.
Proof. exact (plan_keeps_first_export twoStatements twoStatementList). Defined.

Lemma directory_fix_is_per_file_witness :
  let d' := fst (fixDuplicateExportsInDirectory sampleParse "/out" mixedDir) in
  JsMap.keys d' = JsMap.keys mixedDir /\
  forall k, JsMap.get d' k =
            if includesName (getAllJsFiles mixedDir) k
            then JsMap.get (fst (fixOne sampleParse "/out" mixedDir k)) k
            else JsMap.get mixedDir k.
Proof.
  apply (directory_fix_is_per_file sampleParse "/out" mixedDir).
  cbn. constructor; [intros [K|[]]; discriminate|].
  constructor; [intros [] | constructor].
Defined.

End ExportPlanFacts.

(** ** tryCompress *)

Module TryCompressFacts.
Import StrFacts MapFacts BunStaticFacts StaticFilesFacts.
Import TryCompress.

Lemma prefix_append (a b s : string) :
  String.prefix (a ++ b) s = true -> String.prefix a s = true.
Proof.
  revert s. induction a as [|c a IH]; intros s H; [now destruct s|].
  destruct s as [|d s]; [discriminate|]. cbn in H |- *.
  destruct (ascii_dec c d); [now apply IH | discriminate].
Qed.

Lemma includes_append (s a b : string) :
  Str.includes s (a ++ b) = true -> Str.includes s a = true.
Proof.
  induction s as [|c s IH]; cbn [Str.includes]; intros H.
  - rewrite orb_false_r in *. now apply prefix_append with (b := b).
  - apply orb_true_iff in H. apply orb_true_iff. destruct H as [H|H].
    + left. now apply prefix_append with (b := b).
    + right. now apply IH.
Qed.

Lemma raw_deflate_is_deflate (req : BunStatic.Request) :
  canUse req "deflate" = false -> canUse req "deflate-raw" = false.
Proof.
  unfold canUse, BunStatic.acceptsEncoding.
  destruct (BunStatic.headersGet _ _) as [v|]; [|reflexivity]. intros H.
  destruct (Str.includes v "deflate-raw") eqn:E; [|reflexivity].
  change "deflate-raw" with ("deflate" ++ "-raw") in E.
  apply includes_append in E. congruence.
Qed.

(** X21: [tryCompress] against its reading.  For a response with a body,
    the encoding is the first of zstd, gzip and deflate that the request's
    [Accept-Encoding] names, and never deflate-raw, whose branch cannot be
    reached; the answer then is a new response with status 200 whatever the
    status was, the body piped through that compression, [Content-Encoding]
    set and every other header as it was.  When no encoding is named, or
    there is no body, the response is returned as it is. *)
Theorem compression_choice (req : BunStatic.Request) (res : Response) :
  match body res, preferred req with
  | Some s, Some f =>
      f <> deflate_raw /\
      body (tryCompress req res) = Some (PipeThrough f s) /\
      status (tryCompress req res) = 200 /\
      BunStatic.headersGet (headers (tryCompress req res)) "Content-Encoding"
      = Some (formatName f) /\
      forall n, Str.toLowerCase n <> "content-encoding" ->
                BunStatic.headersGet (headers (tryCompress req res)) n
                = BunStatic.headersGet (headers res) n
  | _, _ => tryCompress req res = res
  end.
Proof.
  unfold tryCompress, preferred. cbn [List.find formatName].
  destruct (body res) as [s|]; [|reflexivity].
  assert (C : forall f, body (compressed f res s) = Some (PipeThrough f s) /\
                        status (compressed f res s) = 200 /\
                        BunStatic.headersGet (headers (compressed f res s))
                                             "Content-Encoding" = Some (formatName f) /\
                        forall n, Str.toLowerCase n <> "content-encoding" ->
                                  BunStatic.headersGet (headers (compressed f res s)) n
                                  = BunStatic.headersGet (headers res) n).
  { intros f. unfold compressed, newResponse. cbn [body status headers].
    split; [reflexivity|]. split; [reflexivity|].
    split; [apply headersGet_headersSet|]. intros n Hn.
    apply headersGet_set_other. intros K. apply Hn. now rewrite <- K. }
  destruct (canUse req "zstd"); [split; [discriminate | apply C]|].
  destruct (canUse req "gzip"); [split; [discriminate | apply C]|].
  destruct (canUse req "deflate") eqn:D; [split; [discriminate | apply C]|].
  now rewrite (raw_deflate_is_deflate req D).
Qed.

(** a client that names only [deflate-raw] is answered with [deflate], and
    a failed render comes back with status 200 and its old length *)
Example raw_deflate_gets_deflate :
  let out := tryCompress rawDeflateRequest errorPage in
  body out = Some (PipeThrough deflate (Source (list_byte_of_string "oops!"))) /\
  status out = 200 /\
  BunStatic.headersGet (headers out) "Content-Length" = Some "5".
Proof. cbv zeta. repeat split. Qed.

End TryCompressFacts.

(** ** Environment *)

Module EnvironmentFacts.
Import StrFacts MapFacts BunStaticFacts StaticFilesFacts.
Import Environment.

Lemma truthy_some (v : option string) (x : string) :
  truthy v = Some x <-> v = Some x /\ x <> "".
Proof.
  unfold truthy. destruct v as [y|]; [|split; [discriminate | intros [K _]; discriminate]].
  destruct (String.eqb_spec y "") as [->|Hne]; split.
  - discriminate.
  - intros [[= <-] K]. contradiction.
  - intros [= <-]. now split.
  - intros [[= <-] _]. reflexivity.
Qed.

Section Env.
Variable env : JsMap.t string.
Variable fileExists : string -> Promise bool.
Variable readFileSync : string -> result string.

(** X22: [getFromFileOrThrow] returns exactly the non-empty contents
    [readFileSync] returns.  Its existence check never fires, whatever
    [exists()] resolves to: for a file that cannot be read the error is the
    one [readFileSync] throws, and the only error of its own is the one
    for an empty file. *)
Theorem file_value_is_read (filePath : string) (note : option string) :
  (forall c, getFromFileOrThrow fileExists readFileSync filePath note = Ok c <->
             readFileSync filePath = Ok c /\ c <> "") /\
  (forall e, readFileSync filePath = Throw e ->
             getFromFileOrThrow fileExists readFileSync filePath note = Throw e) /\
  (readFileSync filePath = Ok "" ->
   getFromFileOrThrow fileExists readFileSync filePath note
   = Throw ("File " ++ Bundling.dquote ++ filePath ++ Bundling.dquote ++ " is empty"
            ++ fallbackNote note)).
Proof.
  unfold getFromFileOrThrow. cbn [truthyObject negb].
  destruct (readFileSync filePath) as [c0|e0]; cbn [bind].
  - split; [|split; [discriminate | now intros [= ->]]].
    intros c. destruct (truthy (Some c0)) as [x|] eqn:T.
    + apply truthy_some in T. destruct T as [[= <-] Hne]. split.
      * intros [= <-]. now split.
      * now intros [[= <-] _].
    + split; [discriminate|]. intros [[= <-] Hne]. exfalso.
      cbn [truthy] in T. destruct (String.eqb_spec c0 ""); [contradiction | discriminate].
  - split; [|split; [now intros e [= ->] | discriminate]].
    intros c. split; [discriminate | intros [K _]; discriminate].
Qed.

Lemma getFromFile_nonempty (filePath : string) (note : option string) (c : string) :
  getFromFileOrThrow fileExists readFileSync filePath note = Ok c ->
  readFileSync filePath = Ok c /\ c <> "".
Proof.
  unfold getFromFileOrThrow. cbn [truthyObject negb].
  destruct (readFileSync filePath) as [c0|e0]; cbn [bind]; [|discriminate].
  destruct (truthy (Some c0)) as [x|] eqn:T; [|discriminate].
  apply truthy_some in T. destruct T as [[= <-] Hne]. intros [= <-]. now split.
Qed.

(** X23: what [getOrThrow] returns is never empty, and it is the variable
    itself only when the variable is set, not empty and not named
    [..._FILE]; otherwise it is the content of the file named by the
    variable (for a [..._FILE] name) or by its [_FILE] companion (when the
    variable is unset or empty).  [getEnumOrThrow] returns only such values,
    and only members of [values]. *)
Theorem env_value_is_never_empty (name : string) :
  (forall v, getOrThrow env fileExists readFileSync name = Ok v ->
             v <> "" /\
             (JsMap.get env name = Some v /\ Str.endsWith name filePathSuffix = false \/
              exists filePath,
                filePath <> "" /\ readFileSync filePath = Ok v /\
                (JsMap.get env name = Some filePath /\
                 Str.endsWith name filePathSuffix = true \/
                 truthy (JsMap.get env name) = None /\
                 JsMap.get env (name ++ filePathSuffix) = Some filePath))) /\
  (forall values v,
      getEnumOrThrow env fileExists readFileSync name values = Ok v ->
      In v values /\ getOrThrow env fileExists readFileSync name = Ok v).
Proof.
  split.
  - intros v. unfold getOrThrow.
    destruct (truthy (JsMap.get env name)) as [value|] eqn:T.
    + apply truthy_some in T. destruct T as [G Hne].
      destruct (Str.endsWith name filePathSuffix) eqn:E.
      * intros H. apply getFromFile_nonempty in H. destruct H as [R Hv].
        split; [assumption|]. right. exists value. split; [assumption|].
        split; [assumption|]. left. now split.
      * intros [= <-]. split; [assumption|]. left. now split.
    + destruct (truthy (JsMap.get env (name ++ filePathSuffix))) as [p|] eqn:T2;
        [|discriminate].
      apply truthy_some in T2. destruct T2 as [G Hne].
      intros H. apply getFromFile_nonempty in H. destruct H as [R Hv].
      split; [assumption|]. right. exists p. split; [assumption|].
      split; [assumption|]. right. now split.
  - intros values v. unfold getEnumOrThrow.
    destruct (getOrThrow env fileExists readFileSync name) as [value|]; [|discriminate].
    cbn [bind]. destruct (existsb (String.eqb value) values) eqn:E; [|discriminate].
    cbn [negb]. intros [= <-]. split; [|reflexivity].
    apply existsb_exists in E. destruct E as (x & Hx & K).
    apply String.eqb_eq in K. now subst.
Qed.

(** X24: loading the module succeeds exactly when [NODE_ENV] is [test],
    [development] or [production], and then exactly one of [isTest],
    [isDev] and [isProduction] holds. *)
Theorem node_env_is_one_of_three :
  (checkNodeEnv env = Ok tt <->
   exists v, JsMap.get env "NODE_ENV" = Some v /\
             (v = "test" \/ v = "development" \/ v = "production")) /\
  (checkNodeEnv env = Ok tt ->
   (isTest env = true /\ isDev env = false /\ isProduction env = false) \/
   (isTest env = false /\ isDev env = true /\ isProduction env = false) \/
   (isTest env = false /\ isDev env = false /\ isProduction env = true)).
Proof.
  unfold checkNodeEnv, isTest, isDev, isProduction, nodeEnvIs.
  destruct (JsMap.get env "NODE_ENV") as [v|].
  2:{ cbn. split; [|discriminate]. split; [discriminate | intros (v & K & _); discriminate]. }
  destruct (String.eqb_spec v "test") as [->|N1].
  { cbn. split; [|auto]. split; [eauto | reflexivity]. }
  destruct (String.eqb_spec v "development") as [->|N2].
  { cbn. split; [|auto]. split; [eauto 6 | reflexivity]. }
  destruct (String.eqb_spec v "production") as [->|N3].
  { cbn. split; [|auto 6]. split; [eauto 6 | reflexivity]. }
  cbn. split; [|discriminate]. split; [discriminate|].
  intros (x & [= <-] & [K|[K|K]]); contradiction.
Qed.
End Env.

Lemma file_value_is_read_witness :
  getFromFileOrThrow nothingExists sampleSecrets "/run/secrets/missing" None
  = Throw "ENOENT: no such file or directory, open '/run/secrets/missing'".
Proof.
  apply (proj1 (proj2 (file_value_is_read nothingExists sampleSecrets
                         "/run/secrets/missing" None))).
  reflexivity.
Defined.

Lemma env_value_is_never_empty_witness :
  "hunter2" <> "" /\
  (JsMap.get sampleEnv "DB_PASSWORD" = Some "hunter2" /\
   Str.endsWith "DB_PASSWORD" filePathSuffix = false \/
   exists filePath,
     filePath <> "" /\ sampleSecrets filePath = Ok "hunter2" /\
     (JsMap.get sampleEnv "DB_PASSWORD" = Some filePath /\
      Str.endsWith "DB_PASSWORD" filePathSuffix = true \/
      truthy (JsMap.get sampleEnv "DB_PASSWORD") = None /\
      JsMap.get sampleEnv ("DB_PASSWORD" ++ filePathSuffix) = Some filePath)).
Proof.
  apply (proj1 (env_value_is_never_empty sampleEnv nothingExists sampleSecrets
                  "DB_PASSWORD")).
  reflexivity.
Defined.

Lemma node_env_is_one_of_three_witness :
  (isTest sampleEnv = true /\ isDev sampleEnv = false /\ isProduction sampleEnv = false) \/
  (isTest sampleEnv = false /\ isDev sampleEnv = true /\ isProduction sampleEnv = false) \/
  (isTest sampleEnv = false /\ isDev sampleEnv = false /\ isProduction sampleEnv = true).
Proof.
  apply (proj2 (node_env_is_one_of_three sampleEnv)). reflexivity.
Defined.

End EnvironmentFacts.

(** ** The routes of listed files *)

Module AssetRouteFacts.
Import BunStatic StrFacts MapFacts BunStaticFacts BundlingFacts HandlerFacts StaticFilesFacts.

(** *** the routes of the asset directory *)

Lemma collapse_single (m : string) :
  Str.includes m "//" = false -> collapseSlashes m = m.
Proof.
  induction m as [|c t IH]; [reflexivity|]. intros H.
  cbn [Str.includes] in H. apply orb_false_iff in H. destruct H as [P H].
  destruct t as [|d u]; [reflexivity|]. rewrite collapse_cons2.
  destruct (Ascii.eqb c "/" && Ascii.eqb d "/")%bool eqn:E.
  - exfalso. apply andb_prop in E. destruct E as [Ec Ed].
    apply Ascii.eqb_eq in Ec, Ed. subst c d. cbn in P. now destruct u.
  - now rewrite (IH H).
Qed.

Lemma public_asset_route (spaMode : bool) (m : string) :
  Str.includes m "//" = false ->
  computeRoute Bundling.PUBLIC_ASSET_PATH spaMode m = (Bundling.PUBLIC_ASSET_PATH ++ m).
Proof.
  intros H. unfold computeRoute, Bundling.PUBLIC_ASSET_PATH.
  change ("/dist/client/" ++ "/" ++ m) with ("/dist/client//" ++ m).
  assert (E : collapseSlashes ("/dist/client//" ++ m) = "/dist/client/" ++ m).
  { cbn [append]. rewrite !collapse_cons2. cbn [Ascii.eqb Bool.eqb andb].
    now rewrite (collapse_single m H). }
  rewrite E. reflexivity.
Qed.

Lemma mapM_covers (A B : Type) (f : A -> result B) (l : list A) (out : list B) :
  mapM f l = Ok out -> forall x, In x l -> exists y, f x = Ok y /\ In y out.
Proof.
  revert out. induction l as [|a l IH]; intros out H x Hx; [destruct Hx|].
  cbn [mapM] in H. destruct (f a) as [b|] eqn:E; [|discriminate]. cbn [bind] in H.
  destruct (mapM f l) as [ys|]; [|discriminate]. cbn [bind] in H. injection H as <-.
  destruct Hx as [->|Hx].
  - exists b. split; [assumption | now left].
  - destruct (IH ys eq_refl x Hx) as (y & Hy & Hin). exists y. split; [assumption | now right].
Qed.

Section Served.
Variable mimeType : string -> string.
Variable fs : Fs.t bytes.

(** X25: every listed file has a route.  When [bunStatic] returns, each
    group's route is a key of the table; under the prefix the bundle
    handlers use, [/dist/client/], the route of a listed file whose name
    (without a compression extension) holds no double slash is that prefix
    followed by the name, the URL the manifest gives an asset of that
    name. *)
Theorem listed_file_is_served (routePath dir : string) (headersFn : HeadersOption)
        (strategy : Strategy) (spaMode : bool) (listing : list string)
        (static : JsMap.t Handler) :
  bunStatic mimeType fs routePath dir headersFn strategy spaMode listing = Ok static ->
  forall n, In n listing ->
    JsMap.get static (computeRoute routePath spaMode (nameWithoutCompression n)) <> None /\
    (routePath = Bundling.PUBLIC_ASSET_PATH ->
     Str.includes (nameWithoutCompression n) "//" = false ->
     JsMap.get static (Bundling.PUBLIC_ASSET_PATH ++ nameWithoutCompression n) <> None).
Proof.
  intros H n Hn.
  assert (K : JsMap.get static (computeRoute routePath spaMode (nameWithoutCompression n))
              <> None).
  { unfold bunStatic in H. destruct (mapM _ (groupedFiles dir listing)) as [entries|] eqn:M;
      [|discriminate].
    cbn [bind] in H. injection H as <-.
    destruct (listed_in_group dir listing n Hn) as (g & Hg & Hname & _).
    destruct (mapM_covers _ _ _ _ _ M g Hg) as ([route h] & Hy & Hin).
    destruct (buildHandler mimeType fs strategy headersFn g) as [h0|]; [|discriminate].
    cbn [bind] in Hy. injection Hy as <- <-. rewrite <- Hname.
    apply get_in_keys.
    apply (proj2 (fold_set_keys _ _ (fun e : string * Handler => fst e)
                    (fun e => snd e) entries [] _)).
    right. apply in_map_iff. now exists (computeRoute routePath spaMode (name g), h0). }
  split; [exact K|]. intros -> Hs. now rewrite public_asset_route in K.
Qed.
End Served.

Lemma listed_file_is_served_witness :
  exists static,
    bunStatic sampleMime Bundling.shadowFs "/dist/client/" "/proj/dist-ssr/client"
              HeadersUndefined ram false ["app.js"] = Ok static /\
    JsMap.get static "/dist/client/app.js" <> None.
Proof.
  eexists. split; [vm_compute; reflexivity|].
  apply (proj2 (listed_file_is_served sampleMime Bundling.shadowFs "/dist/client/"
                  "/proj/dist-ssr/client" HeadersUndefined ram false ["app.js"] _
                  eq_refl "app.js" (or_introl eq_refl)) eq_refl eq_refl).
Defined.

End AssetRouteFacts.

(** ** The listing of a directory *)

Module ListingFacts.
Import BunStatic StrFacts MapFacts BunStaticFacts.

(** *** recursiveFilesInDir *)




End ListingFacts.

(** ** Output names *)

Module OutputNameFacts.
Import Bundling StrFacts MapFacts BundlingFacts StaticFilesFacts.

(** *** the naming convention of the outputs *)

Lemma without_app (c : ascii) (a b : string) :
  without c a -> without c b -> without c (a ++ b).
Proof.
  unfold without. rewrite list_of_append, forallb_app. now intros -> ->.
Qed.

Lemma splitOn_nonempty (sep : ascii) (s : string) : Str.splitOn sep s <> [].
Proof.
  destruct s as [|c t]; cbn [Str.splitOn]; [discriminate|].
  destruct (Ascii.eqb c sep); [discriminate|]. now destruct (Str.splitOn sep t).
Qed.

Lemma splitOn_sep (sep : ascii) (a b : string) :
  Str.splitOn sep (a ++ String sep b) = (Str.splitOn sep a ++ Str.splitOn sep b)%list.
Proof.
  induction a as [|c a IH]; cbn [append Str.splitOn].
  - now rewrite Ascii.eqb_refl.
  - destruct (Ascii.eqb c sep); [now rewrite IH|]. rewrite IH.
    pose proof (splitOn_nonempty sep a) as N. now destruct (Str.splitOn sep a).
Qed.

Lemma basename_of (dir b : string) :
  b <> "" -> without "/" b -> Path.basename (dir ++ "/" ++ b) = b.
Proof.
  intros Hne Hb. unfold Path.basename. change (dir ++ "/" ++ b) with (dir ++ String "/" b).
  rewrite splitOn_sep, (splitOn_plain b Hb), filter_app. cbn [List.filter].
  apply String.eqb_neq in Hne. rewrite Hne. cbn [negb]. now rewrite rev_app_distr.
Qed.

Lemma lastIndexOfChar_none (c : ascii) (e : string) :
  without c e -> Str.lastIndexOfChar c e = None.
Proof.
  unfold without. induction e as [|d e IH]; [reflexivity|].
  cbn [list_ascii_of_string forallb Str.lastIndexOfChar]. intros H.
  apply andb_prop in H. destruct H as [Hd He]. rewrite (IH He).
  apply negb_true_iff in Hd. now rewrite Hd.
Qed.

Lemma lastIndexOfChar_app (c : ascii) (n e : string) :
  without c e -> Str.lastIndexOfChar c (n ++ String c e) = Some (String.length n).
Proof.
  intros He. induction n as [|d n IH]; cbn [append Str.lastIndexOfChar String.length].
  - now rewrite (lastIndexOfChar_none c e He), Ascii.eqb_refl.
  - now rewrite IH.
Qed.

Lemma parseName_of (n e : string) :
  n <> "" -> e <> "" -> without "." e -> Path.parseName (n ++ "." ++ e) = n.
Proof.
  intros Hn He Hd. unfold Path.parseName.
  assert (N : (n ++ "." ++ e =? "..") = false).
  { apply String.eqb_neq. intros K. apply (f_equal String.length) in K.
    rewrite !length_append in K. destruct n; [contradiction|]. destruct e; [contradiction|].
    cbn in K. lia. }
  rewrite N. change (n ++ "." ++ e) with (n ++ String "." e).
  rewrite (lastIndexOfChar_app "." n e Hd).
  destruct n as [|c n]; [contradiction|]. cbn [String.length].
  unfold Str.slice. rewrite Nat.sub_0_r.
  apply (substring_prefix (String c n) (String "." e)).
Qed.

Lemma prefix_of_append (p r : string) : String.prefix p (p ++ r) = true.
Proof.
  induction p as [|c p IH]; cbn; [now destruct r|].
  destruct (ascii_dec c c); [assumption | contradiction].
Qed.

Lemma indexOf_after (n h : string) :
  without "-" n -> Str.indexOf (n ++ "-" ++ h) ("-" ++ h) = Some (String.length n).
Proof.
  unfold without. remember ("-" ++ h) as pat eqn:Ep.
  induction n as [|c n IH]; intros H.
  - cbn [append String.length].
    assert (P : String.prefix pat pat = true).
    { rewrite <- (append_nil_r pat) at 2. apply prefix_of_append. }
    destruct pat as [|d pat']; [discriminate Ep|]. cbn [Str.indexOf]. now rewrite P.
  - cbn [list_ascii_of_string forallb] in H. apply andb_prop in H. destruct H as [Hc Hn].
    apply negb_true_iff in Hc. cbn [append Str.indexOf String.length].
    assert (P : String.prefix pat (String c (n ++ pat)) = false).
    { rewrite Ep. cbn [append String.prefix].
      destruct (ascii_dec "-" c) as [<-|]; [|reflexivity].
      rewrite Ascii.eqb_refl in Hc. discriminate Hc. }
    rewrite P, (IH Hn). reflexivity.
Qed.

Lemma substring_none (k : nat) (s : string) : String.substring k 0 s = "".
Proof.
  revert s. induction k as [|k IH]; intros [|c s]; cbn; auto.
Qed.

Lemma replaceFirst_hash (n h : string) :
  without "-" n -> Str.replaceFirst (n ++ "-" ++ h) ("-" ++ h) "" = n.
Proof.
  intros Hn. unfold Str.replaceFirst. rewrite (indexOf_after n h Hn).
  unfold Str.slice, Str.sliceFrom. rewrite Nat.sub_0_r, substring_prefix.
  rewrite (length_append n ("-" ++ h)), Nat.sub_diag, substring_none. cbn [append].
  apply append_nil_r.
Qed.

(** X27: the naming convention that ties an output to its page.  For an
    output [Bun.build] named [<name>-<hash>.<ext>] in any directory, with a
    [name] that holds no hyphen (and no slash, like the hash and the
    extension, which also holds no dot), the output loop computes [name] as
    the base name without hash, and finds a page for it when a page of the
    route list has a hydrate module [<name>.<e>]: the first page whose
    module has that name. *)
Theorem output_name_leads_to_its_page (routes : list BunSsrRouteConfig)
        (output : BuildArtifact) (dir name h ext : string) :
  outPath output = dir ++ "/" ++ outputFileName name h ext ->
  hash output = Some h ->
  name <> "" -> without "/" name -> without "-" name ->
  without "/" h ->
  ext <> "" -> without "/" ext -> without "." ext ->
  fst (pageForOutput routes output) = name /\
  forall page d e,
    In page routes ->
    hydrateModulePath page = d ++ "/" ++ name ++ "." ++ e ->
    e <> "" -> without "/" e -> without "." e ->
    exists found,
      snd (pageForOutput routes output) = Some found /\
      Path.parseName (Path.basename (hydrateModulePath found)) = name.
Proof.
  intros Ho Hh Hn Hns Hnh Hhs He Hes Hed.
  assert (E : fst (pageForOutput routes output) = name).
  { unfold pageForOutput, hashText. cbn [fst]. rewrite Ho, Hh. unfold outputFileName.
    rewrite basename_of.
    - replace (name ++ "-" ++ h ++ "." ++ ext) with ((name ++ "-" ++ h) ++ "." ++ ext)
        by now rewrite !append_assoc.
      rewrite parseName_of; [now apply replaceFirst_hash | | assumption | assumption].
      destruct name; [contradiction | discriminate].
    - destruct name; [contradiction | discriminate].
    - repeat apply without_app; try assumption; reflexivity. }
  split; [exact E|]. intros page d e Hin Hp Hne Hse Hde.
  assert (M : Path.parseName (Path.basename (hydrateModulePath page)) = name).
  { rewrite Hp, basename_of.
    - now apply parseName_of.
    - destruct name; [contradiction | discriminate].
    - repeat apply without_app; try assumption; reflexivity. }
  unfold pageForOutput in E |- *. cbn [fst snd] in E |- *. rewrite E.
  destruct (List.find _ routes) as [found|] eqn:F.
  - exists found. split; [reflexivity|]. apply find_some in F. destruct F as [_ F].
    now apply String.eqb_eq in F.
  - exfalso. pose proof (find_none _ _ F page Hin) as K. cbv beta in K.
    rewrite M, String.eqb_refl in K. discriminate.
Qed.

Lemma output_name_leads_to_its_page_witness :
  fst (pageForOutput [sampleRoute] sampleEntry)
  = "ssr.hydrate" /\
  exists found,
    snd (pageForOutput [sampleRoute] sampleEntry)
    = Some found /\
    Path.parseName (Path.basename (hydrateModulePath found)) = "ssr.hydrate".
Proof.
  destruct (output_name_leads_to_its_page [sampleRoute] sampleEntry
              "/proj/dist-ssr/client" "ssr.hydrate" "abc123" "js"
              eq_refl eq_refl ltac:(discriminate) eq_refl eq_refl eq_refl
              ltac:(discriminate) eq_refl eq_refl) as [E P].
  split; [exact E|].
  apply (P sampleRoute "src" "tsx" (or_introl eq_refl) eq_refl ltac:(discriminate)
           eq_refl eq_refl).
Defined.

End OutputNameFacts.

(** ** Setup of the static handlers *)

Module SetupFacts.
Import BunStatic StrFacts MapFacts BunStaticFacts HandlerFacts StaticFilesFacts AssetRouteFacts.

(** *** what can fail at setup *)

Lemma mapM_returns (A B : Type) (f : A -> result B) (l : list A) :
  (forall x, In x l -> exists y, f x = Ok y) -> exists out, mapM f l = Ok out.
Proof.
  induction l as [|a l IH]; intros H; [now exists []|]. cbn [mapM].
  destruct (H a (or_introl eq_refl)) as [b ->]. cbn [bind].
  destruct IH as [ys ->]; [intros x Hx; apply H; now right|]. cbn [bind]. eauto.
Qed.

Lemma keys_by_names (V W : Type) (e1 : list (string * V)) (e2 : list (string * W)) :
  List.map fst e1 = List.map fst e2 ->
  forall (m1 : JsMap.t V) (m2 : JsMap.t W),
    JsMap.keys m1 = JsMap.keys m2 ->
    JsMap.keys (List.fold_left (fun o e => JsMap.set o (fst e) (snd e)) e1 m1)
    = JsMap.keys (List.fold_left (fun o e => JsMap.set o (fst e) (snd e)) e2 m2).
Proof.
  revert e2. induction e1 as [|[k v] e1 IH]; intros [|[k' w] e2] E m1 m2 K;
    try discriminate; [exact K|].
  cbn [List.map fst] in E. injection E as <- E. cbn [fold_left fst snd].
  apply (IH e2 E). rewrite !keys_set. unfold JsMap.has.
  assert (H : JsMap.get m1 k <> None <-> JsMap.get m2 k <> None)
    by (rewrite !get_in_keys; now rewrite K).
  destruct (JsMap.get m1 k), (JsMap.get m2 k); try (now rewrite K); exfalso.
  - apply (proj1 H); [discriminate | reflexivity].
  - apply (proj2 H); [discriminate | reflexivity].
Qed.

Section Setup.
Variable mimeType : string -> string.
Variable fs : Fs.t bytes.

Lemma variantBytes_returns (o : option GroupFile) :
  (exists b, variantBytes fs o = Ok b) <->
  (forall v, o = Some v -> JsMap.get fs (path v) <> None).
Proof.
  destruct o as [v|]; cbn [variantBytes].
  - unfold Fs.read. destruct (JsMap.get fs (path v)) as [b|] eqn:G; cbn [bind]; split.
    + intros _ v' [= <-]. congruence.
    + eauto.
    + intros [b K]. discriminate.
    + intros H. now contradiction (H v eq_refl).
  - split; [intros _ v K; discriminate | eauto].
Qed.

Lemma buildHandler_disk (headersFn : HeadersOption) (g : Group) :
  exists h, buildHandler mimeType fs disk headersFn g = Ok h.
Proof. unfold buildHandler. destruct (existsb _ (files g)); eauto. Qed.

Lemma findVariant_some (g : Group) (c : Compression) (v : GroupFile) :
  findVariant g c = Some v -> hasCompressedVariants g = true.
Proof.
  unfold findVariant, hasCompressedVariants. intros F. apply find_some in F.
  destruct F as [Hin Hc]. apply existsb_exists. exists v. split; [assumption|].
  now destruct (compression v).
Qed.

Lemma buildHandler_ram (headersFn : HeadersOption) (g : Group) :
  (exists h, buildHandler mimeType fs ram headersFn g = Ok h) <-> readable fs g.
Proof.
  unfold readable, buildHandler. fold (hasCompressedVariants g).
  destruct (hasCompressedVariants g) eqn:V.
  - pose proof (variantBytes_returns (findVariant g br)) as B.
    pose proof (variantBytes_returns (findVariant g zst)) as Z.
    pose proof (variantBytes_returns (findVariant g gz)) as G.
    destruct (variantBytes fs (findVariant g br)) as [bb|eb]; cbn [bind].
    2:{ split; [intros [h K]; discriminate|]. intros [_ H]. exfalso.
        destruct (proj2 B (H br)) as [b K]. discriminate. }
    destruct (variantBytes fs (findVariant g zst)) as [zb|ez]; cbn [bind].
    2:{ split; [intros [h K]; discriminate|]. intros [_ H]. exfalso.
        destruct (proj2 Z (H zst)) as [b K]. discriminate. }
    destruct (variantBytes fs (findVariant g gz)) as [gb|eg]; cbn [bind].
    2:{ split; [intros [h K]; discriminate|]. intros [_ H]. exfalso.
        destruct (proj2 G (H gz)) as [b K]. discriminate. }
    unfold Fs.read. destruct (JsMap.get fs (gpath g)) as [ub|]; cbn [bind].
    + split; [|eauto]. intros _. split; [discriminate|].
      intros [] v F; [apply (proj1 G) | apply (proj1 B) | apply (proj1 Z)]; eauto.
    + split; [intros [h K]; discriminate | intros [K _]; now contradiction K].
  - unfold Fs.read. destruct (JsMap.get fs (gpath g)) as [ub|]; cbn [bind].
    + split; [|eauto]. intros _. split; [discriminate|]. intros c v F.
      apply findVariant_some in F. congruence.
    + split; [intros [h K]; discriminate | intros [K _]; now contradiction K].
Qed.

(** X28: what can fail at setup.  Under the [disk] strategy [bunStatic]
    always returns: it reads no file.  Under [ram] it returns exactly when,
    for every group, the group's own file and the variant found for each
    compression are on disk.  When both return, they serve the same
    routes. *)
Theorem strategies_at_setup (routePath dir : string) (headersFn : HeadersOption)
        (spaMode : bool) (listing : list string) :
  (exists static,
      bunStatic mimeType fs routePath dir headersFn disk spaMode listing = Ok static) /\
  ((exists static,
       bunStatic mimeType fs routePath dir headersFn ram spaMode listing = Ok static) <->
   (forall g, In g (groupedFiles dir listing) -> readable fs g)) /\
  (forall inRam onDisk,
      bunStatic mimeType fs routePath dir headersFn ram spaMode listing = Ok inRam ->
      bunStatic mimeType fs routePath dir headersFn disk spaMode listing = Ok onDisk ->
      JsMap.keys inRam = JsMap.keys onDisk).
Proof.
  unfold bunStatic.
  set (entry := fun strategy (file : Group) =>
                  handler <- buildHandler mimeType fs strategy headersFn file ;;
                  Ok (computeRoute routePath spaMode (name file), handler)).
  change (fun file : Group =>
            handler <- buildHandler mimeType fs disk headersFn file ;;
            Ok (computeRoute routePath spaMode (name file), handler)) with (entry disk).
  change (fun file : Group =>
            handler <- buildHandler mimeType fs ram headersFn file ;;
            Ok (computeRoute routePath spaMode (name file), handler)) with (entry ram).
  assert (N : forall strategy out,
             mapM (entry strategy) (groupedFiles dir listing) = Ok out ->
             List.map fst out
             = List.map (fun g => computeRoute routePath spaMode (name g))
                        (groupedFiles dir listing)).
  { intros strategy. induction (groupedFiles dir listing) as [|g r IH]; intros out H.
    - cbn in H. now injection H as <-.
    - cbn [mapM] in H. unfold entry at 1 in H.
      destruct (buildHandler mimeType fs strategy headersFn g) as [h|]; [|discriminate].
      cbn [bind] in H. destruct (mapM (entry strategy) r) as [ys|]; [|discriminate].
      cbn [bind] in H. injection H as <-. cbn [List.map fst]. now rewrite (IH ys eq_refl). }
  split; [|split].
  - destruct (mapM_returns _ _ (entry disk) (groupedFiles dir listing)) as [out ->].
    + intros g _. unfold entry. destruct (buildHandler_disk headersFn g) as [h ->].
      cbn [bind]. eauto.
    + cbn [bind]. eauto.
  - split.
    + intros [static H] g Hg.
      destruct (mapM (entry ram) (groupedFiles dir listing)) as [out|] eqn:M;
        [|discriminate].
      destruct (mapM_covers _ _ _ _ _ M g Hg) as (y & Hy & _). unfold entry in Hy.
      apply buildHandler_ram with (headersFn := headersFn).
      destruct (buildHandler mimeType fs ram headersFn g) as [h|]; [eauto | discriminate].
    + intros H. destruct (mapM_returns _ _ (entry ram) (groupedFiles dir listing))
        as [out ->].
      * intros g Hg. unfold entry.
        destruct (proj2 (buildHandler_ram headersFn g) (H g Hg)) as [h ->].
        cbn [bind]. eauto.
      * cbn [bind]. eauto.
  - intros inRam onDisk.
    destruct (mapM (entry ram) (groupedFiles dir listing)) as [o1|] eqn:M1; [|discriminate].
    destruct (mapM (entry disk) (groupedFiles dir listing)) as [o2|] eqn:M2; [|discriminate].
    cbn [bind]. intros [= <-] [= <-]. apply keys_by_names; [|reflexivity].
    now rewrite (N ram o1 M1), (N disk o2 M2).
Qed.
End Setup.

Lemma strategies_at_setup_witness :
  exists static,
    bunStatic sampleMime orphanFs "/static" "/srv" HeadersUndefined disk false
              orphanListing = Ok static.
Proof.
  apply (proj1 (strategies_at_setup sampleMime orphanFs "/static" "/srv"
                  HeadersUndefined false orphanListing)).
Defined.

End SetupFacts.

(** ** The statements of a file *)

From Stdlib Require Import Sorted.

Module StatementFacts.
Import ExportFix StrFacts MapFacts ExportFixFacts ExportPlanFacts.

(** *** the boundaries of a statement *)

Lemma isChar_iff (o : option ascii) (c : ascii) : isChar o c = true <-> o = Some c.
Proof.
  unfold isChar. destruct o as [d|]; [|split; discriminate].
  rewrite Ascii.eqb_eq. split; [now intros -> | now intros [= ->]].
Qed.

Lemma firstOpenBrace_found (code : string) (steps : nat) :
  forall from i,
    firstOpenBrace code from steps = Some i ->
    from <= i /\ i < from + steps /\ charAt code i = Some "{"%char.
Proof.
  induction steps as [|k IH]; intros from i H; [discriminate|].
  cbn [firstOpenBrace] in H. destruct (isChar (charAt code from) "{") eqn:E.
  - injection H as <-. apply isChar_iff in E. repeat split; [lia | lia | exact E].
  - destruct (IH _ _ H) as (A & B & C). repeat split; [lia | lia | exact C].
Qed.

Lemma findExportKeyword_found (code : string) (exportNameStart : nat) (searchStart : nat) :
  forall kw k i,
    findExportKeyword code exportNameStart searchStart kw = (Some k, Some i) ->
    k < searchStart /\ Str.slice code k (k + 6) = "export" /\
    k + 6 <= i /\ i < exportNameStart /\ charAt code i = Some "{"%char.
Proof.
  induction searchStart as [|s IH]; intros kw k i H; [discriminate|].
  cbn [findExportKeyword] in H.
  destruct ((Str.slice code s (s + 6) =? "export") && _)%bool eqn:E.
  - apply andb_prop in E. destruct E as [E _]. apply String.eqb_eq in E.
    destruct (firstOpenBrace code (s + 6) (exportNameStart - (s + 6))) as [j|] eqn:F.
    + injection H as <- <-. destruct (firstOpenBrace_found _ _ _ _ F) as (A & B & C).
      repeat split; [lia | exact E | lia | lia | exact C].
    + destruct (IH _ _ _ H) as (A & R). split; [lia | exact R].
  - destruct (IH _ _ _ H) as (A & R). split; [lia | exact R].
Qed.

Lemma findCloseBrace_found (rest : string) :
  forall i depth j,
    findCloseBrace rest i depth = Some j ->
    i <= j /\ String.get (j - i) rest = Some "}"%char.
Proof.
  induction rest as [|c t IH]; intros i depth j H; [discriminate|].
  cbn [findCloseBrace] in H.
  assert (Step : forall d, findCloseBrace t (S i) d = Some j ->
                           i <= j /\ String.get (j - i) (String c t) = Some "}"%char).
  { intros d K. destruct (IH _ _ _ K) as [A B]. split; [lia|].
    replace (j - i) with (S (j - S i)) by lia. exact B. }
  destruct (Ascii.eqb c "{"); [now apply (Step (S depth))|].
  destruct (Ascii.eqb c "}") eqn:E; [|now apply (Step depth)].
  destruct (depth - 1 =? 0)%nat; [|now apply (Step (depth - 1))].
  injection H as <-. apply Ascii.eqb_eq in E. subst c. split; [lia|].
  now rewrite Nat.sub_diag.
Qed.

Lemma get_sliceFrom (code : string) (o k : nat) (c : ascii) :
  String.get k (Str.sliceFrom code o) = Some c -> charAt code (o + k) = Some c.
Proof.
  unfold Str.sliceFrom, charAt. revert o k. induction code as [|d code IH]; intros o k H.
  - destruct o; cbn in H; destruct k; discriminate.
  - destruct o as [|o].
    + cbn [String.length Nat.sub plus]. rewrite Nat.sub_0_r in H.
      assert (E : String.substring 0 (String.length (String d code)) (String d code)
                  = String d code).
      { rewrite <- (append_nil_r (String d code)) at 2.
        apply (StaticFilesFacts.substring_prefix (String d code) ""). }
      now rewrite E in H.
    + cbn [String.length Nat.sub String.substring] in H. cbn [plus String.get].
      now apply IH.
Qed.

Lemma statementAround_found (code : string) (exp : ExportSpecifier) (a b : nat) :
  statementAround code exp = Some (a, b) ->
  Str.slice code a (a + 6) = "export" /\ a + 6 < b /\
  charAt code (b - 1) = Some "}"%char.
Proof.
  unfold statementAround.
  destruct (findExportKeyword code (s exp) (s exp) None) as [[k|] [o|]] eqn:K;
    try discriminate.
  destruct (findCloseBrace (Str.sliceFrom code o) o 0) as [j|] eqn:C; [|discriminate].
  intros [= <- <-].
  destruct (findExportKeyword_found _ _ _ _ _ _ K) as (_ & E & A & _ & _).
  destruct (findCloseBrace_found _ _ _ _ C) as [B G].
  split; [exact E|]. split; [lia|].
  replace (j + 1 - 1) with (o + (j - o)) by lia. now apply get_sliceFrom.
Qed.

Lemma addName_delimited (code : string) (stmts : list ExportStatement) (a b : nat)
      (x : string) :
  Forall (wellDelimited code) stmts -> Forall (wellDelimited code) (addName stmts a b x).
Proof.
  induction 1 as [|st r Hst Hr IH]; [constructor|]. cbn [addName].
  destruct (sameStatement a b st); [|now constructor].
  constructor; [|assumption].
  destruct (includesName (names st) x); [assumption|].
  destruct Hst as (A & B & C & _). repeat split; try assumption.
  cbn [names]. now destruct (names st).
Qed.

Lemma collectExport_delimited (code : string) (stmts : list ExportStatement)
      (exp : ExportSpecifier) :
  Forall (wellDelimited code) stmts ->
  Forall (wellDelimited code) (collectExport code stmts exp).
Proof.
  intros H. unfold collectExport. destruct (truthy (n exp)) as [x|]; [|assumption].
  destruct (statementAround code exp) as [[a b]|] eqn:S; [|assumption].
  destruct (existsb (sameStatement a b) stmts); [now apply addName_delimited|].
  apply Forall_app. split; [assumption|]. constructor; [|constructor].
  destruct (statementAround_found _ _ _ _ S) as (A & B & C).
  repeat split; try assumption. discriminate.
Qed.

Lemma insertByStart_sorted (st : ExportStatement) (sorted : list ExportStatement) :
  Sorted.StronglySorted (fun x y => start x <= start y) sorted ->
  Sorted.StronglySorted (fun x y => start x <= start y) (insertByStart st sorted).
Proof.
  induction 1 as [|h r Hr IH Hh]; cbn [insertByStart].
  - constructor; constructor.
  - destruct (start st <? start h)%nat eqn:L.
    + apply Nat.ltb_lt in L. constructor; [now constructor|].
      constructor; [lia|]. eapply Forall_impl; [|exact Hh]. cbv beta. intros y Hy. lia.
    + apply Nat.ltb_ge in L. constructor; [assumption|].
      apply insertByStart_Forall; assumption.
Qed.

(** X29: the statements the fixer collects.  Each starts at an [export]
    keyword, ends right after a closing brace behind that keyword, and
    lists at least one name; and the list is in ascending order of the
    start positions. *)
Theorem collected_statements_are_delimited (code : string)
        (exports : list ExportSpecifier) :
  Forall (wellDelimited code) (exportStatements code exports) /\
  Sorted.StronglySorted (fun x y => start x <= start y) (exportStatements code exports).
Proof.
  unfold exportStatements. split.
  - apply sortByStart_Forall.
    assert (G : forall acc, Forall (wellDelimited code) acc ->
                            Forall (wellDelimited code)
                                   (fold_left (collectExport code) exports acc)).
    { induction exports as [|exp r IH]; intros acc Hacc; [assumption|]. cbn [fold_left].
      apply IH. now apply collectExport_delimited. }
    apply G. constructor.
  - unfold sortByStart.
    assert (G : forall l acc,
               Sorted.StronglySorted (fun x y => start x <= start y) acc ->
               Sorted.StronglySorted (fun x y => start x <= start y)
                 (fold_left (fun sorted st => insertByStart st sorted) l acc)).
    { induction l as [|st r IH]; intros acc Hacc; [assumption|]. cbn [fold_left].
      apply IH. now apply insertByStart_sorted. }
    apply G. constructor.
Qed.

End StatementFacts.

(** ** Removing a statement *)

Module RemovalFacts.
Import ExportFix StrFacts MapFacts ExportFixFacts ExportPlanFacts.

(** *** what goes with a removed statement *)


End RemovalFacts.
